(** * Short-track result pipeline: normalisers, de-duplication, cross-validation

    A shallow embedding of the pure parts of the scripts
    [scripts/build_time_trends.py], [scripts/cross_validate_uss.py] and
    [data/parse_uss_pdfs.py], followed by the properties proved about them.

    Conventions of the embedding.
    - A Python [str] is a Rocq [string] whose characters are the code points
      below 256, one [ascii] per code point.  The character classes of
      [PyStr] are the Unicode ones restricted to that range.
    - A Python [float] is an exact rational (or an infinity, or NaN):
      binary64 rounding and overflow are not modelled.
    - A calendar date is the proleptic Gregorian ordinal of Python's
      [date.toordinal()], 1 for 0001-01-01 up to 3652059 for 9999-12-31.
    - A JSON [null] (Python [None]) is [None] of an [option]. *)

From Stdlib Require Import ZArith QArith Lia Lqa Bool Ascii String List Sorted.
From stdpp Require Import base option list gmap strings.

Import ListNotations.
Local Open Scope string_scope.
Local Open Scope Z_scope.
#[local] Arguments String.append !s1 s2 : simpl nomatch.

(* ===================================================================== *)
(** ** Python string primitives *)
(* ===================================================================== *)

Module PyStr.

Definition code (c : ascii) : nat := nat_of_ascii c.

Definition in_range (lo hi : nat) (c : ascii) : bool :=
  (lo <=? code c)%nat && (code c <=? hi)%nat.

(** [str.isspace] on one character; also the class [\s] of [re] and the
    characters removed by [str.strip()] and [str.split()]. *)
Definition isspace (c : ascii) : bool :=
  in_range 9 13 c || in_range 28 32 c
  || (code c =? 133)%nat || (code c =? 160)%nat.

(** The class [\d] of [re]; the decimal digits accepted by [int] and
    [float]. *)
Definition isdigit (c : ascii) : bool := in_range 48 57 c.

Definition is_upper (c : ascii) : bool :=
  in_range 65 90 c || in_range 192 214 c || in_range 216 222 c.

Definition is_lower (c : ascii) : bool :=
  in_range 97 122 c || (code c =? 170)%nat || (code c =? 181)%nat
  || (code c =? 186)%nat || in_range 223 246 c || in_range 248 255 c.

Definition is_cased (c : ascii) : bool := is_upper c || is_lower c.

(** [[a-z]] under [re.IGNORECASE], and [[a-z0-9]]. *)
Definition is_letter (c : ascii) : bool :=
  in_range 65 90 c || in_range 97 122 c.
Definition is_alnum (c : ascii) : bool := is_letter c || isdigit c.

Definition lower_char (c : ascii) : ascii :=
  if is_upper c then ascii_of_nat (code c + 32) else c.

(** Upper-case of a character.  The micro sign, the sharp s and the y with
    diaeresis, whose upper-case forms are not below 256, are left as they
    are: they are lower-case letters, and the scripts upper-case (through
    [title]) only words that hold no lower-case letter. *)
Definition upper_char (c : ascii) : ascii :=
  if in_range 97 122 c || in_range 224 246 c || in_range 248 254 c
  then ascii_of_nat (code c - 32) else c.

Fixpoint map_chars (f : ascii -> ascii) (s : string) : string :=
  match s with
  | EmptyString => EmptyString
  | String c s' => String (f c) (map_chars f s')
  end.

Fixpoint forallb_chars (p : ascii -> bool) (s : string) : bool :=
  match s with
  | EmptyString => true
  | String c s' => p c && forallb_chars p s'
  end.

Fixpoint existsb_chars (p : ascii -> bool) (s : string) : bool :=
  match s with
  | EmptyString => false
  | String c s' => p c || existsb_chars p s'
  end.

(** [s.lower()] *)
Definition lower (s : string) : string := map_chars lower_char s.

(** [s.isupper()]: some cased character, and no lower-case one. *)
Definition isupper (s : string) : bool :=
  existsb_chars is_cased s && forallb_chars (fun c => negb (is_lower c)) s.

(** [s.title()]: a cased character is upper-cased after an uncased one (or
    at the start) and lower-cased after a cased one. *)
Fixpoint title_go (prev_cased : bool) (s : string) : string :=
  match s with
  | EmptyString => EmptyString
  | String c s' =>
      String (if prev_cased then lower_char c else upper_char c)
             (title_go (is_cased c) s')
  end.
Definition title (s : string) : string := title_go false s.

Fixpoint lstrip_by (p : ascii -> bool) (s : string) : string :=
  match s with
  | EmptyString => EmptyString
  | String c s' => if p c then lstrip_by p s' else s
  end.

Fixpoint rstrip_by (p : ascii -> bool) (s : string) : string :=
  match s with
  | EmptyString => EmptyString
  | String c s' =>
      match rstrip_by p s' with
      | EmptyString => if p c then EmptyString else String c EmptyString
      | r => String c r
      end
  end.

(** [s.strip()] *)
Definition strip (s : string) : string :=
  rstrip_by isspace (lstrip_by isspace s).

Definition cons_word (w : string) (ws : list string) : list string :=
  match w with EmptyString => ws | _ => w :: ws end.

(** The word being read at the front of [s], and the words after it. *)
Fixpoint split_go (s : string) : string * list string :=
  match s with
  | EmptyString => (EmptyString, [])
  | String c s' =>
      let '(w, ws) := split_go s' in
      if isspace c then (EmptyString, cons_word w ws) else (String c w, ws)
  end.

(** [s.split()]: the maximal runs of non-space characters. *)
Definition split (s : string) : list string :=
  let '(w, ws) := split_go s in cons_word w ws.

(** [sep.join(l)] *)
Definition join (sep : string) (l : list string) : string :=
  String.concat sep l.

(** [s.split(sep)] for a one-character separator: never empty, and empty
    fields are kept. *)
Fixpoint split_on (sep : ascii) (s : string) : list string :=
  match s with
  | EmptyString => [EmptyString]
  | String c s' =>
      match split_on sep s' with
      | [] => [EmptyString]
      | w :: ws =>
          if Ascii.eqb c sep then EmptyString :: w :: ws
          else String c w :: ws
      end
  end.

(** [sub in s] *)
Fixpoint contains (sub s : string) : bool :=
  String.prefix sub s ||
  match s with
  | EmptyString => false
  | String _ s' => contains sub s'
  end.

(** [s[:n]] *)
Fixpoint take (n : nat) (s : string) : string :=
  match n, s with
  | S n', String c s' => String c (take n' s')
  | _, _ => EmptyString
  end.

(** [s[n:]] *)
Fixpoint drop (n : nat) (s : string) : string :=
  match n, s with
  | S n', String _ s' => drop n' s'
  | _, _ => s
  end.

(** [s.replace(old, new)] for a non-empty [old]: occurrences are replaced
    from the left and do not overlap.  [skip] counts the characters of an
    occurrence still to be passed over. *)
Fixpoint replace_go (old new : string) (skip : nat) (s : string) : string :=
  match s with
  | EmptyString => EmptyString
  | String c s' =>
      match skip with
      | S k => replace_go old new k s'
      | O =>
          if String.prefix old s
          then new ++ replace_go old new (String.length old - 1) s'
          else String c (replace_go old new 0 s')
      end
  end.
Definition replace (old new s : string) : string := replace_go old new 0 s.

Definition digit_val (c : ascii) : Z := Z.of_nat (code c - 48).

(** The value of a string of decimal digits ([int] on such a string). *)
Fixpoint digits_val_acc (acc : Z) (s : string) : Z :=
  match s with
  | EmptyString => acc
  | String c s' => digits_val_acc (10 * acc + digit_val c) s'
  end.
Definition digits_val (s : string) : Z := digits_val_acc 0 s.

(** Python truthiness of a string. *)
Definition truthy (s : string) : bool :=
  match s with EmptyString => false | _ => true end.

End PyStr.

(* ===================================================================== *)
(** ** The fragment of [re] used by the scripts *)
(* ===================================================================== *)

(** Every pattern of the scripts is a sequence of greedy repetitions of a
    character class, alternations of literals and the anchors [^] and [$].
    Matching is the backtracking search of [re]: a repetition first takes
    as many characters as it can and gives them back one at a time, and
    the alternatives of a group are tried from left to right. *)
Module Re.
Import PyStr.

Inductive atom : Type :=
| Rep (cls : ascii -> bool) (lo : nat) (hi : option nat)
    (** [c{lo,hi}]; [hi = None] for [c*], [c+] and [c{lo,}] *)
| Alt (alts : list string) (icase : bool)
    (** [(a|b|...)], a literal when there is one alternative; [icase]
        under [re.IGNORECASE] *)
| Bol  (** [^] *)
| Eol. (** [$]: the end of the string, or just before a final newline *)

Definition regex : Type := list atom.

Definition newline : ascii := ascii_of_nat 10.

Definition at_end (s : string) : bool :=
  match s with
  | EmptyString => true
  | String c EmptyString => Ascii.eqb c newline
  | _ => false
  end.

(** Length of the longest prefix of [s] in the class, at most [hi]. *)
Fixpoint run (cls : ascii -> bool) (hi : option nat) (s : string) : nat :=
  match s with
  | EmptyString => O
  | String c s' =>
      match hi with
      | Some O => O
      | Some (S h) => if cls c then S (run cls (Some h) s') else O
      | None => if cls c then S (run cls None s') else O
      end
  end.

(** [s] without the literal [lit] at its front, when it starts with it. *)
Fixpoint strip_lit (icase : bool) (lit s : string) : option string :=
  match lit, s with
  | EmptyString, _ => Some s
  | String a lit', String c s' =>
      if (if icase then Ascii.eqb (lower_char a) (lower_char c)
          else Ascii.eqb a c)
      then strip_lit icase lit' s' else None
  | String _ _, EmptyString => None
  end.

Section Backtrack.
(** [k] matches the rest of the pattern. *)
Variable k : bool -> string -> option string.

(** Try [n], [n-1], ..., [lo] characters for a repetition. *)
Fixpoint try_rep (at_start : bool) (s : string) (lo n : nat)
  : option string :=
  if (n <? lo)%nat then None
  else match k (at_start && (n =? 0)%nat) (drop n s) with
       | Some rest => Some rest
       | None =>
           match n with
           | O => None
           | S n' => try_rep at_start s lo n'
           end
       end.

Fixpoint try_alts (at_start : bool) (s : string) (icase : bool)
    (alts : list string) : option string :=
  match alts with
  | [] => None
  | lit :: alts' =>
      match strip_lit icase lit s with
      | Some s' =>
          match k (at_start && negb (truthy lit)) s' with
          | Some rest => Some rest
          | None => try_alts at_start s icase alts'
          end
      | None => try_alts at_start s icase alts'
      end
  end.
End Backtrack.

(** Match the pattern at the front of [s]; the result is what follows
    the match.  [at_start] tells whether [s] is the whole subject. *)
Fixpoint match_here (r : regex) (at_start : bool) (s : string)
  : option string :=
  match r with
  | [] => Some s
  | Rep cls lo hi :: r' =>
      try_rep (match_here r') at_start s lo (run cls hi s)
  | Alt alts icase :: r' => try_alts (match_here r') at_start s icase alts
  | Bol :: r' => if at_start then match_here r' at_start s else None
  | Eol :: r' => if at_end s then match_here r' at_start s else None
  end.

(** [re.search(r, s)]: the text of the leftmost match. *)
Fixpoint search_go (r : regex) (at_start : bool) (s : string)
  : option string :=
  match match_here r at_start s with
  | Some rest => Some (take (String.length s - String.length rest) s)
  | None =>
      match s with
      | EmptyString => None
      | String _ s' => search_go r false s'
      end
  end.
Definition search (r : regex) (s : string) : option string :=
  search_go r true s.

(** [re.sub(r, repl, s)] for a replacement without group references:
    the non-overlapping matches are replaced from the left.  [skip]
    counts the characters of the current match still to be dropped; after
    an empty match one character is copied. *)
Fixpoint sub_go (r : regex) (repl : string) (skip : nat) (at_start : bool)
    (s : string) {struct s} : string :=
  match skip with
  | S j =>
      match s with
      | EmptyString => EmptyString
      | String _ s' => sub_go r repl j false s'
      end
  | O =>
      match match_here r at_start s with
      | Some rest =>
          match (String.length s - String.length rest)%nat, s with
          | S j, String _ s' => repl ++ sub_go r repl j false s'
          | _, String c s' => repl ++ String c (sub_go r repl O false s')
          | _, EmptyString => repl
          end
      | None =>
          match s with
          | EmptyString => EmptyString
          | String c s' => String c (sub_go r repl O false s')
          end
      end
  end.
Definition sub (r : regex) (repl s : string) : string :=
  sub_go r repl O true s.

Definition lit (s : string) : atom := Alt [s] false.
Definition star (cls : ascii -> bool) : atom := Rep cls 0 None.
Definition plus (cls : ascii -> bool) : atom := Rep cls 1 None.
Definition times (cls : ascii -> bool) (n : nat) : atom :=
  Rep cls n (Some n).
Definition is_char (a : ascii) (c : ascii) : bool := Ascii.eqb a c.

End Re.

(* ===================================================================== *)
(** ** Python floats, idealised *)
(* ===================================================================== *)

Module PyFloat.
Import PyStr.

(** A finite value is kept in lowest terms, so that two finite values
    are the same number exactly when they are the same term. *)
Inductive pyfloat : Type :=
| Fin (q : Q)
| Inf (negative : bool)
| NaN.

Definition fin (q : Q) : pyfloat := Fin (Qred q).
Definition of_Z (n : Z) : pyfloat := fin (inject_Z n).

Definition Qltb (a b : Q) : bool := negb (Qle_bool b a).

Definition fmul (x y : pyfloat) : pyfloat :=
  match x, y with
  | NaN, _ | _, NaN => NaN
  | Fin a, Fin b => fin (a * b)
  | Inf s, Fin b | Fin b, Inf s =>
      if Qeq_bool b 0 then NaN else Inf (xorb s (Qltb b 0))
  | Inf s, Inf t => Inf (xorb s t)
  end.

Definition fadd (x y : pyfloat) : pyfloat :=
  match x, y with
  | NaN, _ | _, NaN => NaN
  | Fin a, Fin b => fin (a + b)
  | Inf s, Fin _ | Fin _, Inf s => Inf s
  | Inf s, Inf t => if Bool.eqb s t then Inf s else NaN
  end.

(** [x <= y] and [x < y]; every comparison with NaN is false. *)
Definition fleb (x y : pyfloat) : bool :=
  match x, y with
  | NaN, _ | _, NaN => false
  | Fin a, Fin b => Qle_bool a b
  | Inf s, Inf t => s || negb t
  | Inf s, Fin _ => s
  | Fin _, Inf t => negb t
  end.

Definition fltb (x y : pyfloat) : bool :=
  match x, y with
  | NaN, _ | _, NaN => false
  | Fin a, Fin b => Qltb a b
  | Inf s, Inf t => s && negb t
  | Inf s, Fin _ => s
  | Fin _, Inf t => negb t
  end.

(** [x == y] *)
Definition feqb (x y : pyfloat) : bool :=
  match x, y with
  | Fin a, Fin b => Qeq_bool a b
  | Inf s, Inf t => Bool.eqb s t
  | _, _ => false
  end.

(** [x is y or x == y], the comparison made between the items of lists
    and dictionaries: an object is taken to be equal to itself. *)
Definition same (x y : pyfloat) : bool :=
  match x, y with
  | NaN, NaN => true
  | _, _ => feqb x y
  end.

(** Python truthiness: only zero is false. *)
Definition truthy (x : pyfloat) : bool :=
  match x with
  | Fin q => negb (Qeq_bool q 0)
  | _ => true
  end.

(** *** [float(s)] on a string *)

(** The blanks [float] accepts around a number. *)
Definition float_space (c : ascii) : bool :=
  in_range 9 13 c || (code c =? 32)%nat
  || (code c =? 133)%nat || (code c =? 160)%nat.

Definition underscore : ascii := "_"%char.

(** Digit-group underscores: each one must stand between two digits.
    [prev_digit] tells whether the previous character was a digit. *)
Fixpoint drop_underscores (prev_digit : bool) (s : string) : option string :=
  match s with
  | EmptyString => Some EmptyString
  | String c s' =>
      if Ascii.eqb c underscore then
        match s' with
        | String d _ =>
            if prev_digit && isdigit d then drop_underscores false s'
            else None
        | EmptyString => None
        end
      else
        match drop_underscores (isdigit c) s' with
        | Some r => Some (String c r)
        | None => None
        end
  end.

(** The digits at the front of [s], and what follows them. *)
Fixpoint span_digits (s : string) : string * string :=
  match s with
  | EmptyString => (EmptyString, EmptyString)
  | String c s' =>
      if isdigit c
      then let '(d, rest) := span_digits s' in (String c d, rest)
      else (EmptyString, s)
  end.

(** An optional sign: whether it is [-], and what follows it. *)
Definition take_sign (s : string) : bool * string :=
  match s with
  | String "-" s' => (true, s')
  | String "+" s' => (false, s')
  | _ => (false, s)
  end.

(** [[eE][+-]?digits] up to the end of the string, or nothing at all. *)
Definition parse_exponent (s : string) : option Z :=
  match s with
  | EmptyString => Some 0
  | String c s' =>
      if Ascii.eqb (lower_char c) "e" then
        let '(neg, s1) := take_sign s' in
        match span_digits s1 with
        | (String _ _ as d, EmptyString) =>
            Some (if neg : bool then - digits_val d else digits_val d)
        | _ => None
        end
      else None
  end.

(** The number [m * 10^k]. *)
Definition scale10 (m k : Z) : Q :=
  if 0 <=? k then inject_Z (m * 10 ^ k) else m # Z.to_pos (10 ^ (- k)).

(** [digits [. digits] [exponent]] or [. digits [exponent]]. *)
Definition parse_decimal (s : string) : option Q :=
  let '(int_part, s1) := span_digits s in
  let '(frac_part, s2) :=
    match s1 with
    | String "." s1' => span_digits s1'
    | _ => (EmptyString, s1)
    end in
  match int_part ++ frac_part with
  | EmptyString => None
  | mantissa =>
      match parse_exponent s2 with
      | Some e =>
          Some (scale10 (digits_val mantissa)
                        (e - Z.of_nat (String.length frac_part)))
      | None => None
      end
  end.

Definition float_of_string (s : string) : option pyfloat :=
  let s := rstrip_by float_space (lstrip_by float_space s) in
  let '(neg, body) := take_sign s in
  let word := lower body in
  if String.eqb word "inf" || String.eqb word "infinity" then Some (Inf neg)
  else if String.eqb word "nan" then Some NaN
  else
    match drop_underscores false body with
    | Some digits =>
        match parse_decimal digits with
        | Some q => Some (fin (if neg then - q else q))
        | None => None
        end
    | None => None
    end.

End PyFloat.

(* ===================================================================== *)
(** ** Dictionaries that remember insertion order *)
(* ===================================================================== *)

(** A [defaultdict(list)] whose items are later iterated: the keys in the
    order of their first insertion, each with the values appended to it. *)
Module ODict.
Section Groups.
Context {K V : Type} `{EqDecision K}.

(** [d[k].append(v)] *)
Fixpoint append (k : K) (v : V) (d : list (K * list V))
  : list (K * list V) :=
  match d with
  | [] => [(k, [v])]
  | (k', vs) :: d' =>
      if decide (k' = k) then (k', (vs ++ [v])%list) :: d'
      else (k', vs) :: append k v d'
  end.

(** [d.get(k, [])] *)
Fixpoint get (k : K) (d : list (K * list V)) : list V :=
  match d with
  | [] => []
  | (k', vs) :: d' => if decide (k' = k) then vs else get k d'
  end.

(** The loop [for v in l: d[key(v)].append(v)] from an empty [d]. *)
Definition group_by (key : V -> K) (l : list V) : list (K * list V) :=
  fold_left (fun d v => append (key v) v d) l [].
End Groups.
End ODict.

(** [list.sort(key=...)]: a stable sort that compares with [<] only.  On
    keys that are totally ordered every stable sort gives this list. *)
Module PySort.
Section Sort.
Context {A : Type} (ltb : A -> A -> bool).

Fixpoint insert (x : A) (l : list A) : list A :=
  match l with
  | [] => [x]
  | y :: l' => if ltb y x then y :: insert x l' else x :: y :: l'
  end.

(** The elements are inserted from the last to the first, so that of
    two elements neither of which is below the other the earlier one
    stays in front. *)
Fixpoint sort (l : list A) : list A :=
  match l with
  | [] => []
  | x :: l' => insert x (sort l')
  end.
End Sort.
End PySort.

(* ===================================================================== *)
(** ** scripts/build_time_trends.py *)
(* ===================================================================== *)

Module BuildTimeTrends.
Import PyStr PyFloat.

(** *** parse_time *)

Definition colon : ascii := ":"%char.

Definition parse_time (time_str : option string) : option pyfloat :=
  match time_str with
  | None => None
  | Some time_str =>
      if negb (PyStr.truthy time_str) then None
      else
        let time_str := strip time_str in
        if contains ":" time_str then
          let parts := split_on colon time_str in
          match parts !! 0%nat, parts !! 1%nat with
          | Some p0, Some p1 =>
              match float_of_string p0, float_of_string p1 with
              | Some mins, Some secs => Some (fadd (fmul mins (of_Z 60)) secs)
              | _, _ => None
              end
          | _, _ => None
          end
        else float_of_string time_str
  end.

(** *** normalize_distance *)

Definition mappings : list ((Z * Z) * Z) :=
  [ ((200, 240), 222);
    ((300, 360), 333);
    ((390, 430), 500);
    ((450, 550), 500);
    ((580, 620), 500);
    ((640, 700), 777);
    ((740, 820), 777);
    ((900, 1100), 1000);
    ((1400, 1600), 1500);
    ((1900, 2100), 1500);
    ((2800, 3200), 3000) ].

Definition standard_distances : list Z :=
  [222; 333; 500; 777; 1000; 1500; 3000].

Definition in_mapping (distance : Z) (m : (Z * Z) * Z) : bool :=
  let '((low, high), _) := m in (low <=? distance) && (distance <=? high).

Definition normalize_distance (distance : option Z) : option Z :=
  match distance with
  | None => None
  | Some distance =>
      if distance =? 0 then None
      else
        match List.find (in_mapping distance) mappings with
        | Some (_, standard) => Some standard
        | None =>
            if existsb (Z.eqb distance) standard_distances
            then Some distance
            else if (distance <? 200) || (4000 <? distance) then None
            else None
        end
  end.

(** *** is_valid_time_for_distance *)

Definition bounds : list (Z * (Z * Z)) :=
  [ (222, (18, 90));
    (333, (25, 120));
    (500, (38, 150));
    (777, (60, 210));
    (1000, (80, 300));
    (1500, (130, 420));
    (3000, (280, 720)) ].

Definition bounds_get (distance : Z) : option (Z * Z) :=
  match List.find (fun b => fst b =? distance) bounds with
  | Some (_, mm) => Some mm
  | None => None
  end.

Definition between (lo : Z) (t : pyfloat) (hi : Z) : bool :=
  fleb (of_Z lo) t && fleb t (of_Z hi).

Definition is_valid_time_for_distance (time_secs : pyfloat) (distance : Z)
  : bool :=
  if negb (PyFloat.truthy time_secs) || (distance =? 0) then false
  else
    match bounds_get distance with
    | Some (min_time, max_time) => between min_time time_secs max_time
    | None => between 25 time_secs 600
    end.

(** *** normalize_name *)

Definition nbsp : string := String (ascii_of_nat 160) EmptyString.

(** [\s+[a-z]{2,3}-[a-z0-9]+$] under [re.IGNORECASE] *)
Definition club_suffix : Re.regex :=
  [ Re.plus isspace; Re.Rep is_letter 2 (Some 3%nat); Re.lit "-";
    Re.plus is_alnum; Re.Eol ].

(** [\s+(usa|can|chn|kor|jpn|ned|ita|rus|gbr|ger|fra|aus)$] under
    [re.IGNORECASE] *)
Definition country_suffix : Re.regex :=
  [ Re.plus isspace;
    Re.Alt ["usa"; "can"; "chn"; "kor"; "jpn"; "ned"; "ita"; "rus"; "gbr";
            "ger"; "fra"; "aus"] true;
    Re.Eol ].

(** [^\d+] *)
Definition leading_digits : Re.regex := [ Re.Bol; Re.plus isdigit ].

(** [\*+$] *)
Definition trailing_stars : Re.regex :=
  [ Re.plus (Re.is_char "*"); Re.Eol ].

Definition normalize_name (name : string) : string :=
  let name := lower (strip (replace "  " " " (replace nbsp " " name))) in
  let name := Re.sub club_suffix "" name in
  let name := Re.sub country_suffix "" name in
  let name := Re.sub leading_digits "" name in
  let name := Re.sub trailing_stars "" name in
  join " " (split name).

(** [f"{name_parts[-1]} {' '.join(name_parts[:-1])}"] of
    [name_parts = norm_name.split()], when there are two parts or more. *)
Definition reversed_name (norm_name : string) : option string :=
  let name_parts := split norm_name in
  if (2 <=? List.length name_parts)%nat then
    Some (List.last name_parts "" ++ " "
          ++ join " " (List.removelast name_parts))
  else None.

(** *** Results and the raw records they are loaded from *)

Inductive source_tag : Type := uss_pdf | uss_hist | stl.

(** One entry of [results_by_skater] and of a timeline.  [date] is the
    date behind the stored ISO string (a midnight [datetime]). *)
Record result : Type := mk_result {
  distance : Z;
  time : pyfloat;
  time_str : option string;
  competition : string;
  date : option Z;
  place : option Z;
  source : source_tag
}.

(** An entry of the ["results"] list of [uss_all_results.json] (which
    carries ["rank"]) or of [us_historical_results.json] (which carries
    ["place"]); a missing key is [None]. *)
Record uss_row : Type := mk_uss_row {
  row_skater : option string;
  row_time : option string;
  row_distance : option string;
  row_competition : option string;
  row_date : option string;
  row_rank : option Z;
  row_place : option Z
}.

(** A competition of a [scraped_us_results_s*.json] file. *)
Record stl_result : Type := mk_stl_result {
  sr_name : option string;
  sr_time : option string;
  sr_place : option Z
}.
Record stl_event : Type := mk_stl_event {
  ev_distance : option Z;
  ev_results : list stl_result
}.
Record stl_comp : Type := mk_stl_comp {
  comp_name : option string;
  comp_events : list stl_event
}.

(** A skater of [skaters.json] with the personal bests of the profile. *)
Record personal_best : Type := mk_pb {
  pb_competition : option string;
  pb_time : option string;
  pb_distance : option Z;
  pb_date : option string
}.
Record skater : Type := mk_skater {
  skater_id : string;
  skater_name : option string;
  personal_bests_detail : list personal_best
}.

(** [results_by_skater[norm_name].append(r)] *)
Definition dict_append (norm_name : string) (r : result)
    (d : gmap string (list result)) : gmap string (list result) :=
  <[norm_name := (default [] (d !! norm_name) ++ [r])%list]> d.

(** [int(dist_match.group(1)) if dist_match else None] for
    [dist_match = re.search(r'(\d+)', distance_str)] *)
Definition first_number (distance_str : string) : option Z :=
  digits_val <$> Re.search [Re.plus isdigit] distance_str.

Section Load.
(** [parse_date], up to the ordinal of the date it returns.  Nothing
    below depends on which dates it recognises. *)
Variable parse_date : option string -> option Z.

(** Body of the loop over [uss_all_results.json]. *)
Definition load_pdf_row (d : gmap string (list result)) (row : uss_row)
  : gmap string (list result) :=
  let name := default "" (row_skater row) in
  let time_str := row_time row in
  let time_secs := parse_time time_str in
  let distance_str := default "" (row_distance row) in
  let distance := first_number distance_str in
  match time_secs, distance with
  | Some time_secs, Some distance =>
      if negb (PyStr.truthy name) || negb (PyFloat.truthy time_secs)
         || (distance =? 0)
      then d
      else if negb (is_valid_time_for_distance time_secs distance) then d
      else
        dict_append (normalize_name name)
          {| distance := distance;
             time := time_secs;
             time_str := time_str;
             competition := default "Unknown" (row_competition row);
             date := parse_date (Some (default "" (row_date row)));
             place := row_rank row;
             source := uss_pdf |} d
  | _, _ => d
  end.

(** Body of the loop over [us_historical_results.json]. *)
Definition load_hist_row (d : gmap string (list result)) (row : uss_row)
  : gmap string (list result) :=
  let name := default "" (row_skater row) in
  let time_str := row_time row in
  if negb (PyStr.truthy (default "" time_str)) then d
  else
    let time_secs := parse_time time_str in
    let distance_str := default "" (row_distance row) in
    let raw_distance := first_number distance_str in
    let distance := normalize_distance raw_distance in
    match time_secs, distance with
    | Some time_secs, Some distance =>
        if negb (PyStr.truthy name) || negb (PyFloat.truthy time_secs)
           || (distance =? 0)
        then d
        else if negb (is_valid_time_for_distance time_secs distance)
        then d
        else
          dict_append (normalize_name name)
            {| distance := distance;
               time := time_secs;
               time_str := time_str;
               competition := default "Unknown" (row_competition row);
               date := parse_date (Some (default "" (row_date row)));
               place := row_place row;
               source := uss_hist |} d
    | _, _ => d
    end.

(** Body of the innermost loop over a scraped file. *)
Definition load_stl_result (comp_name : string) (comp_date : option Z)
    (distance : Z) (d : gmap string (list result)) (res : stl_result)
  : gmap string (list result) :=
  let name := default "" (sr_name res) in
  let time_str := sr_time res in
  match parse_time time_str with
  | Some time_secs =>
      if negb (PyStr.truthy name) || negb (PyFloat.truthy time_secs)
      then d
      else if negb (is_valid_time_for_distance time_secs distance) then d
      else
        dict_append (normalize_name name)
          {| distance := distance;
             time := time_secs;
             time_str := time_str;
             competition := comp_name;
             date := comp_date;
             place := sr_place res;
             source := stl |} d
  | None => d
  end.

Definition load_stl_event (comp_name : string) (comp_date : option Z)
    (d : gmap string (list result)) (event : stl_event)
  : gmap string (list result) :=
  match normalize_distance (ev_distance event) with
  | Some distance =>
      if distance =? 0 then d
      else fold_left (load_stl_result comp_name comp_date distance)
                     (ev_results event) d
  | None => d
  end.

Definition load_stl_comp (d : gmap string (list result)) (comp : stl_comp)
  : gmap string (list result) :=
  let comp_name := default "Unknown" (comp_name comp) in
  let comp_date := parse_date (Some comp_name) in
  fold_left (load_stl_event comp_name comp_date) (comp_events comp) d.

(** [load_uss_results] on the contents of the three kinds of file (a
    file that does not exist contributes like an empty one). *)
Definition load_uss_results (pdf_rows hist_rows : list uss_row)
    (stl_files : list (list stl_comp)) : gmap string (list result) :=
  let d := fold_left load_pdf_row pdf_rows ∅ in
  let d := fold_left load_hist_row hist_rows d in
  fold_left (fun d file => fold_left load_stl_comp file d) stl_files d.

(** *** The personal-best fallback *)

(** Body of the loop [for pb in stl_pbs]; [uss_comps] was computed
    before the loop. *)
Definition add_personal_best (uss_comps : list string)
    (all_results : list result) (pb : personal_best) : list result :=
  let pb_comp := default "" (pb_competition pb) in
  if existsb (fun c => contains pb_comp c || contains c pb_comp) uss_comps
  then all_results
  else
    let time_secs := parse_time (pb_time pb) in
    let raw_distance := pb_distance pb in
    let distance := normalize_distance raw_distance in
    match time_secs, distance with
    | Some time_secs, Some distance =>
        if negb (PyFloat.truthy time_secs) || (distance =? 0)
        then all_results
        else if negb (is_valid_time_for_distance time_secs distance)
        then all_results
        else
          (all_results ++
           [ {| distance := distance;
                time := time_secs;
                time_str := pb_time pb;
                competition := pb_comp;
                date := parse_date (pb_date pb);
                place := None;
                source := stl |} ])%list
    | _, _ => all_results
    end.

(** [all_results] of one skater, before it is grouped by distance. *)
Definition collect_results (uss_results : gmap string (list result))
    (sk : skater) : list result :=
  let name := default "" (skater_name sk) in
  let norm_name := normalize_name name in
  let direct := default [] (uss_results !! norm_name) in
  let reversed :=
    match reversed_name norm_name with
    | Some reversed_name =>
        if negb (String.eqb reversed_name norm_name)
        then default [] (uss_results !! reversed_name)
        else []
    | None => []
    end in
  let all_results := (direct ++ reversed)%list in
  let uss_comps := List.map competition all_results in
  fold_left (add_personal_best uss_comps) (personal_bests_detail sk)
            all_results.
End Load.

(** *** Sorting and de-duplicating one distance *)

(** Ordinal of 9999-01-01: the ISO strings of the dates before it are
    below the string ['9999'] that stands in for a missing date, and those
    from it on are above. *)
Definition first_day_of_9999 : Z := 3651695.

(** [<] and [==] on [x['date'] or '9999']. *)
Definition date_key_ltb (a b : option Z) : bool :=
  match a, b with
  | Some x, Some y => x <? y
  | Some x, None => x <? first_day_of_9999
  | None, Some y => first_day_of_9999 <=? y
  | None, None => false
  end.

Definition date_key_eqb (a b : option Z) : bool :=
  match a, b with
  | Some x, Some y => x =? y
  | None, None => true
  | _, _ => false
  end.

(** [<] on the tuples [(x['date'] or '9999', x['time'])]. *)
Definition sort_key_ltb (x y : result) : bool :=
  if date_key_eqb (date x) (date y) then fltb (time x) (time y)
  else date_key_ltb (date x) (date y).

Definition source_eqb (a b : source_tag) : bool :=
  match a, b with
  | uss_pdf, uss_pdf | uss_hist, uss_hist | stl, stl => true
  | _, _ => false
  end.

Definition option_eqb {A : Type} (eqb : A -> A -> bool) (a b : option A)
  : bool :=
  match a, b with
  | Some x, Some y => eqb x y
  | None, None => true
  | _, _ => false
  end.

(** [==] on two result dictionaries. *)
Definition result_eqb (a b : result) : bool :=
  (distance a =? distance b)
  && PyFloat.same (time a) (time b)
  && option_eqb String.eqb (time_str a) (time_str b)
  && String.eqb (competition a) (competition b)
  && option_eqb Z.eqb (date a) (date b)
  && option_eqb Z.eqb (place a) (place b)
  && source_eqb (source a) (source b).

(** [deduped.remove(existing)]: the first entry equal to [existing]
    goes. *)
Fixpoint remove_first (existing : result) (deduped : list result)
  : list result :=
  match deduped with
  | [] => []
  | x :: rest =>
      if result_eqb x existing then rest
      else x :: remove_first existing rest
  end.

(** [existing.get('competition', '')[:30] == r.get('competition', '')[:30]] *)
Definition same_competition (r existing : result) : bool :=
  String.eqb (take 30 (competition existing)) (take 30 (competition r)).

(** [abs((r_date - e_date).days) <= 2] *)
Definition within_two_days (r_date e_date : Z) : bool :=
  Z.abs (r_date - e_date) <=? 2.

(** The loop [for i, existing in enumerate(deduped)] up to its [break]:
    undated entries are passed over, [i] is the index of [deduped]'s
    head. *)
Fixpoint first_within (r_date : Z) (i : nat) (deduped : list result)
  : option (nat * result) :=
  match deduped with
  | [] => None
  | existing :: rest =>
      match date existing with
      | None => first_within r_date (S i) rest
      | Some e_date =>
          if within_two_days r_date e_date then Some (i, existing)
          else first_within r_date (S i) rest
      end
  end.

(** Body of the loop [for r in by_distance[dist]]. *)
Definition dedup_step (deduped : list result) (r : result) : list result :=
  match date r with
  | None =>
      match List.find (same_competition r) deduped with
      | Some existing =>
          if fltb (time r) (time existing)
          then (remove_first existing deduped ++ [r])%list
          else deduped
      | None => (deduped ++ [r])%list
      end
  | Some r_date =>
      match first_within r_date 0 deduped with
      | Some (i, existing) =>
          if fltb (time r) (time existing) then <[i := r]> deduped
          else deduped
      | None => (deduped ++ [r])%list
      end
  end.

(** The new value of [by_distance[dist]]. *)
Definition dedup_distance (results : list result) : list result :=
  fold_left dedup_step (PySort.sort sort_key_ltb results) [].

(** [time_trends[skater_id]] from [all_results], when it is not empty. *)
Definition timelines (all_results : list result) : list (Z * list result) :=
  List.map (fun '(dist, rs) => (dist, dedup_distance rs))
           (ODict.group_by distance all_results).

Section Build.
Variable parse_date : option string -> option Z.

(** Body of the loop [for skater in skaters]. *)
Definition add_skater (uss_results : gmap string (list result))
    (time_trends : gmap string (list (Z * list result))) (sk : skater)
  : gmap string (list (Z * list result)) :=
  match collect_results parse_date uss_results sk with
  | [] => time_trends
  | all_results => <[skater_id sk := timelines all_results]> time_trends
  end.

(** The ["trends"] of the output of [build_time_trends]. *)
Definition build_time_trends (pdf_rows hist_rows : list uss_row)
    (stl_files : list (list stl_comp)) (skaters : list skater)
  : gmap string (list (Z * list result)) :=
  let uss_results :=
    load_uss_results parse_date pdf_rows hist_rows stl_files in
  fold_left (add_skater uss_results) skaters ∅.
End Build.

End BuildTimeTrends.

(* ===================================================================== *)
(** ** scripts/cross_validate_uss.py *)
(* ===================================================================== *)

Module CrossValidateUss.
Import PyStr PyFloat.

Definition normalize_name (name : string) : string :=
  if negb (PyStr.truthy name) then ""
  else
    let parts := split (strip name) in
    let name :=
      match parts with
      | p0 :: p1 :: _ =>
          if isupper p0 && negb (isupper p1)
          then join " " (List.tl parts) ++ " " ++ title p0
          else name
      | _ => name
      end in
    let name := strip (lower name) in
    Re.sub [Re.plus isspace] " " name.

(** The patterns of [normalize_comp_name], in the order they are applied:
    [\d{2}\.\d{2}\.\s*-\s*\d{2}\.\d{2}\.\d{4},?\s*], [\d{4}],
    [\d+(st|nd|rd|th)] under [re.IGNORECASE], [#\d+], [[,\-]], [\s+]. *)
Definition date_range : Re.regex :=
  [ Re.times isdigit 2; Re.lit "."; Re.times isdigit 2; Re.lit ".";
    Re.star isspace; Re.lit "-"; Re.star isspace;
    Re.times isdigit 2; Re.lit "."; Re.times isdigit 2; Re.lit ".";
    Re.times isdigit 4; Re.Rep (Re.is_char ",") 0 (Some 1%nat);
    Re.star isspace ].
Definition four_digits : Re.regex := [ Re.times isdigit 4 ].
Definition ordinal : Re.regex :=
  [ Re.plus isdigit; Re.Alt ["st"; "nd"; "rd"; "th"] true ].
Definition hash_number : Re.regex := [ Re.lit "#"; Re.plus isdigit ].
Definition comma_or_dash : Re.regex :=
  [ Re.times (fun c => Re.is_char "," c || Re.is_char "-" c) 1 ].
Definition spaces : Re.regex := [ Re.plus isspace ].

Definition locations : list string :=
  [ "usa"; "ut"; "il"; "ny"; "wi"; "ma"; "nj"; "ct"; "nh";
    "salt lake city"; "milwaukee" ].

(** [\s{loc}\s*$] under [re.IGNORECASE] *)
Definition trailing_location (loc : string) : Re.regex :=
  [ Re.times isspace 1; Re.Alt [loc] true; Re.star isspace; Re.Eol ].

Definition normalize_comp_name (name : string) : string :=
  let name := Re.sub date_range "" name in
  let name := Re.sub four_digits "" name in
  let name := Re.sub ordinal "" name in
  let name := Re.sub hash_number "" name in
  let name := Re.sub comma_or_dash " " name in
  let name := lower (strip (Re.sub spaces " " name)) in
  let name :=
    fold_left (fun name loc => Re.sub (trailing_location loc) "" name)
              locations name in
  strip name.

Definition parse_time (time_str : option string) : option pyfloat :=
  match time_str with
  | None => None
  | Some time_str =>
      if negb (PyStr.truthy time_str) then None
      else
        let time_str := strip time_str in
        if contains ":" time_str then
          match split_on BuildTimeTrends.colon time_str with
          | [mins; secs] =>
              match float_of_string mins, float_of_string secs with
              | Some mins, Some secs => Some (fadd (fmul mins (of_Z 60)) secs)
              | _, _ => None
              end
          | [hours; mins; secs] =>
              match float_of_string hours, float_of_string mins,
                    float_of_string secs with
              | Some hours, Some mins, Some secs =>
                  Some (fadd (fadd (fmul hours (of_Z 3600))
                                   (fmul mins (of_Z 60))) secs)
              | _, _, _ => None
              end
          | _ => None
          end
        else float_of_string time_str
  end.

(** *** main *)

(** An entry of the ["results"] of [us_historical_results.json]. *)
Record uss_result : Type := mk_uss_result {
  skater : option string;
  competition : option string;
  distance : option string;
  place : option Z;
  time : option string
}.

(** A skater of [us_youth_skater_facts.json] and one of its events. *)
Record stl_event : Type := mk_event {
  event_name : option string;
  best_rank : option Z
}.
Record stl_skater : Type := mk_stl_skater {
  name : option string;
  events : list stl_event
}.

(** An entry of [matches]. *)
Record match_entry : Type := mk_match {
  m_skater : option string;
  m_stl_event : string;
  m_uss_comp : option string;
  m_distance : string;
  m_stl_best_rank : option Z;
  m_uss_place : option Z;
  m_uss_time : option string
}.

Record not_found_entry : Type := mk_not_found {
  nf_skater : option string;
  nf_stl_event : string;
  nf_note : string
}.

Definition lookup_key : Type := string * string * string.

Definition uss_key (r : uss_result) : lookup_key :=
  (normalize_name (default "" (skater r)),
   normalize_comp_name (default "" (competition r)),
   lower (default "" (distance r))).

(** The loop that fills the [defaultdict(list)] [uss_lookup]. *)
Definition build_lookup (results : list uss_result)
  : gmap lookup_key (list uss_result) :=
  fold_left
    (fun d r => <[uss_key r := (default [] (d !! uss_key r) ++ [r])%list]> d)
    results ∅.

Definition distances : list string := ["500m"; "1000m"; "1500m"; "3000m"].

(** Body of the loop [for dist in [...]]: the match appended for one
    distance, if any. *)
Definition match_distance (uss_lookup : gmap lookup_key (list uss_result))
    (sk : stl_skater) (event : stl_event) (dist : string)
  : list match_entry :=
  let stl_name := normalize_name (default "" (name sk)) in
  let event_name := default "" (event_name event) in
  let norm_comp := normalize_comp_name event_name in
  match uss_lookup !! (stl_name, norm_comp, dist) with
  | Some (first :: _) =>
      [ {| m_skater := name sk;
           m_stl_event := take 60 event_name;
           m_uss_comp := competition first;
           m_distance := dist;
           m_stl_best_rank := best_rank event;
           m_uss_place := place first;
           m_uss_time := time first |} ]
  | _ => []
  end.

Definition event_matches (uss_lookup : gmap lookup_key (list uss_result))
    (sk : stl_skater) (event : stl_event) : list match_entry :=
  flat_map (match_distance uss_lookup sk event) distances.

(** [matches] after the loops over [stl_facts.items()]. *)
Definition all_matches (uss_results : list uss_result)
    (stl_facts : list (string * stl_skater)) : list match_entry :=
  let uss_lookup := build_lookup uss_results in
  flat_map (fun '(_, sk) => flat_map (event_matches uss_lookup sk) (events sk))
           stl_facts.

(** [not_found] after the same loops. *)
Definition event_not_found (uss_results : list uss_result)
    (uss_lookup : gmap lookup_key (list uss_result))
    (sk : stl_skater) (event : stl_event) : list not_found_entry :=
  let event_name := default "" (event_name event) in
  let norm_comp := normalize_comp_name event_name in
  match event_matches uss_lookup sk event with
  | [] =>
      if existsb (fun r => String.eqb
                    (normalize_comp_name (default "" (competition r)))
                    norm_comp) uss_results
      then [ {| nf_skater := name sk;
                nf_stl_event := take 60 event_name;
                nf_note := "Competition exists but skater not found in USS" |} ]
      else []
  | _ => []
  end.

Definition all_not_found (uss_results : list uss_result)
    (stl_facts : list (string * stl_skater)) : list not_found_entry :=
  let uss_lookup := build_lookup uss_results in
  flat_map (fun '(_, sk) =>
              flat_map (event_not_found uss_results uss_lookup sk) (events sk))
           stl_facts.

(** Python truthiness of a rank: neither [None] nor [0]. *)
Definition rank_truthy (rank : option Z) : bool :=
  match rank with
  | Some n => negb (n =? 0)
  | None => false
  end.

(** [m['stl_best_rank'] and m['uss_place'] and
     m['stl_best_rank'] != m['uss_place']] *)
Definition is_discrepancy (m : match_entry) : bool :=
  rank_truthy (m_stl_best_rank m) && rank_truthy (m_uss_place m)
  && negb (BuildTimeTrends.option_eqb Z.eqb (m_stl_best_rank m) (m_uss_place m)).

(** [discrepancies] *)
Definition discrepancies (uss_results : list uss_result)
    (stl_facts : list (string * stl_skater)) : list match_entry :=
  List.filter is_discrepancy (all_matches uss_results stl_facts).

End CrossValidateUss.

(* ===================================================================== *)
(** ** data/parse_uss_pdfs.py *)
(* ===================================================================== *)

Module ParseUssPdfs.
Import PyStr.

(** A result as the page parsers emit it; [time] is the printed text. *)
Record raw_result : Type := mk_raw {
  rank : Z;
  skater : string;
  time : string;
  distance : string;
  category : string
}.

Definition dedupe_key (r : raw_result) : string * string * string :=
  (lower (skater r), distance r, category r).

(** [<] on the sort key [x['time']], a string. *)
Definition time_ltb (x y : raw_result) : bool :=
  String.ltb (time x) (time y).

Definition dedupe_results (results : list raw_result) : list raw_result :=
  let best := ODict.group_by dedupe_key results in
  omap (fun '(_, rlist) => head (PySort.sort time_ltb rlist)) best.

End ParseUssPdfs.
(* ===================================================================== *)
(** ** Facts about the string primitives *)
(* ===================================================================== *)

Module StrFacts.
Import PyStr.

(** Number of occurrences of a character. *)
Fixpoint count_char (c : ascii) (s : string) : nat :=
  match s with
  | EmptyString => O
  | String a s' => ((if Ascii.eqb a c then 1 else 0) + count_char c s')%nat
  end.

(** A non-empty string of decimal digits. *)
Definition is_digits (s : string) : bool :=
  PyStr.truthy s && forallb_chars isdigit s.

(** The last character, if any, is not in the class. *)
Fixpoint last_not (p : ascii -> bool) (s : string) : bool :=
  match s with
  | EmptyString => true
  | String c EmptyString => negb (p c)
  | String _ s' => last_not p s'
  end.

Definition head_not (p : ascii -> bool) (s : string) : bool :=
  match s with
  | EmptyString => true
  | String c _ => negb (p c)
  end.

Lemma append_nil_r (s : string) : s ++ "" = s.
Proof. induction s as [|c s IH]; simpl; [reflexivity | now rewrite IH]. Qed.

Lemma append_assoc (a b c : string) : (a ++ b) ++ c = a ++ (b ++ c).
Proof. induction a as [|x a IH]; simpl; [reflexivity | now rewrite IH]. Qed.

Lemma length_append (a b : string) :
  String.length (a ++ b) = (String.length a + String.length b)%nat.
Proof. induction a as [|x a IH]; simpl; [reflexivity | now rewrite IH]. Qed.

Lemma lstrip_by_fixed (p : ascii -> bool) (s : string) :
  head_not p s = true -> lstrip_by p s = s.
Proof.
  destruct s as [|c s]; simpl; [reflexivity|].
  now intros ->%negb_true_iff.
Qed.

Lemma rstrip_by_fixed (p : ascii -> bool) (s : string) :
  last_not p s = true -> rstrip_by p s = s.
Proof.
  induction s as [|c s IH]; [reflexivity|].
  destruct s as [|d s].
  - simpl. now intros ->%negb_true_iff.
  - intros H. change (rstrip_by p (String c (String d s)))
      with (match rstrip_by p (String d s) with
            | EmptyString => if p c then EmptyString else String c EmptyString
            | r => String c r
            end).
    now rewrite (IH H).
Qed.

Lemma strip_fixed (s : string) :
  head_not isspace s = true -> last_not isspace s = true -> strip s = s.
Proof.
  intros Hh Hl. unfold strip.
  rewrite (lstrip_by_fixed _ _ Hh). now apply rstrip_by_fixed.
Qed.

Lemma last_not_append (p : ascii -> bool) (a b : string) :
  PyStr.truthy b = true -> last_not p (a ++ b) = last_not p b.
Proof.
  intros Hb. induction a as [|c a IH]; [reflexivity|].
  simpl. destruct (a ++ b) eqn:E; [|exact IH].
  destruct a, b; discriminate.
Qed.

Lemma count_char_append (c : ascii) (a b : string) :
  count_char c (a ++ b) = (count_char c a + count_char c b)%nat.
Proof. induction a as [|x a IH]; simpl; [reflexivity | rewrite IH; lia]. Qed.

Lemma prefix_empty (s : string) : String.prefix "" s = true.
Proof. now destruct s. Qed.

Lemma contains_char (c : ascii) (s : string) :
  contains (String c "") s = negb (count_char c s =? 0)%nat.
Proof.
  induction s as [|a s IH]; [reflexivity|].
  cbn [contains count_char]. rewrite IH.
  change (String.prefix (String c "") (String a s))
    with (if ascii_dec c a then String.prefix "" s else false).
  rewrite prefix_empty.
  destruct (ascii_dec c a) as [->|Hne].
  - now rewrite Ascii.eqb_refl.
  - destruct (Ascii.eqb_spec a c); [congruence | reflexivity].
Qed.

Lemma split_on_length (c : ascii) (s : string) :
  List.length (split_on c s) = S (count_char c s).
Proof.
  induction s as [|a s IH]; [reflexivity|].
  cbn [split_on count_char].
  destruct (split_on c s) as [|w ws]; [discriminate|].
  destruct (Ascii.eqb a c); simpl in *; lia.
Qed.

Lemma split_on_none (c : ascii) (s : string) :
  count_char c s = O -> split_on c s = [s].
Proof.
  induction s as [|a s IH]; [reflexivity|].
  cbn [split_on count_char].
  destruct (Ascii.eqb a c); [discriminate|].
  intros H. now rewrite (IH H).
Qed.

Lemma split_on_append (c : ascii) (a b : string) :
  count_char c a = O -> split_on c (a ++ String c b) = a :: split_on c b.
Proof.
  induction a as [|x a IH].
  - intros _. simpl.
    destruct (split_on c b) as [|w ws] eqn:E.
    + pose proof (split_on_length c b) as H. now rewrite E in H.
    + now rewrite Ascii.eqb_refl.
  - cbn [count_char]. destruct (Ascii.eqb x c) eqn:Hx; [discriminate|].
    intros H. simpl. rewrite (IH H), Hx. reflexivity.
Qed.

Lemma count_char_lstrip (c : ascii) (p : ascii -> bool) (s : string) :
  (count_char c (lstrip_by p s) <= count_char c s)%nat.
Proof.
  induction s as [|a s IH]; [reflexivity|].
  cbn [lstrip_by]. destruct (p a); [|reflexivity].
  cbn [count_char]. lia.
Qed.

Lemma count_char_rstrip (c : ascii) (p : ascii -> bool) (s : string) :
  (count_char c (rstrip_by p s) <= count_char c s)%nat.
Proof.
  induction s as [|a s IH]; [reflexivity|].
  cbn [rstrip_by]. destruct (rstrip_by p s) as [|d r].
  - destruct (p a); cbn [count_char] in *; lia.
  - cbn [count_char] in *. lia.
Qed.

Lemma count_char_strip (c : ascii) (s : string) :
  (count_char c (strip s) <= count_char c s)%nat.
Proof.
  unfold strip. etransitivity; [apply count_char_rstrip|].
  apply count_char_lstrip.
Qed.

(** *** Strings of digits *)

Lemma is_digits_inv (s : string) :
  is_digits s = true ->
  exists c s', s = String c s' /\ isdigit c = true
               /\ forallb_chars isdigit s' = true.
Proof.
  destruct s as [|c s]; [discriminate|].
  unfold is_digits. cbn. intros [Hc Hs]%andb_true_iff. eauto.
Qed.

Lemma forallb_chars_append (p : ascii -> bool) (a b : string) :
  forallb_chars p (a ++ b) = forallb_chars p a && forallb_chars p b.
Proof.
  induction a as [|x a IH]; [reflexivity|].
  simpl. now rewrite IH, andb_assoc.
Qed.

Lemma forallb_chars_impl (p q : ascii -> bool) (s : string) :
  (forall c, p c = true -> q c = true) ->
  forallb_chars p s = true -> forallb_chars q s = true.
Proof.
  intros Hpq. induction s as [|c s IH]; [reflexivity|].
  simpl. intros [Hc Hs]%andb_true_iff. rewrite (Hpq _ Hc). now apply IH.
Qed.

Lemma last_not_forallb (p : ascii -> bool) (s : string) :
  forallb_chars (fun c => negb (p c)) s = true -> last_not p s = true.
Proof.
  induction s as [|c s IH]; [reflexivity|].
  simpl. intros [Hc Hs]%andb_true_iff. destruct s; [exact Hc | now apply IH].
Qed.

Lemma count_char_forallb (c : ascii) (s : string) :
  forallb_chars (fun a => negb (Ascii.eqb a c)) s = true -> count_char c s = O.
Proof.
  induction s as [|a s IH]; [reflexivity|].
  simpl. intros [Hc Hs]%andb_true_iff.
  apply negb_true_iff in Hc. rewrite Hc. now apply IH.
Qed.

End StrFacts.

(* ===================================================================== *)
(** ** Facts about the float model *)
(* ===================================================================== *)

Module FloatFacts.
Import PyStr PyFloat StrFacts.

(** The number written [int_part.frac_part]. *)
Definition decimal_value (int_part frac_part : string) : Q :=
  (inject_Z (digits_val (int_part ++ frac_part))
   / inject_Z (10 ^ Z.of_nat (String.length frac_part)))%Q.

Lemma fin_compat (a b : Q) : (a == b)%Q -> fin a = fin b.
Proof. intros H. unfold fin. f_equal. now apply Qred_complete. Qed.

Lemma fin_inj (a b : Q) : fin a = fin b -> (a == b)%Q.
Proof.
  unfold fin. intros [= H].
  rewrite <- (Qred_correct a), <- (Qred_correct b), H. reflexivity.
Qed.

Lemma of_Z_fin (n : Z) : of_Z n = fin (inject_Z n).
Proof. reflexivity. Qed.

Lemma fmul_fin (a b : Q) : fmul (fin a) (fin b) = fin (a * b).
Proof.
  unfold fmul, fin at 1 2. apply fin_compat. now rewrite !Qred_correct.
Qed.

Lemma fadd_fin (a b : Q) : fadd (fin a) (fin b) = fin (a + b).
Proof.
  unfold fadd, fin at 1 2. apply fin_compat. now rewrite !Qred_correct.
Qed.

Lemma scale10_neg (m : Z) (n : nat) :
  (scale10 m (0 - Z.of_nat n) == inject_Z m / inject_Z (10 ^ Z.of_nat n))%Q.
Proof.
  unfold scale10. destruct n as [|n].
  - simpl. rewrite Z.mul_1_r. unfold Qdiv. change (/ inject_Z 1)%Q with 1%Q.
    now rewrite Qmult_1_r.
  - assert (0 < 10 ^ Z.of_nat (S n)) as Hpos by (apply Z.pow_pos_nonneg; lia).
    destruct (Z.leb_spec 0 (0 - Z.of_nat (S n))); [lia|].
    replace (- (0 - Z.of_nat (S n))) with (Z.of_nat (S n)) by lia.
    rewrite Qmake_Qdiv. now rewrite Z2Pos.id.
Qed.

(** A decimal digit is in none of the other classes the parsers look
    for. *)
Lemma digit_classes (c : ascii) :
  isdigit c = true ->
  isspace c = false /\ float_space c = false
  /\ Ascii.eqb c underscore = false /\ Ascii.eqb c ":" = false
  /\ Ascii.eqb c "." = false /\ Ascii.eqb (lower_char c) "e" = false
  /\ Ascii.eqb c "-" = false /\ Ascii.eqb c "+" = false
  /\ Ascii.eqb (lower_char c) "i" = false
  /\ Ascii.eqb (lower_char c) "n" = false.
Proof.
  destruct c as [[] [] [] [] [] [] [] []]; vm_compute;
    (discriminate || (intros _; repeat split)).
Qed.

Lemma take_sign_digit (c : ascii) (s : string) :
  isdigit c = true -> take_sign (String c s) = (false, String c s).
Proof.
  destruct c as [[] [] [] [] [] [] [] []]; vm_compute;
    (discriminate || reflexivity).
Qed.

Lemma span_digits_append (a b : string) :
  forallb_chars isdigit a = true -> head_not isdigit b = true ->
  span_digits (a ++ b) = (a, b).
Proof.
  intros Ha Hb. induction a as [|c a IH].
  - destruct b as [|d b]; [reflexivity|].
    simpl in *. apply negb_true_iff in Hb. now rewrite Hb.
  - simpl in *. apply andb_true_iff in Ha as [Hc Ha].
    now rewrite Hc, (IH Ha).
Qed.

Lemma span_digits_all (a : string) :
  forallb_chars isdigit a = true -> span_digits a = (a, "").
Proof.
  intros Ha. rewrite <- (append_nil_r a) at 1.
  now apply span_digits_append.
Qed.

Lemma drop_underscores_none (b : bool) (s : string) :
  forallb_chars (fun c => negb (Ascii.eqb c underscore)) s = true ->
  drop_underscores b s = Some s.
Proof.
  revert b. induction s as [|c s IH]; [reflexivity|].
  intros b. simpl. intros [Hc Hs]%andb_true_iff.
  apply negb_true_iff in Hc. now rewrite Hc, (IH _ Hs).
Qed.

(** What [float] makes of [digits] and of [digits.digits]. *)
Lemma parse_decimal_point (ip fp : string) :
  is_digits ip = true -> is_digits fp = true ->
  parse_decimal (ip ++ "." ++ fp)
  = Some (scale10 (digits_val (ip ++ fp)) (0 - Z.of_nat (String.length fp))).
Proof.
  intros Hi Hf.
  destruct (is_digits_inv _ Hi) as (c & ip' & -> & Hc & Hip).
  destruct (is_digits_inv _ Hf) as (d & fp' & -> & Hd & Hfp).
  unfold parse_decimal.
  rewrite (span_digits_append (String c ip') ("." ++ String d fp'));
    [|simpl; now rewrite Hc, Hip | reflexivity].
  change ("." ++ String d fp') with (String "." (String d fp')). cbv iota beta.
  rewrite (span_digits_all (String d fp')); [|simpl; now rewrite Hd, Hfp].
  reflexivity.
Qed.

Lemma parse_decimal_int (ip : string) :
  is_digits ip = true ->
  parse_decimal ip = Some (scale10 (digits_val (ip ++ "")) (0 - 0)).
Proof.
  intros Hi.
  destruct (is_digits_inv _ Hi) as (c & ip' & -> & Hc & Hip).
  unfold parse_decimal.
  rewrite (span_digits_all (String c ip')); [|simpl; now rewrite Hc, Hip].
  reflexivity.
Qed.

(** A string that starts and ends with a digit and holds only digits and
    points reaches [parse_decimal] unchanged. *)
Lemma float_of_string_plain (c : ascii) (s : string) :
  isdigit c = true ->
  forallb_chars (fun a => isdigit a || Ascii.eqb a ".") s = true ->
  last_not (fun a => negb (isdigit a)) (String c s) = true ->
  float_of_string (String c s)
  = match parse_decimal (String c s) with
    | Some q => Some (fin q)
    | None => None
    end.
Proof.
  intros Hc Hs Hl.
  destruct (digit_classes c Hc)
    as (_ & Hfs & Hu & _ & _ & _ & _ & _ & Hi & Hn).
  unfold float_of_string.
  rewrite lstrip_by_fixed by (simpl; now rewrite Hfs).
  rewrite rstrip_by_fixed.
  2:{ revert Hl. generalize (String c s). intros t.
      induction t as [|x t IH]; [reflexivity|].
      destruct t as [|y t]; [|exact IH].
      simpl. rewrite negb_involutive. intros Hx.
      now destruct (digit_classes x Hx) as (_ & -> & _). }
  rewrite take_sign_digit by exact Hc.
  assert (forall w, String.eqb (lower (String c s)) (String "i" w) = false) as Ei.
  { intros w. simpl. now rewrite Hi. }
  assert (forall w, String.eqb (lower (String c s)) (String "n" w) = false) as En.
  { intros w. simpl. now rewrite Hn. }
  rewrite !Ei, En. cbv iota beta. simpl orb. cbv iota.
  rewrite drop_underscores_none; [reflexivity|].
  simpl. rewrite Hu. simpl.
  eapply forallb_chars_impl; [|exact Hs].
  intros a [Ha|Ha]%orb_true_iff.
  - now destruct (digit_classes a Ha) as (_ & _ & -> & _).
  - apply Ascii.eqb_eq in Ha. now subst a.
Qed.

Lemma float_of_digits (ip : string) :
  is_digits ip = true ->
  float_of_string ip = Some (fin (inject_Z (digits_val ip))).
Proof.
  intros Hi. pose proof (parse_decimal_int _ Hi) as Hp.
  destruct (is_digits_inv _ Hi) as (c & ip' & -> & Hc & Hip).
  rewrite float_of_string_plain; [rewrite Hp| exact Hc | |].
  - f_equal. apply fin_compat. rewrite append_nil_r.
    change (0 - 0) with (0 - Z.of_nat 0). rewrite scale10_neg.
    simpl. unfold Qdiv. change (/ inject_Z 1)%Q with 1%Q.
    now rewrite Qmult_1_r.
  - eapply forallb_chars_impl; [|exact Hip]. now intros a ->.
  - apply last_not_forallb. simpl. rewrite Hc. simpl.
    eapply forallb_chars_impl; [|exact Hip]. now intros a ->.
Qed.

Lemma float_of_decimal (ip fp : string) :
  is_digits ip = true -> is_digits fp = true ->
  float_of_string (ip ++ "." ++ fp) = Some (fin (decimal_value ip fp)).
Proof.
  intros Hi Hf. pose proof (parse_decimal_point _ _ Hi Hf) as Hp.
  destruct (is_digits_inv _ Hi) as (c & ip' & -> & Hc & Hip).
  destruct (is_digits_inv _ Hf) as (d & fp' & Ef & Hd & Hfp).
  change (String c ip' ++ "." ++ fp) with (String c (ip' ++ "." ++ fp)) in *.
  rewrite float_of_string_plain; [rewrite Hp| exact Hc | |].
  - f_equal. apply fin_compat. unfold decimal_value. apply scale10_neg.
  - rewrite !forallb_chars_append. subst fp. simpl. rewrite Hd. simpl.
    apply andb_true_iff. split;
      (eapply forallb_chars_impl; [|eassumption]); now intros a ->.
  - replace (String c (ip' ++ "." ++ fp)) with ((String c ip' ++ ".") ++ fp)
      by (now rewrite append_assoc).
    rewrite last_not_append by (now subst fp).
    apply last_not_forallb. subst fp. simpl. rewrite Hd. simpl.
    eapply forallb_chars_impl; [|exact Hfp]. now intros a ->.
Qed.

End FloatFacts.

(* ===================================================================== *)
(** ** The two time parsers *)
(* ===================================================================== *)

Module TimeParsing.
Import PyStr PyFloat StrFacts FloatFacts.

Definition colon : ascii := BuildTimeTrends.colon.

Lemma truthy_append (a b : string) :
  PyStr.truthy b = true -> PyStr.truthy (a ++ b) = true.
Proof. destruct a, b; simpl; congruence. Qed.

Lemma digits_field (s : string) :
  forallb_chars isdigit s = true -> count_char colon s = O.
Proof.
  intros H. apply count_char_forallb.
  eapply forallb_chars_impl; [|exact H].
  intros c Hc. destruct (digit_classes c Hc) as (_ & _ & _ & Hcolon & _).
  unfold colon, BuildTimeTrends.colon. now rewrite Hcolon.
Qed.

Lemma digits_no_space (s : string) :
  forallb_chars isdigit s = true ->
  forallb_chars (fun c => negb (isspace c)) s = true.
Proof.
  apply forallb_chars_impl.
  intros c Hc. now destruct (digit_classes c Hc) as (-> & _).
Qed.

Lemma is_digits_all (s : string) :
  is_digits s = true -> forallb_chars isdigit s = true.
Proof. unfold is_digits. now intros [_ H]%andb_true_iff. Qed.

Lemma is_digits_truthy (s : string) :
  is_digits s = true -> PyStr.truthy s = true.
Proof. unfold is_digits. now intros [H _]%andb_true_iff. Qed.

Lemma decimal_field (ss fff : string) :
  is_digits ss = true -> is_digits fff = true ->
  count_char colon (ss ++ "." ++ fff) = O.
Proof.
  intros Hs Hf. rewrite !count_char_append.
  rewrite (digits_field ss), (digits_field fff) by now apply is_digits_all.
  reflexivity.
Qed.

(** A string that starts with a digit and ends with the digits [tail] is
    unchanged by [strip]. *)
Lemma strip_digits_ends (a mid tail : string) :
  is_digits a = true -> is_digits tail = true ->
  strip (a ++ mid ++ tail) = a ++ mid ++ tail.
Proof.
  intros Ha Ht. apply strip_fixed.
  - destruct (is_digits_inv _ Ha) as (c & a' & -> & Hc & _).
    simpl. now destruct (digit_classes c Hc) as (-> & _).
  - rewrite <- append_assoc.
    rewrite last_not_append by now apply is_digits_truthy.
    apply last_not_forallb, digits_no_space. now apply is_digits_all.
Qed.

Lemma contains_colon_append (a b : string) :
  contains ":" (a ++ ":" ++ b) = true.
Proof.
  change ":" with (String colon "") at 1. rewrite contains_char.
  rewrite count_char_append. simpl.
  now destruct (count_char colon a + S (count_char colon b))%nat eqn:E; [lia|].
Qed.

Lemma contains_colon_none (s : string) :
  count_char colon s = O -> contains ":" s = false.
Proof.
  intros H. change ":" with (String colon ""). now rewrite contains_char, H.
Qed.

(** What each parser does with two and with three fields. *)
Lemma build_two_fields (a b : string) :
  count_char colon a = O -> count_char colon b = O ->
  strip (a ++ ":" ++ b) = a ++ ":" ++ b ->
  BuildTimeTrends.parse_time (Some (a ++ ":" ++ b))
  = match float_of_string a, float_of_string b with
    | Some mins, Some secs => Some (fadd (fmul mins (of_Z 60)) secs)
    | _, _ => None
    end.
Proof.
  intros Ha Hb Hs. unfold BuildTimeTrends.parse_time.
  rewrite truthy_append by reflexivity. cbn [negb].
  rewrite Hs, contains_colon_append.
  change (":" ++ b) with (String colon b).
  rewrite (split_on_append _ _ _ Ha), (split_on_none _ _ Hb). reflexivity.
Qed.

Lemma build_three_fields (a b c : string) :
  count_char colon a = O -> count_char colon b = O ->
  strip (a ++ ":" ++ b ++ ":" ++ c) = a ++ ":" ++ b ++ ":" ++ c ->
  BuildTimeTrends.parse_time (Some (a ++ ":" ++ b ++ ":" ++ c))
  = match float_of_string a, float_of_string b with
    | Some mins, Some secs => Some (fadd (fmul mins (of_Z 60)) secs)
    | _, _ => None
    end.
Proof.
  intros Ha Hb Hs. unfold BuildTimeTrends.parse_time.
  rewrite truthy_append by reflexivity. cbn [negb].
  rewrite Hs, contains_colon_append.
  change (":" ++ b ++ ":" ++ c) with (String colon (b ++ String colon c)).
  rewrite (split_on_append _ _ _ Ha), (split_on_append _ _ _ Hb).
  reflexivity.
Qed.

Lemma cross_three_fields (a b c : string) :
  count_char colon a = O -> count_char colon b = O ->
  count_char colon c = O ->
  strip (a ++ ":" ++ b ++ ":" ++ c) = a ++ ":" ++ b ++ ":" ++ c ->
  CrossValidateUss.parse_time (Some (a ++ ":" ++ b ++ ":" ++ c))
  = match float_of_string a, float_of_string b, float_of_string c with
    | Some hours, Some mins, Some secs =>
        Some (fadd (fadd (fmul hours (of_Z 3600)) (fmul mins (of_Z 60))) secs)
    | _, _, _ => None
    end.
Proof.
  intros Ha Hb Hc Hs. unfold CrossValidateUss.parse_time.
  rewrite truthy_append by reflexivity. cbn [negb].
  rewrite Hs, contains_colon_append.
  change (":" ++ b ++ ":" ++ c) with (String colon (b ++ String colon c)).
  rewrite (split_on_append _ _ _ Ha), (split_on_append _ _ _ Hb),
    (split_on_none _ _ Hc).
  reflexivity.
Qed.

(** C8.  [parse_time] turns ["1:02.345"] into 62.345 seconds and
    ["41.267"] into 41.267 seconds, and gives no time for the empty
    string; a string [MM:SS.fff] of digits becomes [MM * 60 + SS.fff]
    seconds and a bare [SS.fff] is taken as it is. *)
Theorem parse_time_minutes_seconds :
  BuildTimeTrends.parse_time (Some "1:02.345") = Some (fin 62.345%Q)
  /\ BuildTimeTrends.parse_time (Some "41.267") = Some (fin 41.267%Q)
  /\ BuildTimeTrends.parse_time (Some "") = None
  /\ (forall mm ss fff : string,
        is_digits mm = true -> is_digits ss = true -> is_digits fff = true ->
        BuildTimeTrends.parse_time (Some (mm ++ ":" ++ ss ++ "." ++ fff))
        = Some (fin (inject_Z (digits_val mm) * 60 + decimal_value ss fff)))
  /\ (forall ss fff : string,
        is_digits ss = true -> is_digits fff = true ->
        BuildTimeTrends.parse_time (Some (ss ++ "." ++ fff))
        = Some (fin (decimal_value ss fff))).
Proof.
  split; [vm_compute; reflexivity|].
  split; [vm_compute; reflexivity|].
  split; [reflexivity|].
  split.
  - intros mm ss fff Hm Hs Hf.
    rewrite build_two_fields.
    + rewrite (float_of_digits _ Hm), (float_of_decimal _ _ Hs Hf).
      rewrite of_Z_fin, fmul_fin, fadd_fin. reflexivity.
    + now apply digits_field, is_digits_all.
    + now apply decimal_field.
    + pose proof (strip_digits_ends mm (":" ++ ss ++ ".") fff Hm Hf) as H.
      now rewrite !append_assoc in H.
  - intros ss fff Hs Hf. unfold BuildTimeTrends.parse_time.
    rewrite truthy_append
      by (apply truthy_append; now apply is_digits_truthy).
    cbn [negb].
    rewrite (strip_digits_ends ss "." fff Hs Hf).
    rewrite contains_colon_none by now apply decimal_field.
    now apply float_of_decimal.
Qed.

Lemma parse_time_minutes_seconds_witness :
  BuildTimeTrends.parse_time (Some ("2" ++ ":" ++ "12" ++ "." ++ "734"))
  = Some (fin (inject_Z (digits_val "2") * 60 + decimal_value "12" "734"))
  /\ BuildTimeTrends.parse_time (Some ("38" ++ "." ++ "5"))
     = Some (fin (decimal_value "38" "5")).
Proof.
  split.
  - apply (proj1 (proj2 (proj2 (proj2 parse_time_minutes_seconds))));
      reflexivity.
  - apply (proj2 (proj2 (proj2 (proj2 parse_time_minutes_seconds))));
      reflexivity.
Defined.

End TimeParsing.

Module TimeParsersCompared.
Import PyStr PyFloat StrFacts FloatFacts TimeParsing.

Lemma digits_val_acc_nonneg (s : string) (acc : Z) :
  0 <= acc -> 0 <= digits_val_acc acc s.
Proof.
  revert acc. induction s as [|c s IH]; intros acc Hacc; [exact Hacc|].
  simpl. apply IH. unfold digit_val. lia.
Qed.

Lemma digits_val_nonneg (s : string) : 0 <= digits_val s.
Proof. now apply digits_val_acc_nonneg. Qed.

Lemma decimal_value_nonneg (ip fp : string) : (0 <= decimal_value ip fp)%Q.
Proof.
  unfold decimal_value.
  pose proof (digits_val_nonneg (ip ++ fp)) as Hn.
  assert (0 < 10 ^ Z.of_nat (String.length fp)) as Hp
    by (apply Z.pow_pos_nonneg; lia).
  apply Qle_shift_div_l.
  - change 0%Q with (inject_Z 0). rewrite <- Zlt_Qlt. exact Hp.
  - rewrite Qmult_0_l. change 0%Q with (inject_Z 0). now rewrite <- Zle_Qle.
Qed.

Lemma decimal_value_zero (ip fp : string) :
  (decimal_value ip fp == 0)%Q -> digits_val (ip ++ fp) = 0.
Proof.
  unfold decimal_value. intros H.
  assert (0 < 10 ^ Z.of_nat (String.length fp)) as Hp
    by (apply Z.pow_pos_nonneg; lia).
  assert (~ (inject_Z (10 ^ Z.of_nat (String.length fp)) == 0)%Q) as Hne.
  { change 0%Q with (inject_Z 0). rewrite inject_Z_injective. lia. }
  apply (Qmult_inj_r _ _ _ Hne) in H.
  rewrite Qmult_0_l, Qmult_comm, Qmult_div_r in H by exact Hne.
  change 0%Q with (inject_Z 0) in H. now rewrite inject_Z_injective in H.
Qed.

(** C10.  The time parsers of [build_time_trends.py] and of
    [cross_validate_uss.py] agree on every string with at most one colon.
    On [H:MM:SS.fff] the former returns [H * 60 + MM] and the latter
    [H * 3600 + MM * 60 + SS.fff], which are different numbers unless all
    three fields are zero. *)
Theorem parse_time_agree_up_to_one_colon :
  (forall s : string,
      (count_char colon s <= 1)%nat ->
      BuildTimeTrends.parse_time (Some s) = CrossValidateUss.parse_time (Some s))
  /\ (forall h mm ss fff : string,
        is_digits h = true -> is_digits mm = true ->
        is_digits ss = true -> is_digits fff = true ->
        let s := h ++ ":" ++ mm ++ ":" ++ ss ++ "." ++ fff in
        BuildTimeTrends.parse_time (Some s)
        = Some (fin (inject_Z (digits_val h) * 60 + inject_Z (digits_val mm)))
        /\ CrossValidateUss.parse_time (Some s)
           = Some (fin (inject_Z (digits_val h) * 3600
                        + inject_Z (digits_val mm) * 60
                        + decimal_value ss fff))
        /\ (BuildTimeTrends.parse_time (Some s)
            = CrossValidateUss.parse_time (Some s) ->
            digits_val h = 0 /\ digits_val mm = 0
            /\ digits_val (ss ++ fff) = 0)).
Proof.
  split.
  - intros s Hs.
    unfold BuildTimeTrends.parse_time, CrossValidateUss.parse_time.
    destruct (negb (PyStr.truthy s)); [reflexivity|].
    pose proof (count_char_strip colon s) as Hle.
    change ":" with (String colon ""). rewrite contains_char.
    destruct (count_char colon (strip s)) as [|[|n]] eqn:Hn;
      [reflexivity | | lia].
    pose proof (split_on_length colon (strip s)) as Hlen.
    rewrite Hn in Hlen.
    destruct (split_on BuildTimeTrends.colon (strip s))
      as [|p0 [|p1 [|p2 ps]]] eqn:Hsp;
      unfold colon in Hlen; rewrite Hsp in Hlen; try discriminate Hlen.
    reflexivity.
  - intros h mm ss fff Hh Hm Hs Hf s.
    assert (strip s = s) as Hstrip.
    { pose proof (strip_digits_ends h (":" ++ mm ++ ":" ++ ss ++ ".") fff Hh Hf)
        as H.
      now rewrite !append_assoc in H. }
    assert (BuildTimeTrends.parse_time (Some s)
            = Some (fin (inject_Z (digits_val h) * 60
                         + inject_Z (digits_val mm)))) as Hb.
    { subst s. rewrite build_three_fields; try assumption;
        try (now apply digits_field, is_digits_all).
      rewrite (float_of_digits _ Hh), (float_of_digits _ Hm).
      now rewrite of_Z_fin, fmul_fin, fadd_fin. }
    assert (CrossValidateUss.parse_time (Some s)
            = Some (fin (inject_Z (digits_val h) * 3600
                         + inject_Z (digits_val mm) * 60
                         + decimal_value ss fff))) as Hc.
    { subst s. rewrite cross_three_fields; try assumption;
        try (now apply digits_field, is_digits_all);
        try (now apply decimal_field).
      rewrite (float_of_digits _ Hh), (float_of_digits _ Hm),
        (float_of_decimal _ _ Hs Hf).
      now rewrite !of_Z_fin, !fmul_fin, !fadd_fin. }
    split; [exact Hb|]. split; [exact Hc|].
    rewrite Hb, Hc. intros [= Heq%Qred_eq_iff].
    pose proof (digits_val_nonneg h) as H1.
    pose proof (digits_val_nonneg mm) as H2.
    pose proof (decimal_value_nonneg ss fff) as H3.
    rewrite Zle_Qle in H1, H2.
    change (inject_Z 0) with 0%Q in H1, H2.
    assert (inject_Z (digits_val h) == 0)%Q as E1 by lra.
    assert (inject_Z (digits_val mm) == 0)%Q as E2 by lra.
    assert (decimal_value ss fff == 0)%Q as E3 by lra.
    change 0%Q with (inject_Z 0) in E1, E2.
    rewrite inject_Z_injective in E1, E2.
    auto using decimal_value_zero.
Qed.

Lemma parse_time_agree_up_to_one_colon_witness :
  BuildTimeTrends.parse_time (Some "2:12.734")
  = CrossValidateUss.parse_time (Some "2:12.734")
  /\ BuildTimeTrends.parse_time (Some "1:02:03.5") = Some (fin 62%Q)
  /\ CrossValidateUss.parse_time (Some "1:02:03.5") = Some (fin 3723.5%Q).
Proof.
  destruct parse_time_agree_up_to_one_colon as [Hagree Hthree].
  split; [apply Hagree; vm_compute; lia|].
  destruct (Hthree "1" "02" "03" "5") as (Hb & Hc & _); try reflexivity.
  split; [exact Hb | exact Hc].
Defined.

End TimeParsersCompared.

(* ===================================================================== *)
(** ** Distance buckets *)
(* ===================================================================== *)

Module Distances.
Import BuildTimeTrends.

Lemma normalize_distance_standard (d : option Z) (v : Z) :
  normalize_distance d = Some v -> In v standard_distances.
Proof.
  destruct d as [d|]; [|discriminate].
  unfold normalize_distance.
  destruct (d =? 0); [discriminate|].
  destruct (List.find (in_mapping d) mappings) as [[r s]|] eqn:Hf.
  - intros [= <-]. apply find_some in Hf as [Hin _].
    simpl in Hin. unfold standard_distances.
    repeat (destruct Hin as [[= <- <-]|Hin]; [simpl; tauto|]). destruct Hin.
  - destruct (existsb (Z.eqb d) standard_distances) eqn:He.
    + intros [= <-]. apply existsb_exists in He as (x & Hx & Heq).
      apply Z.eqb_eq in Heq. now subst x.
    + destruct (_ || _); discriminate.
Qed.

Lemma normalize_distance_fixed (v : Z) :
  In v standard_distances -> normalize_distance (Some v) = Some v.
Proof.
  unfold standard_distances. simpl.
  intros H. repeat (destruct H as [<-|H]; [reflexivity|]). destruct H.
Qed.

(** C7.  [normalize_distance] sends 451, 500 and 549 to 500, sends 599
    to 500 (the range 580-620), discards 4001, and whatever it does not
    discard is one of 222, 333, 500, 777, 1000, 1500, 3000. *)
Theorem normalize_distance_buckets :
  normalize_distance (Some 451) = Some 500
  /\ normalize_distance (Some 500) = Some 500
  /\ normalize_distance (Some 549) = Some 500
  /\ normalize_distance (Some 599) = Some 500
  /\ normalize_distance (Some 4001) = None
  /\ (forall (d : option Z) (v : Z),
        normalize_distance d = Some v ->
        In v [222; 333; 500; 777; 1000; 1500; 3000]).
Proof.
  repeat (split; [reflexivity|]). exact normalize_distance_standard.
Qed.

Lemma normalize_distance_buckets_witness :
  In 777 [222; 333; 500; 777; 1000; 1500; 3000].
Proof.
  apply (proj2 (proj2 (proj2 (proj2 (proj2 normalize_distance_buckets))))
           (Some 666) 777).
  reflexivity.
Defined.

End Distances.

(* ===================================================================== *)
(** ** The two spellings of one name *)
(* ===================================================================== *)

Module Names.
Import PyStr BuildTimeTrends.

Lemma add_personal_best_keeps (parse_date : option string -> option Z)
    (uss_comps : list string) (all_results : list result)
    (pb : personal_best) (r : result) :
  r ∈ all_results -> r ∈ add_personal_best parse_date uss_comps all_results pb.
Proof.
  intros Hr. unfold add_personal_best.
  repeat match goal with
         | |- context [if ?b then _ else _] => destruct b
         | |- context [match ?o with Some _ => _ | None => _ end] =>
             destruct o
         end; try exact Hr.
  apply elem_of_app. now left.
Qed.

Lemma personal_bests_keep (parse_date : option string -> option Z)
    (uss_comps : list string) (pbs : list personal_best)
    (all_results : list result) (r : result) :
  r ∈ all_results ->
  r ∈ fold_left (add_personal_best parse_date uss_comps) pbs all_results.
Proof.
  revert all_results. induction pbs as [|pb pbs IH]; intros all Hr; [exact Hr|].
  simpl. apply IH. now apply add_personal_best_keeps.
Qed.

(** The claim as stated does not hold for either normaliser. *)
Lemma spellings_get_different_keys :
  BuildTimeTrends.normalize_name "CHEN Daniel USA-PSSP"
  <> BuildTimeTrends.normalize_name "Daniel Chen"
  /\ CrossValidateUss.normalize_name "CHEN Daniel USA-PSSP"
     <> CrossValidateUss.normalize_name "Daniel Chen".
Proof. split; vm_compute; discriminate. Qed.

(** C5, as amended.  [normalize_name] of [build_time_trends.py] gives
    ["chen daniel"] for ["CHEN Daniel USA-PSSP"] and ["daniel chen"] for
    ["Daniel Chen"] (that of [cross_validate_uss.py] gives
    ["daniel usa-pssp chen"] and ["daniel chen"]).  The two spellings are
    one athlete for [build_time_trends] all the same, because the results
    stored under the key with its last word moved to the front, here
    ["chen daniel"], are collected for the skater too. *)
Theorem spellings_joined_by_reversed_lookup :
  BuildTimeTrends.normalize_name "CHEN Daniel USA-PSSP" = "chen daniel"
  /\ BuildTimeTrends.normalize_name "Daniel Chen" = "daniel chen"
  /\ CrossValidateUss.normalize_name "CHEN Daniel USA-PSSP"
     = "daniel usa-pssp chen"
  /\ CrossValidateUss.normalize_name "Daniel Chen" = "daniel chen"
  /\ reversed_name (BuildTimeTrends.normalize_name "Daniel Chen")
     = Some (BuildTimeTrends.normalize_name "CHEN Daniel USA-PSSP")
  /\ (forall (parse_date : option string -> option Z)
             (uss_results : gmap string (list result)) (sk : skater)
             (rs : list result) (r : result),
        skater_name sk = Some "Daniel Chen" ->
        uss_results !! BuildTimeTrends.normalize_name "CHEN Daniel USA-PSSP"
        = Some rs ->
        r ∈ rs ->
        r ∈ collect_results parse_date uss_results sk).
Proof.
  assert (BuildTimeTrends.normalize_name "CHEN Daniel USA-PSSP"
          = "chen daniel") as E1 by (vm_compute; reflexivity).
  assert (BuildTimeTrends.normalize_name "Daniel Chen" = "daniel chen")
    as E2 by (vm_compute; reflexivity).
  assert (reversed_name "daniel chen" = Some "chen daniel") as E3
    by (vm_compute; reflexivity).
  rewrite E1, E2.
  repeat (split; [vm_compute; reflexivity|]).
  intros parse_date uss_results sk rs r Hname Hrs Hr.
  unfold collect_results. rewrite Hname.
  change (default "" (Some "Daniel Chen")) with "Daniel Chen".
  rewrite E2, E3. apply personal_bests_keep.
  apply elem_of_app. right.
  change (negb ("chen daniel" =? "daniel chen")%string) with true.
  cbv iota. now rewrite Hrs.
Qed.

Lemma spellings_joined_by_reversed_lookup_witness :
  let r := {| distance := 500; time := PyFloat.fin 44.1%Q;
              time_str := Some "44.100"; competition := "Fall Classic";
              date := None; place := Some 2; source := uss_pdf |} in
  r ∈ collect_results (fun _ => None) {[ "chen daniel" := [r] ]}
        {| skater_id := "daniel-chen-usa"; skater_name := Some "Daniel Chen";
           personal_bests_detail := [] |}.
Proof.
  intros r.
  apply (proj2 (proj2 (proj2 (proj2 (proj2
           spellings_joined_by_reversed_lookup))))
           (fun _ => None) _ _ [r] r).
  - reflexivity.
  - reflexivity.
  - apply list_elem_of_here.
Defined.

End Names.


(* ===================================================================== *)
(** ** Facts about the sort and about grouping *)
(* ===================================================================== *)

Module SortFacts.
Section Sort.
Context {A : Type} (ltb : A -> A -> bool).

Lemma Forall_insert (P : A -> Prop) (x : A) (l : list A) :
  P x -> Forall P l -> Forall P (PySort.insert ltb x l).
Proof.
  intros Hx Hl. induction Hl as [|y l Hy Hl IH]; simpl.
  - now constructor.
  - destruct (ltb y x); repeat constructor; assumption.
Qed.

Lemma elem_of_insert (x y : A) (l : list A) :
  y ∈ PySort.insert ltb x l <-> y = x \/ y ∈ l.
Proof.
  induction l as [|z l IH]; simpl.
  - rewrite list_elem_of_singleton, elem_of_nil. tauto.
  - destruct (ltb z x); rewrite !elem_of_cons; [rewrite IH|]; tauto.
Qed.

(** The sorted list has the elements of the list. *)
Lemma elem_of_sort (y : A) (l : list A) :
  y ∈ PySort.sort ltb l <-> y ∈ l.
Proof.
  induction l as [|x l IH]; simpl; [reflexivity|].
  rewrite elem_of_insert, elem_of_cons, IH. tauto.
Qed.

Lemma sort_nil (l : list A) : PySort.sort ltb l = [] -> l = [].
Proof.
  destruct l as [|x l]; [reflexivity|]. intros H.
  assert (x ∈ PySort.sort ltb (x :: l)) as Hx
    by (apply elem_of_sort, list_elem_of_here).
  rewrite H in Hx. now apply elem_of_nil in Hx.
Qed.

(** When [<] is a strict weak order, nothing is below the head of the
    sorted list. *)
Hypothesis ltb_asym : forall x y, ltb x y = true -> ltb y x = false.
Hypothesis ltb_incomparable :
  forall x y z, ltb x y = false -> ltb y z = false -> ltb x z = false.

Lemma ltb_irrefl (x : A) : ltb x x = false.
Proof.
  destruct (ltb x x) eqn:E; [|reflexivity]. now rewrite (ltb_asym _ _ E) in E.
Qed.

Lemma insert_head (x h : A) (l t : list A) :
  PySort.insert ltb x l = h :: t ->
  (h = x /\ match l with [] => True | m :: _ => ltb m x = false end)
  \/ (exists l', l = h :: l' /\ ltb h x = true).
Proof.
  destruct l as [|m l]; simpl.
  - intros [= <- <-]. now left.
  - destruct (ltb m x) eqn:E; intros [= <- <-]; [right; eauto | now left].
Qed.

Lemma sort_head_least (l : list A) (h : A) (t : list A) :
  PySort.sort ltb l = h :: t -> forall z, z ∈ l -> ltb z h = false.
Proof.
  revert h t. induction l as [|x l IH]; intros h t; [discriminate|].
  simpl. intros Hins z Hz.
  apply elem_of_cons in Hz.
  destruct (insert_head _ _ _ _ Hins) as [[-> Hm]|(l' & Hl' & Hlt)].
  - destruct Hz as [->|Hz]; [apply ltb_irrefl|].
    destruct (PySort.sort ltb l) as [|m s] eqn:E.
    + apply sort_nil in E. subst l. now apply elem_of_nil in Hz.
    + apply (ltb_incomparable _ m); [|exact Hm].
      now apply (IH m s eq_refl).
  - destruct Hz as [->|Hz]; [now apply ltb_asym|].
    now apply (IH h l' Hl').
Qed.
End Sort.
End SortFacts.

Module GroupFacts.
Section Groups.
Context {K V : Type} `{EqDecision K} (key : V -> K).

Lemma append_elem (k : K) (v : V) (d : list (K * list V)) (k' : K)
    (vs : list V) (x : V) :
  (k', vs) ∈ ODict.append k v d -> x ∈ vs ->
  (x = v /\ k' = k) \/ exists vs', (k', vs') ∈ d /\ x ∈ vs'.
Proof.
  induction d as [|[k0 vs0] d IH]; simpl.
  - intros Hin%list_elem_of_singleton Hx. injection Hin as -> ->.
    apply list_elem_of_singleton in Hx. now left.
  - destruct (decide (k0 = k)) as [->|Hne]; rewrite elem_of_cons.
    + intros [[= -> ->]|Hin] Hx.
      * apply elem_of_app in Hx as [Hx|Hx%list_elem_of_singleton];
          [|now left].
        right. exists vs0. split; [apply list_elem_of_here | exact Hx].
      * right. exists vs. split; [now apply list_elem_of_further | exact Hx].
    + intros [[= -> ->]|Hin] Hx.
      * right. exists vs0. split; [apply list_elem_of_here | exact Hx].
      * destruct (IH Hin Hx) as [Hv|(vs' & Hvs' & Hx')]; [now left|].
        right. exists vs'. split; [now apply list_elem_of_further | exact Hx'].
Qed.

Lemma append_keys (k : K) (v : V) (d : list (K * list V)) (k' : K) :
  k' ∈ (ODict.append k v d).*1 <-> k' = k \/ k' ∈ d.*1.
Proof.
  induction d as [|[k0 vs0] d IH]; simpl.
  - rewrite list_elem_of_singleton, elem_of_nil. tauto.
  - destruct (decide (k0 = k)) as [->|Hne]; simpl; rewrite !elem_of_cons.
    + tauto.
    + rewrite IH. tauto.
Qed.

Lemma append_NoDup (k : K) (v : V) (d : list (K * list V)) :
  NoDup d.*1 -> NoDup (ODict.append k v d).*1.
Proof.
  induction d as [|[k0 vs0] d IH]; simpl.
  - intros _. apply NoDup_singleton.
  - intros [Hk0 Hd]%NoDup_cons.
    destruct (decide (k0 = k)) as [->|Hne]; simpl; apply NoDup_cons.
    + now split.
    + split; [|now apply IH]. rewrite append_keys.
      intros [?|?]; [congruence | contradiction].
Qed.

Lemma append_nonempty (k : K) (v : V) (d : list (K * list V)) :
  Forall (fun g => g.2 <> []) d ->
  Forall (fun g => g.2 <> []) (ODict.append k v d).
Proof.
  induction 1 as [|[k0 vs0] d Hg Hd IH]; simpl.
  - now repeat constructor.
  - destruct (decide (k0 = k)); constructor; simpl in *; auto.
    now destruct vs0.
Qed.

Lemma append_holds (k : K) (v : V) (d : list (K * list V)) :
  exists vs, (k, vs) ∈ ODict.append k v d /\ v ∈ vs.
Proof.
  induction d as [|[k0 vs0] d (vs & Hin & Hv)]; simpl.
  - exists [v]. split; apply list_elem_of_here.
  - destruct (decide (k0 = k)) as [->|Hne].
    + exists (vs0 ++ [v])%list. split; [apply list_elem_of_here|].
      apply elem_of_app. right. apply list_elem_of_here.
    + exists vs. split; [now apply list_elem_of_further | exact Hv].
Qed.

Lemma append_keeps (k : K) (v : V) (d : list (K * list V)) (k' : K)
    (vs : list V) (x : V) :
  (k', vs) ∈ d -> x ∈ vs ->
  exists vs', (k', vs') ∈ ODict.append k v d /\ x ∈ vs'.
Proof.
  induction d as [|[k0 vs0] d IH]; simpl; [now intros ?%elem_of_nil|].
  rewrite elem_of_cons. intros [[= -> ->]|Hin] Hx.
  - destruct (decide (k0 = k)) as [->|Hne].
    + exists (vs0 ++ [v])%list. split; [apply list_elem_of_here|].
      apply elem_of_app. now left.
    + exists vs0. split; [apply list_elem_of_here | exact Hx].
  - destruct (IH Hin Hx) as (vs' & Hin' & Hx').
    destruct (decide (k0 = k)) as [->|Hne].
    + exists vs. split; [now apply list_elem_of_further | exact Hx].
    + exists vs'. split; [now apply list_elem_of_further | exact Hx'].
Qed.

(** The state of the dictionary while the list is read. *)
Definition well_grouped (seen : list V) (d : list (K * list V)) : Prop :=
  NoDup d.*1
  /\ Forall (fun g => g.2 <> []) d
  /\ (forall k vs x, (k, vs) ∈ d -> x ∈ vs -> key x = k /\ x ∈ seen)
  /\ (forall x, x ∈ seen -> exists vs, (key x, vs) ∈ d /\ x ∈ vs).

Lemma fold_well_grouped (l seen : list V) (d : list (K * list V)) :
  well_grouped seen d ->
  well_grouped (seen ++ l)
    (fold_left (fun d v => ODict.append (key v) v d) l d).
Proof.
  revert seen d. induction l as [|v l IH]; intros seen d Hd; simpl.
  - now rewrite app_nil_r.
  - replace (seen ++ v :: l)%list with ((seen ++ [v]) ++ l)%list
      by now rewrite <- app_assoc.
    apply IH. destruct Hd as (Hnd & Hne & Hin & Hall).
    split; [now apply append_NoDup|].
    split; [now apply append_nonempty|]. split.
    + intros k vs x Hg Hx.
      destruct (append_elem _ _ _ _ _ _ Hg Hx) as [[-> ->]|(vs' & Hg' & Hx')].
      * split; [reflexivity|]. apply elem_of_app. right.
        apply list_elem_of_here.
      * destruct (Hin _ _ _ Hg' Hx') as [Hk Hs]. split; [exact Hk|].
        apply elem_of_app. now left.
    + intros x [Hx|Hx%list_elem_of_singleton]%elem_of_app.
      * destruct (Hall x Hx) as (vs & Hg & Hxs).
        now apply (append_keeps _ _ _ _ vs).
      * subst x. apply append_holds.
Qed.

(** [group_by] makes one group per key, not empty, of the values with
    that key. *)
Lemma group_by_well_grouped (l : list V) :
  well_grouped l (ODict.group_by key l).
Proof.
  apply (fold_well_grouped l [] []).
  split; [constructor|]. split; [constructor|].
  split; intros *; now intros ?%elem_of_nil.
Qed.

Lemma group_by_elem (l : list V) (k : K) (vs : list V) (x : V) :
  (k, vs) ∈ ODict.group_by key l -> x ∈ vs -> x ∈ l.
Proof.
  intros Hg Hx.
  destruct (group_by_well_grouped l) as (_ & _ & Hin & _).
  now destruct (Hin _ _ _ Hg Hx).
Qed.
End Groups.
End GroupFacts.

(* ===================================================================== *)
(** ** De-duplication of a timeline *)
(* ===================================================================== *)

Module Timeline.
Import PyStr PyFloat BuildTimeTrends.

(** *** The order of the sort *)

(** A number that orders the keys [x['date'] or '9999'] as the strings
    are ordered: dated keys by their day, the key ['9999'] between the last
    day of 9998 and the first of 9999. *)
Definition date_rank (d : option Z) : Z :=
  match d with
  | Some x => 2 * x
  | None => 2 * first_day_of_9999 - 1
  end.

Definition rank_le (x y : result) : Prop :=
  date_rank (date x) <= date_rank (date y).

Lemma date_key_ltb_rank (a b : option Z) :
  date_key_ltb a b = (date_rank a <? date_rank b).
Proof.
  destruct a as [x|], b as [y|]; unfold date_key_ltb, date_rank.
  - destruct (Z.ltb_spec x y), (Z.ltb_spec (2 * x) (2 * y)); lia.
  - destruct (Z.ltb_spec x first_day_of_9999),
      (Z.ltb_spec (2 * x) (2 * first_day_of_9999 - 1)); lia.
  - destruct (Z.leb_spec first_day_of_9999 y),
      (Z.ltb_spec (2 * first_day_of_9999 - 1) (2 * y)); lia.
  - now rewrite Z.ltb_irrefl.
Qed.

Lemma date_key_eqb_rank (a b : option Z) :
  date_key_eqb a b = (date_rank a =? date_rank b).
Proof.
  destruct a as [x|], b as [y|]; unfold date_key_eqb, date_rank.
  - destruct (Z.eqb_spec x y), (Z.eqb_spec (2 * x) (2 * y)); lia.
  - destruct (Z.eqb_spec (2 * x) (2 * first_day_of_9999 - 1)); lia.
  - destruct (Z.eqb_spec (2 * first_day_of_9999 - 1) (2 * y)); lia.
  - now rewrite Z.eqb_refl.
Qed.

Lemma sort_key_ltb_true (x y : result) :
  sort_key_ltb x y = true -> rank_le x y.
Proof.
  unfold sort_key_ltb, rank_le.
  rewrite date_key_eqb_rank, date_key_ltb_rank.
  destruct (Z.eqb_spec (date_rank (date x)) (date_rank (date y))); [lia|].
  intros H%Z.ltb_lt. lia.
Qed.

Lemma sort_key_ltb_false (x y : result) :
  sort_key_ltb x y = false -> rank_le y x.
Proof.
  unfold sort_key_ltb, rank_le.
  rewrite date_key_eqb_rank, date_key_ltb_rank.
  destruct (Z.eqb_spec (date_rank (date x)) (date_rank (date y))); [lia|].
  intros H%Z.ltb_ge. lia.
Qed.

Lemma insert_sorted (x : result) (l : list result) :
  StronglySorted rank_le l ->
  StronglySorted rank_le (PySort.insert sort_key_ltb x l).
Proof.
  induction 1 as [|y l Hl IH Hy]; simpl.
  - repeat constructor.
  - destruct (sort_key_ltb y x) eqn:E.
    + constructor; [exact IH|].
      apply SortFacts.Forall_insert; [now apply sort_key_ltb_true | exact Hy].
    + apply sort_key_ltb_false in E.
      constructor; [now constructor|].
      constructor; [exact E|].
      eapply Forall_impl; [exact Hy|].
      intros z Hz. unfold rank_le in *. lia.
Qed.

(** The sorted list is in the order of the dates. *)
Lemma sort_sorted (l : list result) :
  StronglySorted rank_le (PySort.sort sort_key_ltb l).
Proof.
  induction l as [|x l IH]; simpl; [constructor | now apply insert_sorted].
Qed.

(** *** The scan for a result of the same two days *)

(** [x] is no dated result within two days of [r_date]. *)
Definition far_from (r_date : Z) (x : result) : Prop :=
  match date x with
  | Some x_date => 2 < Z.abs (r_date - x_date)
  | None => True
  end.

Lemma within_two_days_spec (a b : Z) :
  within_two_days a b = true <-> Z.abs (a - b) <= 2.
Proof. unfold within_two_days. apply Z.leb_le. Qed.

Lemma first_within_some (r_date : Z) (deduped : list result) (k i : nat)
    (existing : result) :
  first_within r_date k deduped = Some (i, existing) ->
  exists j e_date,
    i = (k + j)%nat /\ deduped !! j = Some existing
    /\ date existing = Some e_date /\ Z.abs (r_date - e_date) <= 2
    /\ forall j' x, (j' < j)%nat -> deduped !! j' = Some x -> far_from r_date x.
Proof.
  revert k. induction deduped as [|y l IH]; intros k; [discriminate|].
  simpl. destruct (date y) as [y_date|] eqn:Hy.
  - destruct (within_two_days r_date y_date) eqn:Hw.
    + intros [= <- <-]. exists O, y_date.
      apply within_two_days_spec in Hw.
      repeat split; [lia | assumption.. | intros j' x Hj'; lia].
    + intros (j & e_date & -> & Hj & He & Hd & Hfar)%IH.
      exists (S j), e_date. repeat split; [lia | assumption..|].
      intros [|j'] x Hlt Hx.
      * injection Hx as <-. unfold far_from. rewrite Hy.
        apply not_true_iff_false in Hw. rewrite within_two_days_spec in Hw. lia.
      * apply (Hfar j'); [lia | exact Hx].
  - intros (j & e_date & -> & Hj & He & Hd & Hfar)%IH.
    exists (S j), e_date. repeat split; [lia | assumption..|].
    intros [|j'] x Hlt Hx.
    + injection Hx as <-. unfold far_from. now rewrite Hy.
    + apply (Hfar j'); [lia | exact Hx].
Qed.

Lemma first_within_none (r_date : Z) (deduped : list result) (k : nat) :
  first_within r_date k deduped = None -> Forall (far_from r_date) deduped.
Proof.
  revert k. induction deduped as [|y l IH]; intros k; [constructor|].
  simpl. destruct (date y) as [y_date|] eqn:Hy.
  - destruct (within_two_days r_date y_date) eqn:Hw; [discriminate|].
    intros H. constructor; [|now apply (IH (S k))].
    unfold far_from. rewrite Hy.
    apply not_true_iff_false in Hw. rewrite within_two_days_spec in Hw. lia.
  - intros H. constructor; [|now apply (IH (S k))].
    unfold far_from. now rewrite Hy.
Qed.


(** *** No two kept dated results within two days *)

Definition far (a b : result) : Prop :=
  match date a, date b with
  | Some a_date, Some b_date => 2 < Z.abs (a_date - b_date)
  | _, _ => True
  end.

Definition separated (l : list result) : Prop := StronglySorted far l.

Lemma far_sym (a b : result) : far a b -> far b a.
Proof. unfold far. destruct (date a), (date b); try tauto. lia. Qed.

Lemma far_from_far (r x : result) (r_date : Z) :
  date r = Some r_date -> far_from r_date x -> far x r.
Proof.
  unfold far, far_from. intros ->. destruct (date x); [lia | tauto].
Qed.

Lemma far_undated (r x : result) : date r = None -> far x r.
Proof. unfold far. intros ->. now destruct (date x). Qed.

Lemma separated_snoc (l : list result) (r : result) :
  separated l -> Forall (fun x => far x r) l -> separated (l ++ [r]).
Proof.
  unfold separated. induction 1 as [|y l Hl IH Hy]; intros Hr; simpl.
  - repeat constructor.
  - inversion_clear Hr as [|? ? Hyr Hlr].
    constructor; [now apply IH|].
    apply Forall_app. split; [exact Hy | now constructor].
Qed.

Lemma separated_lookup (l : list result) (i j : nat) (a b : result) :
  separated l -> (i < j)%nat -> l !! i = Some a -> l !! j = Some b -> far a b.
Proof.
  unfold separated. intros Hl. revert i j.
  induction Hl as [|y l Hl IH Hy]; intros i j Hij Ha Hb; [discriminate|].
  destruct j as [|j]; [lia|]. simpl in Hb.
  destruct i as [|i].
  - injection Ha as ->. rewrite Forall_forall in Hy.
    apply Hy. now apply list_elem_of_lookup_2 in Hb.
  - apply (IH i j); [lia | exact Ha | exact Hb].
Qed.

Lemma separated_insert (l : list result) (i : nat) (r : result) :
  separated l ->
  (forall j x, j <> i -> l !! j = Some x -> far x r) ->
  separated (<[i := r]> l).
Proof.
  unfold separated. intros Hl. revert i.
  induction Hl as [|y l Hl IH Hy]; intros i Hfar; [constructor|].
  destruct i as [|i]; simpl.
  - constructor; [exact Hl|].
    apply Forall_forall. intros x [j Hx]%list_elem_of_lookup_1.
    apply far_sym, (Hfar (S j)); [lia | exact Hx].
  - constructor.
    + apply IH. intros j x Hj Hx. apply (Hfar (S j)); [lia | exact Hx].
    + apply Forall_forall. intros x [j Hx]%list_elem_of_lookup_1.
      destruct (decide (j = i)) as [->|Hne].
      * pose proof (lookup_lt_Some _ _ _ Hx) as Hlt.
        rewrite length_insert in Hlt.
        rewrite list_lookup_insert_eq in Hx by exact Hlt.
        injection Hx as <-. apply (Hfar O); [lia | reflexivity].
      * rewrite list_lookup_insert_ne in Hx by congruence.
        rewrite Forall_forall in Hy. apply Hy.
        now apply list_elem_of_lookup_2 in Hx.
Qed.

Lemma Forall_remove_first (P : result -> Prop) (e : result) (l : list result) :
  Forall P l -> Forall P (remove_first e l).
Proof.
  induction 1 as [|y l Hy Hl IH]; simpl; [constructor|].
  destruct (result_eqb y e); [exact Hl | now constructor].
Qed.

Lemma separated_remove_first (e : result) (l : list result) :
  separated l -> separated (remove_first e l).
Proof.
  unfold separated. induction 1 as [|y l Hl IH Hy]; simpl; [constructor|].
  destruct (result_eqb y e); [exact Hl|].
  constructor; [exact IH | now apply Forall_remove_first].
Qed.

Lemma elem_of_remove_first (x e : result) (l : list result) :
  x ∈ remove_first e l -> x ∈ l.
Proof.
  induction l as [|y l IH]; simpl; [easy|].
  destruct (result_eqb y e); rewrite !elem_of_cons; [tauto|].
  intros [->|H]; [now left | right; now apply IH].
Qed.

(** Whatever is kept after a step was kept before, or is the new result. *)
Lemma dedup_step_elem (deduped : list result) (r x : result) :
  x ∈ dedup_step deduped r -> x ∈ deduped \/ x = r.
Proof.
  unfold dedup_step. destruct (date r) as [r_date|].
  - destruct (first_within r_date 0 deduped) as [[i existing]|].
    + destruct (fltb (time r) (time existing)); [|now left].
      intros [j Hx]%list_elem_of_lookup_1.
      destruct (decide (i = j)) as [->|Hne].
      * pose proof (lookup_lt_Some _ _ _ Hx) as Hlt.
        rewrite length_insert in Hlt.
        rewrite list_lookup_insert_eq in Hx by exact Hlt.
        injection Hx as <-. now right.
      * rewrite list_lookup_insert_ne in Hx by exact Hne.
        left. now apply list_elem_of_lookup_2 in Hx.
    + rewrite elem_of_app, list_elem_of_singleton. tauto.
  - destruct (List.find (same_competition r) deduped) as [existing|].
    + destruct (fltb (time r) (time existing)); [|now left].
      rewrite elem_of_app, list_elem_of_singleton.
      intros [H|H]; [left; now apply elem_of_remove_first in H | now right].
    + rewrite elem_of_app, list_elem_of_singleton. tauto.
Qed.

Lemma dedup_step_separated (deduped : list result) (r : result) :
  separated deduped -> Forall (fun e => rank_le e r) deduped ->
  separated (dedup_step deduped r).
Proof.
  intros Hsep Hle. unfold dedup_step.
  destruct (date r) as [r_date|] eqn:Hr.
  - destruct (first_within r_date 0 deduped) as [[i existing]|] eqn:Hf.
    + destruct (fltb (time r) (time existing)); [|exact Hsep].
      apply first_within_some in Hf
        as (j & e_date & -> & Hj & He & Hd & Hfar).
      apply separated_insert; [exact Hsep|].
      intros j' x Hne Hx.
      destruct (Nat.lt_total j' j) as [Hlt|[->|Hgt]]; [| lia |].
      * eapply far_from_far; [exact Hr|]. now apply (Hfar j').
      * pose proof (separated_lookup _ _ _ _ _ Hsep Hgt Hj Hx) as Hex.
        rewrite Forall_forall in Hle.
        pose proof (Hle _ (list_elem_of_lookup_2 _ _ _ Hj)) as Her.
        pose proof (Hle _ (list_elem_of_lookup_2 _ _ _ Hx)) as Hxr.
        unfold far, rank_le, date_rank in *. rewrite Hr, He in *.
        destruct (date x) as [x_date|]; [lia | exact I].
    + apply separated_snoc; [exact Hsep|].
      apply first_within_none in Hf.
      eapply Forall_impl; [exact Hf|].
      intros x. now apply far_from_far.
  - assert (forall l, separated l -> separated (l ++ [r])) as Hsnoc.
    { intros l Hl. apply separated_snoc; [exact Hl|].
      apply Forall_forall. intros x _. now apply far_undated. }
    destruct (List.find (same_competition r) deduped) as [existing|].
    + destruct (fltb (time r) (time existing)); [|exact Hsep].
      now apply Hsnoc, separated_remove_first.
    + now apply Hsnoc.
Qed.

Lemma fold_dedup_separated (l deduped : list result) :
  StronglySorted rank_le l ->
  Forall (fun e => Forall (rank_le e) l) deduped ->
  separated deduped ->
  separated (fold_left dedup_step l deduped).
Proof.
  intros Hl. revert deduped.
  induction Hl as [|r l Hl IH Hr]; intros deduped Hle Hsep; [exact Hsep|].
  simpl. apply IH.
  - apply Forall_forall. intros x [Hx| ->]%dedup_step_elem; [|exact Hr].
    rewrite Forall_forall in Hle. specialize (Hle x Hx).
    now inversion Hle.
  - apply dedup_step_separated; [exact Hsep|].
    eapply Forall_impl; [exact Hle|].
    intros x Hx. now inversion Hx.
Qed.

Lemma dedup_distance_separated (results : list result) :
  separated (dedup_distance results).
Proof.
  unfold dedup_distance. apply fold_dedup_separated.
  - apply sort_sorted.
  - constructor.
  - constructor.
Qed.

Lemma fold_dedup_elem (l deduped : list result) (x : result) :
  x ∈ fold_left dedup_step l deduped -> x ∈ deduped \/ x ∈ l.
Proof.
  revert deduped. induction l as [|r l IH]; intros deduped; simpl; [tauto|].
  intros [[H| ->]%dedup_step_elem|H]%IH; rewrite elem_of_cons; tauto.
Qed.

(** Every kept result is one of the results given. *)
Lemma dedup_distance_elem (results : list result) (x : result) :
  x ∈ dedup_distance results -> x ∈ results.
Proof.
  unfold dedup_distance.
  intros [H|H]%fold_dedup_elem; [now apply elem_of_nil in H|].
  exact (proj1 (SortFacts.elem_of_sort _ _ _) H).
Qed.

(** *** The scan for a result of the same competition *)

Lemma result_eqb_refl (x : result) : result_eqb x x = true.
Proof.
  unfold result_eqb.
  assert (PyFloat.same (time x) (time x) = true) as ->.
  { destruct (time x) as [q|s|]; simpl; [apply Qeq_bool_refl | | reflexivity].
    now destruct s. }
  assert (source_eqb (source x) (source x) = true) as ->
    by now destruct (source x).
  rewrite Z.eqb_refl, String.eqb_refl.
  destruct (time_str x), (date x), (place x); simpl;
    rewrite ?String.eqb_refl, ?Z.eqb_refl; reflexivity.
Qed.

Lemma result_eqb_competition (x y : result) :
  result_eqb x y = true -> competition x = competition y.
Proof.
  unfold result_eqb. rewrite !andb_true_iff.
  intros [[[[_ H] _] _] _]. now apply String.eqb_eq.
Qed.

(** [List.find] gives the first entry that passes the test. *)
Lemma find_first {A : Type} (p : A -> bool) (l : list A) (x : A) :
  List.find p l = Some x <->
  exists i, l !! i = Some x /\ p x = true
            /\ forall j y, (j < i)%nat -> l !! j = Some y -> p y = false.
Proof.
  induction l as [|y l IH]; simpl.
  - split; [discriminate | now intros (i & H & _)].
  - destruct (p y) eqn:Hy.
    + split.
      * intros [= ->]. exists O. repeat split; [exact Hy|]. intros j z Hj; lia.
      * intros ([|i] & Hi & Hx & Hfirst).
        -- simpl in Hi. congruence.
        -- specialize (Hfirst O y ltac:(lia) eq_refl). congruence.
    + rewrite IH. split.
      * intros (i & Hi & Hx & Hfirst). exists (S i). repeat split; try assumption.
        intros [|j] z Hj Hz; [simpl in Hz; congruence|].
        apply (Hfirst j); [lia | exact Hz].
      * intros ([|i] & Hi & Hx & Hfirst).
        -- simpl in Hi. congruence.
        -- exists i. repeat split; try assumption.
           intros j z Hj Hz. apply (Hfirst (S j)); [lia | exact Hz].
Qed.

(** Two equal results have the same competition, so the first result
    equal to the one the scan stopped at is that result itself:
    [deduped.remove(existing)] deletes at its index. *)
Lemma remove_first_found (r : result) (deduped : list result) (i : nat)
    (existing : result) :
  deduped !! i = Some existing ->
  same_competition r existing = true ->
  (forall j x, (j < i)%nat -> deduped !! j = Some x ->
               same_competition r x = false) ->
  remove_first existing deduped = delete i deduped.
Proof.
  revert i. induction deduped as [|y l IH]; intros i Hi He Hfirst;
    [discriminate|].
  destruct i as [|i]; simpl in *.
  - injection Hi as ->. now rewrite result_eqb_refl.
  - destruct (result_eqb y existing) eqn:Hy.
    + apply result_eqb_competition in Hy.
      specialize (Hfirst O y ltac:(lia) eq_refl).
      unfold same_competition in *. rewrite Hy in Hfirst. congruence.
    + f_equal. apply IH; [exact Hi | exact He|].
      intros j x Hj Hx. apply (Hfirst (S j)); [lia | exact Hx].
Qed.

(** *** What one step does *)


Lemma dedup_step_dated_new (deduped : list result) (r : result) (r_date : Z) :
  date r = Some r_date ->
  Forall (far_from r_date) deduped ->
  dedup_step deduped r = (deduped ++ [r])%list.
Proof.
  intros Hr Hfar. unfold dedup_step. rewrite Hr.
  destruct (first_within r_date 0 deduped) as [[i existing]|] eqn:Hf;
    [|reflexivity].
  apply first_within_some in Hf as (j & e_date & _ & Hj & He & Hd & _).
  rewrite Forall_forall in Hfar.
  specialize (Hfar _ (list_elem_of_lookup_2 _ _ _ Hj)).
  unfold far_from in Hfar. rewrite He in Hfar. lia.
Qed.



(** *** A dropped result is never faster than what is kept *)












(** *** The sources play no part *)

(** [r] with another source. *)
Definition with_source (f : result -> source_tag) (r : result) : result :=
  {| distance := distance r;
     time := time r;
     time_str := time_str r;
     competition := competition r;
     date := date r;
     place := place r;
     source := f r |}.

Section Relabel.
Variable f : result -> source_tag.
Let g : result -> result := with_source f.

Lemma insert_relabel (x : result) (l : list result) :
  PySort.insert sort_key_ltb (g x) (g <$> l)
  = g <$> PySort.insert sort_key_ltb x l.
Proof.
  induction l as [|y l IH]; [reflexivity|].
  simpl. change (sort_key_ltb (g y) (g x)) with (sort_key_ltb y x).
  destruct (sort_key_ltb y x); [|reflexivity].
  simpl. f_equal. exact IH.
Qed.

Lemma sort_relabel (l : list result) :
  PySort.sort sort_key_ltb (g <$> l) = g <$> PySort.sort sort_key_ltb l.
Proof.
  induction l as [|x l IH]; [reflexivity|].
  simpl. rewrite <- insert_relabel. f_equal. exact IH.
Qed.

Lemma first_within_relabel (r_date : Z) (k : nat) (l : list result) :
  first_within r_date k (g <$> l)
  = (fun '(i, e) => (i, g e)) <$> first_within r_date k l.
Proof.
  revert k. induction l as [|y l IH]; intros k; [reflexivity|].
  simpl. destruct (date y) as [y_date|]; [|apply IH].
  destruct (within_two_days r_date y_date); [reflexivity | apply IH].
Qed.

Lemma dedup_step_relabel (deduped : list result) (r : result) :
  dedup_step (g <$> deduped) (g r) = g <$> dedup_step deduped r.
Proof.
  unfold dedup_step. change (date (g r)) with (date r).
  destruct (date r) as [r_date|] eqn:Hr.
  - rewrite first_within_relabel.
    destruct (first_within r_date 0 deduped) as [[i existing]|]; simpl.
    + destruct (fltb (time r) (time existing)); [|reflexivity].
      now rewrite list_fmap_insert.
    + now rewrite fmap_app.
  - destruct (List.find (same_competition r) deduped) as [existing|] eqn:Hf.
    + apply find_first in Hf as (i & Hi & He & Hfirst).
      assert (List.find (same_competition (g r)) (g <$> deduped)
              = Some (g existing)) as ->.
      { apply find_first. exists i. repeat split.
        - now rewrite list_lookup_fmap, Hi.
        - exact He.
        - intros j y Hj. rewrite list_lookup_fmap.
          destruct (deduped !! j) as [x|] eqn:Hx; [|discriminate].
          intros [= <-]. change (same_competition r x = false).
          now apply (Hfirst j). }
      change (time (g r)) with (time r).
      change (time (g existing)) with (time existing).
      destruct (fltb (time r) (time existing)); [|reflexivity].
      rewrite (remove_first_found r deduped i existing Hi He Hfirst).
      rewrite (remove_first_found (g r) (g <$> deduped) i (g existing)).
      * now rewrite fmap_app, list_fmap_delete.
      * now rewrite list_lookup_fmap, Hi.
      * exact He.
      * intros j y Hj. rewrite list_lookup_fmap.
        destruct (deduped !! j) as [x|] eqn:Hx; [|discriminate].
        intros [= <-]. change (same_competition r x = false).
        now apply (Hfirst j).
    + assert (List.find (same_competition (g r)) (g <$> deduped) = None) as ->.
      { destruct (List.find (same_competition (g r)) (g <$> deduped))
          as [y|] eqn:Hy; [|reflexivity].
        apply find_some in Hy as [Hin Hp].
        apply list_elem_of_In, list_elem_of_fmap in Hin as (x & -> & Hx).
        apply list_elem_of_In in Hx.
        change (same_competition r x = true) in Hp.
        now rewrite (find_none _ _ Hf x Hx) in Hp. }
      now rewrite fmap_app.
Qed.

Lemma fold_dedup_relabel (l deduped : list result) :
  fold_left dedup_step (g <$> l) (g <$> deduped)
  = g <$> fold_left dedup_step l deduped.
Proof.
  revert deduped. induction l as [|r l IH]; intros deduped; [reflexivity|].
  simpl. rewrite dedup_step_relabel. apply IH.
Qed.

(** Giving the results other sources changes nothing but the sources of
    what is kept. *)
Lemma dedup_distance_relabel (results : list result) :
  dedup_distance (with_source f <$> results)
  = with_source f <$> dedup_distance results.
Proof.
  unfold dedup_distance. rewrite sort_relabel.
  apply (fold_dedup_relabel _ []).
Qed.
End Relabel.

(** *** The claims about the timeline *)

(** Three results of one distance, on 2023-10-14, 2023-10-16 and
    2023-10-18, each slower than the one before. *)
Definition first_day : result :=
  {| distance := 500; time := fin 40; time_str := Some "40.000";
     competition := "Fall Classic"; date := Some 738807; place := Some 1;
     source := uss_pdf |}.
Definition third_day : result :=
  {| distance := 500; time := fin 41; time_str := Some "41.000";
     competition := "Fall Classic"; date := Some 738809; place := Some 2;
     source := uss_pdf |}.
Definition fifth_day : result :=
  {| distance := 500; time := fin 42; time_str := Some "42.000";
     competition := "Fall Classic"; date := Some 738811; place := Some 3;
     source := uss_pdf |}.




(** Two undated results of one competition can both be kept, when dated
    results of that competition were kept before them. *)
Lemma undated_pair_both_kept :
  let dated (day : Z) (seconds : Q) :=
    {| distance := 500; time := fin seconds; time_str := None;
       competition := "Fall Classic"; date := Some day; place := None;
       source := uss_hist |} in
  let undated (seconds : Q) :=
    {| distance := 500; time := fin seconds; time_str := None;
       competition := "Fall Classic"; date := None; place := None;
       source := stl |} in
  dedup_distance [dated 738807 50%Q; dated 738817 60%Q;
                  undated 40%Q; undated 45%Q]
  = [undated 40%Q; undated 45%Q].
Proof. vm_compute. reflexivity. Qed.

(** C3, on an official and a scraped result of one competition.  The
    result read from the official PDF is dated one day after the scraped
    one and has the same time; what is kept is the scraped result.  More
    generally the sources are never looked at: with other sources on the
    results the same results are kept. *)
Theorem dedup_ignores_source_priority :
  let official :=
    {| distance := 500; time := fin 41.2; time_str := Some "41.200";
       competition := "Fall Classic"; date := Some 738808; place := Some 4;
       source := uss_pdf |} in
  let scraped :=
    {| distance := 500; time := fin 41.2; time_str := Some "41.200";
       competition := "14.10. - 15.10.2023, Fall Classic";
       date := Some 738807; place := Some 4; source := stl |} in
  dedup_distance [official; scraped] = [scraped]
  /\ forall (f : result -> source_tag) (results : list result),
       dedup_distance (with_source f <$> results)
       = with_source f <$> dedup_distance results.
Proof.
  split; [vm_compute; reflexivity | exact dedup_distance_relabel].
Qed.

End Timeline.

(* ===================================================================== *)
(** ** The plausibility filter *)
(* ===================================================================== *)

Module Plausibility.
Import PyStr PyFloat BuildTimeTrends.

(** [t] is a finite number of seconds in the closed interval [[lo, hi]]. *)
Definition within (lo : Z) (t : pyfloat) (hi : Z) : Prop :=
  exists q, t = Fin q /\ (inject_Z lo <= q)%Q /\ (q <= inject_Z hi)%Q.

(** The time of [r] is inside the interval configured for its distance,
    or inside the generic one when none is configured. *)
Definition plausible (r : result) : Prop :=
  match bounds_get (distance r) with
  | Some (min_time, max_time) => within min_time (time r) max_time
  | None => within 25 (time r) 600
  end.

Definition valid (r : result) : Prop :=
  is_valid_time_for_distance (time r) (distance r) = true.

Lemma between_within (lo hi : Z) (t : pyfloat) :
  between lo t hi = true -> within lo t hi.
Proof.
  unfold between, within, of_Z, fin.
  intros [Hlo Hhi]%andb_true_iff.
  destruct t as [q|s|]; simpl in *; try discriminate.
  - exists q. apply Qle_bool_iff in Hlo, Hhi.
    rewrite Qred_correct in Hlo, Hhi. auto.
  - destruct s; discriminate.
Qed.

Lemma valid_plausible (r : result) : valid r -> plausible r.
Proof.
  unfold valid, plausible, is_valid_time_for_distance.
  destruct (_ || _); [discriminate|].
  destruct (bounds_get (distance r)) as [[min_time max_time]|];
    apply between_within.
Qed.

(** *** The loader keeps valid results only *)

Definition all_valid (d : gmap string (list result)) : Prop :=
  forall k rs, d !! k = Some rs -> Forall valid rs.

Lemma all_valid_empty : all_valid ∅.
Proof. intros k rs. now rewrite lookup_empty. Qed.

Lemma dict_append_valid (k : string) (r : result)
    (d : gmap string (list result)) :
  all_valid d -> valid r -> all_valid (dict_append k r d).
Proof.
  intros Hd Hr k' rs. unfold dict_append.
  destruct (decide (k = k')) as [<-|Hne].
  - rewrite lookup_insert_eq. intros [= <-].
    apply Forall_app. split; [|now repeat constructor].
    destruct (d !! k) as [old|] eqn:Hold; simpl; [now apply (Hd k) | constructor].
  - rewrite lookup_insert_ne by exact Hne. apply Hd.
Qed.

Lemma fold_left_preserves {A B : Type} (P : A -> Prop) (step : A -> B -> A)
    (l : list B) (a : A) :
  (forall a b, P a -> P (step a b)) -> P a -> P (fold_left step l a).
Proof.
  intros Hstep. revert a. induction l as [|b l IH]; intros a Ha; [exact Ha|].
  simpl. apply IH, Hstep, Ha.
Qed.

Section Loader.
Variable parse_date : option string -> option Z.

Lemma load_pdf_row_valid (d : gmap string (list result)) (row : uss_row) :
  all_valid d -> all_valid (load_pdf_row parse_date d row).
Proof.
  intros Hd. unfold load_pdf_row.
  destruct (parse_time (row_time row)) as [t|]; [|exact Hd].
  destruct (first_number _) as [dist|]; [|exact Hd].
  destruct (_ || _); [exact Hd|].
  destruct (is_valid_time_for_distance t dist) eqn:Hv; [|exact Hd].
  now apply dict_append_valid.
Qed.

Lemma load_hist_row_valid (d : gmap string (list result)) (row : uss_row) :
  all_valid d -> all_valid (load_hist_row parse_date d row).
Proof.
  intros Hd. unfold load_hist_row.
  destruct (negb (PyStr.truthy _)); [exact Hd|].
  destruct (parse_time (row_time row)) as [t|]; [|exact Hd].
  destruct (normalize_distance _) as [dist|]; [|exact Hd].
  destruct (_ || _); [exact Hd|].
  destruct (is_valid_time_for_distance t dist) eqn:Hv; [|exact Hd].
  now apply dict_append_valid.
Qed.

Lemma load_stl_result_valid (comp_name : string) (comp_date : option Z)
    (dist : Z) (d : gmap string (list result)) (res : stl_result) :
  all_valid d -> all_valid (load_stl_result comp_name comp_date dist d res).
Proof.
  intros Hd. unfold load_stl_result.
  destruct (parse_time (sr_time res)) as [t|]; [|exact Hd].
  destruct (_ || _); [exact Hd|].
  destruct (is_valid_time_for_distance t dist) eqn:Hv; [|exact Hd].
  now apply dict_append_valid.
Qed.

Lemma load_stl_comp_valid (d : gmap string (list result)) (comp : stl_comp) :
  all_valid d -> all_valid (load_stl_comp parse_date d comp).
Proof.
  unfold load_stl_comp. apply fold_left_preserves.
  intros d' event Hd'. unfold load_stl_event.
  destruct (normalize_distance (ev_distance event)) as [dist|]; [|exact Hd'].
  destruct (dist =? 0); [exact Hd'|].
  apply fold_left_preserves; [|exact Hd'].
  intros d'' res. apply load_stl_result_valid.
Qed.

Lemma load_uss_results_valid (pdf_rows hist_rows : list uss_row)
    (stl_files : list (list stl_comp)) :
  all_valid (load_uss_results parse_date pdf_rows hist_rows stl_files).
Proof.
  unfold load_uss_results.
  apply fold_left_preserves.
  { intros d file. apply fold_left_preserves.
    intros d' comp. apply load_stl_comp_valid. }
  apply fold_left_preserves; [intros d row; apply load_hist_row_valid|].
  apply fold_left_preserves; [intros d row; apply load_pdf_row_valid|].
  apply all_valid_empty.
Qed.

Lemma add_personal_best_valid (uss_comps : list string)
    (all_results : list result) (pb : personal_best) :
  Forall valid all_results ->
  Forall valid (add_personal_best parse_date uss_comps all_results pb).
Proof.
  intros Hall. unfold add_personal_best.
  destruct (existsb _ uss_comps); [exact Hall|].
  destruct (parse_time (pb_time pb)) as [t|]; [|exact Hall].
  destruct (normalize_distance (pb_distance pb)) as [dist|]; [|exact Hall].
  destruct (_ || _); [exact Hall|].
  destruct (is_valid_time_for_distance t dist) eqn:Hv; [|exact Hall].
  apply Forall_app. split; [exact Hall | now repeat constructor].
Qed.

Lemma lookup_default_valid (d : gmap string (list result)) (k : string) :
  all_valid d -> Forall valid (default [] (d !! k)).
Proof.
  intros Hd. destruct (d !! k) as [rs|] eqn:E; simpl;
    [now apply (Hd k) | constructor].
Qed.

Lemma collect_results_valid (uss_results : gmap string (list result))
    (sk : skater) :
  all_valid uss_results ->
  Forall valid (collect_results parse_date uss_results sk).
Proof.
  intros Hd. unfold collect_results.
  apply fold_left_preserves.
  { intros all pb. apply add_personal_best_valid. }
  apply Forall_app. split; [now apply lookup_default_valid|].
  destruct (reversed_name _) as [rn|]; [|constructor].
  destruct (negb _); [now apply lookup_default_valid | constructor].
Qed.
End Loader.

(** *** Grouping and de-duplication keep nothing new *)

Lemma timelines_elem (all_results : list result) (dist : Z)
    (rs : list result) (r : result) :
  (dist, rs) ∈ timelines all_results -> r ∈ rs -> r ∈ all_results.
Proof.
  unfold timelines. intros Hin Hr.
  apply list_elem_of_In, in_map_iff in Hin as ([k vs] & [= <- <-] & Hin).
  apply list_elem_of_In in Hin.
  apply Timeline.dedup_distance_elem in Hr.
  exact (GroupFacts.group_by_elem _ _ _ _ _ Hin Hr).
Qed.

Definition trends_valid (tt : gmap string (list (Z * list result))) : Prop :=
  forall (id : string) (trend : list (Z * list result)) (dist : Z)
         (rs : list result) (r : result),
    tt !! id = Some trend -> (dist, rs) ∈ trend -> r ∈ rs -> valid r.

Lemma add_skater_valid (parse_date : option string -> option Z)
    (uss_results : gmap string (list result))
    (tt : gmap string (list (Z * list result))) (sk : skater) :
  all_valid uss_results -> trends_valid tt ->
  trends_valid (add_skater parse_date uss_results tt sk).
Proof.
  intros Hvalid Htt id trend dist rs r. unfold add_skater.
  pose proof (collect_results_valid parse_date uss_results sk Hvalid) as Hall.
  destruct (collect_results parse_date uss_results sk) as [|x all] eqn:E;
    [apply Htt|].
  destruct (decide (skater_id sk = id)) as [<-|Hne].
  - rewrite lookup_insert_eq. intros [= <-] Hin Hr.
    rewrite Forall_forall in Hall. apply Hall.
    exact (timelines_elem _ _ _ _ Hin Hr).
  - rewrite lookup_insert_ne by exact Hne. apply Htt.
Qed.

Lemma build_time_trends_valid (parse_date : option string -> option Z)
    (pdf_rows hist_rows : list uss_row) (stl_files : list (list stl_comp))
    (skaters : list skater) :
  trends_valid
    (build_time_trends parse_date pdf_rows hist_rows stl_files skaters).
Proof.
  unfold build_time_trends. apply fold_left_preserves.
  - intros tt sk. apply add_skater_valid, load_uss_results_valid.
  - intros id trend dist rs r. now rewrite lookup_empty.
Qed.

(** C6.  Every result that [load_uss_results] stores, and every result of
    a timeline that [build_time_trends] writes (the personal bests taken as
    a fallback included), has a time inside the closed interval of seconds
    configured for its distance, which for 500 is [[38, 150]], or inside
    [[25, 600]] when no interval is configured for the distance. *)
Theorem retained_times_are_plausible :
  (forall (parse_date : option string -> option Z)
          (pdf_rows hist_rows : list uss_row)
          (stl_files : list (list stl_comp))
          (norm_name : string) (rs : list result) (r : result),
      load_uss_results parse_date pdf_rows hist_rows stl_files !! norm_name
      = Some rs ->
      r ∈ rs -> plausible r)
  /\ (forall (parse_date : option string -> option Z)
             (pdf_rows hist_rows : list uss_row)
             (stl_files : list (list stl_comp)) (skaters : list skater)
             (id : string) (trend : list (Z * list result))
             (dist : Z) (rs : list result) (r : result),
        build_time_trends parse_date pdf_rows hist_rows stl_files skaters !! id
        = Some trend ->
        (dist, rs) ∈ trend -> r ∈ rs -> plausible r)
  /\ (forall r : result,
        plausible r -> distance r = 500 -> within 38 (time r) 150)
  /\ (forall r : result,
        plausible r -> bounds_get (distance r) = None ->
        within 25 (time r) 600).
Proof.
  split; [|split; [|split]].
  - intros parse_date pdf_rows hist_rows stl_files norm_name rs r Hrs Hr.
    apply valid_plausible.
    pose proof (load_uss_results_valid parse_date pdf_rows hist_rows stl_files
                  norm_name rs Hrs) as Hall.
    rewrite Forall_forall in Hall. now apply Hall.
  - intros parse_date pdf_rows hist_rows stl_files skaters id trend dist rs r
      Htrend Hin Hr.
    apply valid_plausible.
    exact (build_time_trends_valid parse_date pdf_rows hist_rows stl_files
             skaters id trend dist rs r Htrend Hin Hr).
  - intros r Hr Hd. unfold plausible in Hr. now rewrite Hd in Hr.
  - intros r Hr Hd. unfold plausible in Hr. now rewrite Hd in Hr.
Qed.

Lemma retained_times_are_plausible_witness :
  let row :=
    {| row_skater := Some "CHEN Daniel USA-PSSP"; row_time := Some "0:44.100";
       row_distance := Some "500m"; row_competition := Some "Fall Classic";
       row_date := Some "2023-10-15"; row_rank := Some 2;
       row_place := None |} in
  let r :=
    {| distance := 500; time := fin 44.1; time_str := Some "0:44.100";
       competition := "Fall Classic"; date := None; place := Some 2;
       source := uss_pdf |} in
  plausible r /\ within 38 (time r) 150.
Proof.
  intros row r.
  destruct retained_times_are_plausible as (Hload & _ & H500 & _).
  assert (plausible r) as Hr.
  { apply (Hload (fun _ => None) [row] [] [] "chen daniel" [r] r).
    - vm_compute. reflexivity.
    - apply list_elem_of_here. }
  split; [exact Hr | now apply H500].
Defined.

End Plausibility.

(* ===================================================================== *)
(** ** Rank discrepancies of the cross-validation *)
(* ===================================================================== *)

Module CrossValidation.
Import PyStr CrossValidateUss.

(** The official results stored under a key, in their order. *)
Definition under_key (k : lookup_key) (results : list uss_result)
  : list uss_result :=
  List.filter (fun r => bool_decide (uss_key r = k)) results.

Lemma fold_lookup (results : list uss_result)
    (d : gmap lookup_key (list uss_result)) (k : lookup_key) :
  default []
    (fold_left
       (fun d r => <[uss_key r := (default [] (d !! uss_key r) ++ [r])%list]> d)
       results d !! k)
  = (default [] (d !! k) ++ under_key k results)%list.
Proof.
  revert d. induction results as [|r results IH]; intros d; simpl.
  - now rewrite app_nil_r.
  - rewrite IH. destruct (decide (uss_key r = k)) as [<-|Hne].
    + rewrite lookup_insert_eq, bool_decide_eq_true_2 by reflexivity.
      simpl. now rewrite <- app_assoc.
    + rewrite lookup_insert_ne, bool_decide_eq_false_2 by exact Hne.
      reflexivity.
Qed.

Lemma fold_lookup_nonempty (results : list uss_result)
    (d : gmap lookup_key (list uss_result)) (k : lookup_key) :
  (forall l, d !! k = Some l -> l <> []) ->
  forall l,
    fold_left
      (fun d r => <[uss_key r := (default [] (d !! uss_key r) ++ [r])%list]> d)
      results d !! k = Some l ->
    l <> [].
Proof.
  revert d. induction results as [|r results IH]; intros d Hd; simpl;
    [exact Hd|].
  apply IH. intros l. destruct (decide (uss_key r = k)) as [<-|Hne].
  - rewrite lookup_insert_eq. intros [= <-]. now destruct (default [] _).
  - rewrite lookup_insert_ne by exact Hne. apply Hd.
Qed.

(** [uss_lookup] holds, under each key that occurs, the results with that
    key. *)
Lemma build_lookup_spec (results : list uss_result) (k : lookup_key) :
  build_lookup results !! k
  = match under_key k results with
    | [] => None
    | l => Some l
    end.
Proof.
  unfold build_lookup.
  pose proof (fold_lookup results ∅ k) as Hl.
  pose proof (fold_lookup_nonempty results ∅ k) as Hne.
  rewrite lookup_empty in Hl. simpl in Hl.
  destruct (fold_left _ results ∅ !! k) as [l|]; simpl in Hl.
  - rewrite <- Hl. destruct l; [|reflexivity].
    exfalso. apply (Hne ltac:(intros l; now rewrite lookup_empty) []);
      reflexivity.
  - now rewrite <- Hl.
Qed.

Lemma find_filter_head {A : Type} (p : A -> bool) (l : list A) (x : A) :
  List.find p l = Some x -> exists rest, List.filter p l = x :: rest.
Proof.
  induction l as [|y l IH]; simpl; [discriminate|].
  destruct (p y); [intros [= ->]; eauto | exact IH].
Qed.

(** The key under which an event of a skater is looked up. *)
Definition event_key (sk : stl_skater) (event : stl_event) (dist : string)
  : lookup_key :=
  (normalize_name (default "" (name sk)),
   normalize_comp_name (default "" (event_name event)),
   dist).

Lemma match_distance_cases (uss_lookup : gmap lookup_key (list uss_result))
    (sk : stl_skater) (event : stl_event) (dist : string) :
  match_distance uss_lookup sk event dist = []
  \/ exists m, match_distance uss_lookup sk event dist = [m]
               /\ m_distance m = dist.
Proof.
  unfold match_distance.
  destruct (uss_lookup !! _) as [[|first rest]|]; eauto.
Qed.

Lemma match_distance_found (uss_results : list uss_result)
    (sk : stl_skater) (event : stl_event) (dist : string)
    (first : uss_result) :
  List.find (fun r => bool_decide (uss_key r = event_key sk event dist))
            uss_results = Some first ->
  match_distance (build_lookup uss_results) sk event dist
  = [ {| m_skater := name sk;
         m_stl_event := take 60 (default "" (event_name event));
         m_uss_comp := competition first;
         m_distance := dist;
         m_stl_best_rank := best_rank event;
         m_uss_place := place first;
         m_uss_time := time first |} ].
Proof.
  intros [rest Hrest]%find_filter_head. unfold match_distance.
  fold (event_key sk event dist).
  rewrite build_lookup_spec. unfold under_key. now rewrite Hrest.
Qed.

(** The first official result, in the order of the file, under the key
    of an event and a distance: [uss_lookup[key][0]], when the key is in
    [uss_lookup]. *)
Definition first_under_key (uss_results : list uss_result)
    (sk : stl_skater) (event : stl_event) (dist : string)
  : option uss_result :=
  List.find (fun r => bool_decide (uss_key r = event_key sk event dist))
            uss_results.

(** The entry appended to [matches] for an event and a distance whose
    key holds [first] at its front. *)
Definition match_against (sk : stl_skater) (event : stl_event)
    (dist : string) (first : uss_result) : match_entry :=
  {| m_skater := name sk;
     m_stl_event := take 60 (default "" (event_name event));
     m_uss_comp := competition first;
     m_distance := dist;
     m_stl_best_rank := best_rank event;
     m_uss_place := place first;
     m_uss_time := time first |}.

(** What one pass of the loop [for dist in [...]] contributes to
    [discrepancies]: of the entries it appends to [matches], those that
    the filter of [discrepancies] keeps. *)
Definition pass_discrepancies (uss_results : list uss_result)
    (sk : stl_skater) (event : stl_event) (dist : string)
  : list match_entry :=
  List.filter is_discrepancy
              (match_distance (build_lookup uss_results) sk event dist).

Lemma match_distance_missing (uss_results : list uss_result)
    (sk : stl_skater) (event : stl_event) (dist : string) :
  first_under_key uss_results sk event dist = None ->
  match_distance (build_lookup uss_results) sk event dist = [].
Proof.
  intros Hnone. unfold match_distance. fold (event_key sk event dist).
  rewrite build_lookup_spec. unfold under_key.
  assert (List.filter
            (fun r => bool_decide (uss_key r = event_key sk event dist))
            uss_results = []) as ->; [|reflexivity].
  unfold first_under_key in Hnone.
  induction uss_results as [|r l IH]; [reflexivity|].
  simpl in *. destruct (bool_decide (uss_key r = event_key sk event dist));
    [discriminate|]. now apply IH.
Qed.

Lemma filter_flat_map {A B : Type} (p : B -> bool) (f : A -> list B)
    (l : list A) :
  List.filter p (flat_map f l) = flat_map (fun x => List.filter p (f x)) l.
Proof.
  induction l as [|x l IH]; [reflexivity|].
  simpl. now rewrite List.filter_app, IH.
Qed.

Lemma flat_map_ext_in {A B : Type} (f g : A -> list B) (l : list A) :
  (forall x, In x l -> f x = g x) -> flat_map f l = flat_map g l.
Proof.
  induction l as [|x l IH]; intros H; [reflexivity|].
  simpl. rewrite (H x) by now left. rewrite IH; [reflexivity|].
  intros y Hy. apply H. now right.
Qed.

(** [discrepancies] is made of the contributions of the passes, in the
    order of the loops. *)
Lemma discrepancies_by_pass (uss_results : list uss_result)
    (stl_facts : list (string * stl_skater)) :
  discrepancies uss_results stl_facts
  = flat_map
      (fun '(_, sk) =>
         flat_map
           (fun event =>
              flat_map (pass_discrepancies uss_results sk event) distances)
           (events sk))
      stl_facts.
Proof.
  unfold discrepancies, all_matches. rewrite filter_flat_map.
  apply flat_map_ext_in. intros [id sk] _.
  rewrite filter_flat_map. apply flat_map_ext_in. intros event _.
  unfold event_matches. now rewrite filter_flat_map.
Qed.

Lemma option_eqb_spec (a b : option Z) :
  BuildTimeTrends.option_eqb Z.eqb a b = true <-> a = b.
Proof.
  destruct a as [x|], b as [y|]; simpl; try (split; congruence).
  rewrite Z.eqb_eq. split; congruence.
Qed.

Lemma pass_discrepancies_first (uss_results : list uss_result)
    (sk : stl_skater) (event : stl_event) (dist : string)
    (first : uss_result) :
  first_under_key uss_results sk event dist = Some first ->
  pass_discrepancies uss_results sk event dist
  = if rank_truthy (best_rank event) && rank_truthy (place first)
       && negb (BuildTimeTrends.option_eqb Z.eqb (best_rank event)
                                                  (place first))
    then [match_against sk event dist first]
    else [].
Proof.
  intros Hfirst. unfold pass_discrepancies.
  rewrite (match_distance_found _ _ _ _ _ Hfirst).
  reflexivity.
Qed.

Definition earlier_edition : uss_result :=
  {| skater := Some "SHUAI Sean";
     competition := Some "2023 US Short Track Championship";
     distance := Some "500m"; place := Some 4; time := Some "44.100" |}.

Definition later_edition : uss_result :=
  {| skater := Some "SHUAI Sean";
     competition := Some "2024 US Short Track Championship";
     distance := Some "500m"; place := Some 5; time := Some "43.900" |}.

Definition later_event (rank : Z) : stl_event :=
  {| event_name := Some "US Short Track Championship 2024";
     best_rank := Some rank |}.

Definition sean (rank : Z) : stl_skater :=
  {| name := Some "Sean Shuai"; events := [later_event rank] |}.

(** The claim as stated does not hold.  The year is removed from a
    competition name, so the 2023 and the 2024 edition of a championship
    have one key.  The event of 2024 is matched to the official record of
    2024 under that key; with rank 5 in both sources an entry is emitted
    all the same, and with rank 4 against place 5 none is: the rank is
    compared with the place of the record of 2023, the first under the
    key. *)
Lemma agreeing_record_still_flagged :
  ~ (forall (uss_results : list uss_result)
            (stl_facts : list (string * stl_skater)) (id : string)
            (sk : stl_skater) (event : stl_event) (dist : string)
            (r : uss_result),
        In (id, sk) stl_facts -> In event (events sk) ->
        In dist distances -> In r uss_results ->
        uss_key r = event_key sk event dist ->
        best_rank event = place r ->
        forall m, In m (discrepancies uss_results stl_facts) ->
                  ~ (m_skater m = name sk /\ m_distance m = dist
                     /\ m_stl_event m
                        = take 60 (default "" (event_name event))))
  /\ ~ (forall (uss_results : list uss_result)
               (stl_facts : list (string * stl_skater)) (id : string)
               (sk : stl_skater) (event : stl_event) (dist : string)
               (r : uss_result),
           In (id, sk) stl_facts -> In event (events sk) ->
           In dist distances -> In r uss_results ->
           uss_key r = event_key sk event dist ->
           rank_truthy (best_rank event) = true ->
           rank_truthy (place r) = true ->
           best_rank event <> place r ->
           exists m, In m (discrepancies uss_results stl_facts)).
Proof.
  split.
  - intros H.
    apply (H [earlier_edition; later_edition] [("sean-shuai-usa", sean 5)]
             "sean-shuai-usa" (sean 5) (later_event 5) "500m" later_edition
             ltac:(now left) ltac:(now left) ltac:(now left)
             ltac:(right; now left) ltac:(vm_compute; reflexivity)
             eq_refl
             (match_against (sean 5) (later_event 5) "500m" earlier_edition)).
    + vm_compute. now left.
    + repeat split.
  - intros H.
    destruct (H [earlier_edition; later_edition] [("sean-shuai-usa", sean 4)]
                "sean-shuai-usa" (sean 4) (later_event 4) "500m" later_edition
                ltac:(now left) ltac:(now left) ltac:(now left)
                ltac:(right; now left) ltac:(vm_compute; reflexivity)
                eq_refl eq_refl ltac:(discriminate)) as [m Hm].
    vm_compute in Hm. exact Hm.
Qed.

(** C4, as amended.  The list of rank discrepancies is made, in the
    order of the loops, of what each pass for a scraped skater, one of
    the skater's events and one of the four distances contributes.  A pass
    contributes nothing when no official record has the key (normalised
    skater name, normalised competition name, distance).  Otherwise the
    rank of the event is compared with the place of the first official
    record under the key, and with no other: when both are reported (the
    value is present and not 0) and differ the pass contributes exactly
    one entry, which shows that record; when they agree, or one of them
    is missing or 0, it contributes none.  In the scenario of the
    specification the one official record is the first under its key: rank
    5 against place 4 gives one entry, rank 4 none. *)
Theorem rank_discrepancy_against_first_record :
  (forall (uss_results : list uss_result)
          (stl_facts : list (string * stl_skater)),
      discrepancies uss_results stl_facts
      = flat_map
          (fun '(_, sk) =>
             flat_map
               (fun event =>
                  flat_map (pass_discrepancies uss_results sk event)
                           distances)
               (events sk))
          stl_facts)
  /\ (forall (uss_results : list uss_result) (sk : stl_skater)
             (event : stl_event) (dist : string),
        first_under_key uss_results sk event dist = None ->
        pass_discrepancies uss_results sk event dist = [])
  /\ (forall (uss_results : list uss_result) (sk : stl_skater)
             (event : stl_event) (dist : string) (first : uss_result),
        first_under_key uss_results sk event dist = Some first ->
        (rank_truthy (best_rank event) = true ->
         rank_truthy (place first) = true ->
         best_rank event <> place first ->
         pass_discrepancies uss_results sk event dist
         = [match_against sk event dist first])
        /\ (best_rank event = place first ->
            pass_discrepancies uss_results sk event dist = [])
        /\ (rank_truthy (best_rank event) = false
            \/ rank_truthy (place first) = false ->
            pass_discrepancies uss_results sk event dist = []))
  /\ (let official :=
        {| skater := Some "SHUAI Sean";
           competition := Some "2024 US Short Track Championship";
           distance := Some "500m"; place := Some 4; time := Some "44.100" |} in
      let scraped (rank : Z) :=
        ("sean-shuai-usa",
         {| name := Some "Sean Shuai";
            events := [ {| event_name := Some "US Short Track Championship 2024";
                           best_rank := Some rank |} ] |}) in
      discrepancies [official] [scraped 5]
      = [match_against (snd (scraped 5))
           {| event_name := Some "US Short Track Championship 2024";
              best_rank := Some 5 |} "500m" official]
      /\ discrepancies [official] [scraped 4] = []).
Proof.
  split; [exact discrepancies_by_pass|].
  split.
  { intros uss_results sk event dist Hnone. unfold pass_discrepancies.
    now rewrite (match_distance_missing _ _ _ _ Hnone). }
  split.
  - intros uss_results sk event dist first Hfirst.
    rewrite (pass_discrepancies_first _ _ _ _ _ Hfirst).
    split; [|split].
    + intros -> -> Hne. simpl.
      destruct (BuildTimeTrends.option_eqb Z.eqb (best_rank event)
                  (place first)) eqn:E; [|reflexivity].
      apply option_eqb_spec in E. congruence.
    + intros E. apply option_eqb_spec in E. rewrite E.
      now rewrite andb_false_r.
    + intros [->| ->]; [reflexivity|]. now rewrite andb_false_r.
  - split; vm_compute; reflexivity.
Qed.

Lemma rank_discrepancy_against_first_record_witness :
  pass_discrepancies [earlier_edition; later_edition] (sean 5)
                     (later_event 5) "500m"
  = [match_against (sean 5) (later_event 5) "500m" earlier_edition].
Proof.
  destruct rank_discrepancy_against_first_record as (_ & _ & Hfirst & _).
  apply (Hfirst [earlier_edition; later_edition] (sean 5) (later_event 5)
           "500m" earlier_edition).
  - vm_compute. reflexivity.
  - reflexivity.
  - reflexivity.
  - discriminate.
Defined.

End CrossValidation.

(* ===================================================================== *)
(** ** Normal forms of names *)
(* ===================================================================== *)

Module NameNormalForm.
Import PyStr StrFacts BuildTimeTrends.

Definition space : ascii := " "%char.

(** A non-empty string without blanks. *)
Definition word (w : string) : Prop :=
  PyStr.truthy w = true /\ forallb_chars (fun c => negb (isspace c)) w = true.

(** Characters that [lower] leaves alone. *)
Definition lower_fixed (c : ascii) : bool := Ascii.eqb (lower_char c) c.

Lemma lower_char_idempotent (c : ascii) : lower_fixed (lower_char c) = true.
Proof. destruct c as [[] [] [] [] [] [] [] []]; vm_compute; reflexivity. Qed.

Lemma lower_lower_fixed (s : string) :
  forallb_chars lower_fixed (lower s) = true.
Proof.
  unfold lower. induction s as [|c s IH]; [reflexivity|].
  simpl. now rewrite lower_char_idempotent, IH.
Qed.

Lemma lower_fixed_id (s : string) :
  forallb_chars lower_fixed s = true -> lower s = s.
Proof.
  unfold lower. induction s as [|c s IH]; [reflexivity|].
  simpl. intros [Hc Hs]%andb_true_iff.
  apply Ascii.eqb_eq in Hc. now rewrite Hc, (IH Hs).
Qed.

(** *** [split] and [join] *)

Lemma split_go_chars (p : ascii -> bool) (s : string) :
  forallb_chars p s = true ->
  forallb_chars p (fst (split_go s)) = true
  /\ Forall (fun w => forallb_chars p w = true) (snd (split_go s)).
Proof.
  induction s as [|c s IH]; [now repeat constructor|].
  simpl. intros [Hc Hs]%andb_true_iff.
  destruct (IH Hs) as [Hw Hws]. destruct (split_go s) as [w ws]. simpl in *.
  destruct (isspace c); simpl.
  - split; [reflexivity|]. destruct w; simpl; [exact Hws | now constructor].
  - split; [now rewrite Hc, Hw | exact Hws].
Qed.

Lemma split_go_words (s : string) :
  forallb_chars (fun c => negb (isspace c)) (fst (split_go s)) = true
  /\ Forall word (snd (split_go s)).
Proof.
  induction s as [|c s [Hw Hws]]; [now repeat constructor|].
  simpl. destruct (split_go s) as [w ws]. simpl in *.
  destruct (isspace c) eqn:Hc; simpl.
  - split; [reflexivity|]. destruct w; simpl; [exact Hws|].
    constructor; [|exact Hws]. now split.
  - split; [now rewrite Hc, Hw | exact Hws].
Qed.

Lemma split_words (s : string) : Forall word (split s).
Proof.
  unfold split. destruct (split_go_words s) as [Hw Hws].
  destruct (split_go s) as [w ws]. simpl in *.
  destruct w; simpl; [exact Hws|]. constructor; [|exact Hws]. now split.
Qed.

Lemma split_chars (p : ascii -> bool) (s : string) :
  forallb_chars p s = true ->
  Forall (fun w => forallb_chars p w = true) (split s).
Proof.
  intros Hs. unfold split. destruct (split_go_chars p s Hs) as [Hw Hws].
  destruct (split_go s) as [w ws]. simpl in *.
  destruct w; simpl; [exact Hws | now constructor].
Qed.

Lemma join_cons (w w' : string) (ws : list string) :
  join " " (w :: w' :: ws) = w ++ " " ++ join " " (w' :: ws).
Proof. reflexivity. Qed.

Lemma join_chars (p : ascii -> bool) (ws : list string) :
  p space = true ->
  Forall (fun w => forallb_chars p w = true) ws ->
  forallb_chars p (join " " ws) = true.
Proof.
  intros Hsp. induction 1 as [|w ws Hw Hws IH]; [reflexivity|].
  destruct ws as [|w' ws]; [exact Hw|].
  rewrite join_cons, !forallb_chars_append, Hw, IH. simpl.
  unfold space in Hsp. now rewrite Hsp.
Qed.

Lemma split_go_word_append (w t : string) :
  forallb_chars (fun c => negb (isspace c)) w = true ->
  split_go (w ++ t) = (w ++ fst (split_go t), snd (split_go t)).
Proof.
  induction w as [|c w IH]; simpl.
  - intros _. now destruct (split_go t).
  - intros [Hc Hw]%andb_true_iff. apply negb_true_iff in Hc.
    now rewrite (IH Hw), Hc.
Qed.

Lemma split_join (ws : list string) :
  Forall word ws -> split (join " " ws) = ws.
Proof.
  induction 1 as [|w ws [Hne Hw] Hws IH]; [reflexivity|].
  destruct ws as [|w' ws].
  - simpl. unfold split. rewrite <- (append_nil_r w) at 1.
    rewrite (split_go_word_append _ _ Hw). simpl. rewrite append_nil_r.
    now destruct w.
  - rewrite join_cons. unfold split in *.
    rewrite (split_go_word_append _ _ Hw).
    change (" " ++ join " " (w' :: ws))
      with (String space (join " " (w' :: ws))).
    cbn [split_go]. change (isspace space) with true.
    destruct (split_go (join " " (w' :: ws))) as [u us]. cbn [fst snd].
    rewrite append_nil_r, IH. now destruct w.
Qed.

(** The join of words has no blank at either end, no blank other than a
    space, and no two spaces in a row. *)
Lemma head_not_append (p : ascii -> bool) (a b : string) :
  PyStr.truthy a = true -> head_not p (a ++ b) = head_not p a.
Proof. now destruct a. Qed.

Lemma word_head (w : string) : word w -> head_not isspace w = true.
Proof.
  intros [Hne Hw]. destruct w as [|c w]; [reflexivity|].
  simpl in *. now apply andb_true_iff in Hw as [-> _].
Qed.

Lemma join_truthy (w : string) (ws : list string) :
  word w -> PyStr.truthy (join " " (w :: ws)) = true.
Proof.
  intros [Hne _]. destruct ws as [|w' ws]; [exact Hne|].
  rewrite join_cons. now destruct w.
Qed.

Lemma join_head (ws : list string) :
  Forall word ws -> head_not isspace (join " " ws) = true.
Proof.
  destruct 1 as [|w ws Hw Hws]; [reflexivity|].
  destruct ws as [|w' ws]; [now apply word_head|].
  rewrite join_cons, head_not_append by apply Hw. now apply word_head.
Qed.

Lemma join_last (ws : list string) :
  Forall word ws -> last_not isspace (join " " ws) = true.
Proof.
  induction 1 as [|w ws Hw Hws IH]; [reflexivity|].
  destruct ws as [|w' ws]; [now apply last_not_forallb, Hw|].
  rewrite join_cons, <- append_assoc.
  rewrite last_not_append; [exact IH|].
  inversion_clear Hws as [|? ? Hw' ?]. now apply join_truthy.
Qed.

Lemma strip_join (ws : list string) :
  Forall word ws -> strip (join " " ws) = join " " ws.
Proof. intros H. apply strip_fixed; [now apply join_head | now apply join_last]. Qed.

Lemma no_nbsp (ws : list string) :
  Forall word ws -> contains nbsp (join " " ws) = false.
Proof.
  intros Hws. unfold nbsp. rewrite contains_char.
  rewrite count_char_forallb; [reflexivity|].
  apply join_chars; [reflexivity|].
  eapply Forall_impl; [exact Hws|].
  intros w [_ Hw]. eapply forallb_chars_impl; [|exact Hw].
  intros c Hc. apply negb_true_iff.
  destruct (Ascii.eqb_spec c (ascii_of_nat 160)) as [->|]; [|reflexivity].
  discriminate Hc.
Qed.

Lemma two_spaces_prefix (t : string) :
  String.prefix "  " t
  = match t with
    | String a (String b _) => Ascii.eqb a space && Ascii.eqb b space
    | _ => false
    end.
Proof.
  unfold space. destruct t as [|a [|b t]]; cbn [String.prefix].
  - reflexivity.
  - now destruct (ascii_dec " " a).
  - destruct (ascii_dec " " a) as [<-|Hne].
    + destruct (ascii_dec " " b) as [<-|Hne]; [now destruct t|].
      destruct (Ascii.eqb_spec b " "); [congruence | reflexivity].
    + destruct (Ascii.eqb_spec a " "); [congruence | reflexivity].
Qed.

Lemma no_two_spaces_word (w t : string) :
  forallb_chars (fun c => negb (isspace c)) w = true ->
  contains "  " (w ++ t) = contains "  " t.
Proof.
  induction w as [|c w IH]; [reflexivity|].
  simpl append. intros [Hc Hw]%andb_true_iff. cbn [contains].
  rewrite (IH Hw), two_spaces_prefix.
  destruct (Ascii.eqb_spec c space) as [->|]; [discriminate Hc|].
  now destruct (w ++ t).
Qed.

Lemma no_two_spaces (ws : list string) :
  Forall word ws -> contains "  " (join " " ws) = false.
Proof.
  induction 1 as [|w ws [Hne Hw] Hws IH]; [reflexivity|].
  destruct ws as [|w' ws].
  - simpl. rewrite <- (append_nil_r w). now rewrite no_two_spaces_word.
  - rewrite join_cons, (no_two_spaces_word _ _ Hw).
    change (" " ++ join " " (w' :: ws))
      with (String space (join " " (w' :: ws))).
    cbn [contains]. rewrite IH, two_spaces_prefix, orb_false_r.
    pose proof (join_head _ Hws) as Hh.
    destruct (join " " (w' :: ws)) as [|b t]; [reflexivity|].
    simpl in Hh. destruct (Ascii.eqb_spec b space) as [->|];
      [discriminate Hh | reflexivity].
Qed.

Lemma replace_absent (old new s : string) :
  contains old s = false -> replace old new s = s.
Proof.
  unfold replace. induction s as [|c s IH]; [reflexivity|].
  cbn [contains replace_go]. intros [Hp Hs]%orb_false_iff.
  now rewrite Hp, (IH Hs).
Qed.

(** *** The substitutions only delete *)

Lemma sub_go_chars (p : ascii -> bool) (r : Re.regex) (s : string)
    (skip : nat) (at_start : bool) :
  forallb_chars p s = true ->
  forallb_chars p (Re.sub_go r "" skip at_start s) = true.
Proof.
  revert skip at_start. induction s as [|c s IH]; intros skip at_start Hs.
  - destruct skip; simpl; [|reflexivity].
    now destruct (Re.match_here r at_start "").
  - simpl in Hs. apply andb_true_iff in Hs as [Hc Hs].
    destruct skip as [|j]; cbn [Re.sub_go]; [|now apply IH].
    destruct (Re.match_here r at_start (String c s)) as [rest|].
    + destruct (String.length (String c s) - String.length rest)%nat;
        simpl; rewrite ?Hc, ?IH; auto.
    + simpl. now rewrite Hc, IH.
Qed.

Lemma sub_chars (p : ascii -> bool) (r : Re.regex) (s : string) :
  forallb_chars p s = true -> forallb_chars p (Re.sub r "" s) = true.
Proof. apply sub_go_chars. Qed.

(** *** The shape of a normalised name *)

Lemma normalize_name_shape (n : string) :
  exists ws,
    normalize_name n = join " " ws /\ Forall word ws
    /\ forallb_chars lower_fixed (normalize_name n) = true.
Proof.
  unfold normalize_name.
  set (lowered := lower _).
  set (cut := Re.sub trailing_stars "" _).
  exists (split cut). split; [reflexivity|]. split; [apply split_words|].
  apply join_chars; [reflexivity|]. apply split_chars.
  unfold cut. repeat apply sub_chars. apply lower_lower_fixed.
Qed.

(** A name in that shape which none of the four substitutions changes is a
    fixed point. *)
Lemma normalize_name_fixed (s : string) (ws : list string) :
  s = join " " ws -> Forall word ws ->
  forallb_chars lower_fixed s = true ->
  Re.sub club_suffix "" s = s ->
  Re.sub country_suffix "" s = s ->
  Re.sub leading_digits "" s = s ->
  Re.sub trailing_stars "" s = s ->
  normalize_name s = s.
Proof.
  intros Hs Hws Hlow H1 H2 H3 H4. unfold normalize_name.
  rewrite (replace_absent nbsp " " s) by (subst s; now apply no_nbsp).
  rewrite (replace_absent "  " " " s) by (subst s; now apply no_two_spaces).
  assert (strip s = s) as -> by (subst s; now apply strip_join).
  rewrite (lower_fixed_id _ Hlow), H1, H2, H3, H4.
  subst s. now rewrite split_join.
Qed.

(** The claim as stated fails on a name with an asterisk after its club
    code. *)
Lemma normalize_name_not_idempotent :
  ~ (forall n : string,
        normalize_name (normalize_name n) = normalize_name n).
Proof.
  intros H. specialize (H "CHEN Daniel USA-PSSP*").
  vm_compute in H. discriminate H.
Qed.

(** C9, as amended.  A distance that [normalize_distance] returns is
    returned unchanged when normalised again.  A name that
    [normalize_name] returns is returned unchanged when normalised again
    provided none of the four substitutions of [normalize_name] (club code,
    country code, leading digits, trailing asterisks) still applies to
    it. *)
Theorem normalisers_idempotent_on_clean_output :
  (forall (d : option Z) (v : Z),
      normalize_distance d = Some v -> normalize_distance (Some v) = Some v)
  /\ (forall n : string,
        let s := normalize_name n in
        Re.sub club_suffix "" s = s ->
        Re.sub country_suffix "" s = s ->
        Re.sub leading_digits "" s = s ->
        Re.sub trailing_stars "" s = s ->
        normalize_name s = s).
Proof.
  split.
  - intros d v Hv.
    apply Distances.normalize_distance_fixed.
    exact (Distances.normalize_distance_standard d v Hv).
  - intros n s H1 H2 H3 H4.
    destruct (normalize_name_shape n) as (ws & Hs & Hws & Hlow).
    now apply (normalize_name_fixed s ws).
Qed.

Lemma normalisers_idempotent_on_clean_output_witness :
  normalize_distance (Some 500) = Some 500
  /\ normalize_name (normalize_name "CHEN Daniel USA-PSSP")
     = normalize_name "CHEN Daniel USA-PSSP".
Proof.
  destruct normalisers_idempotent_on_clean_output as [Hd Hn].
  split.
  - apply (Hd (Some 451) 500). reflexivity.
  - apply (Hn "CHEN Daniel USA-PSSP"); vm_compute; reflexivity.
Defined.

End NameNormalForm.

(* ===================================================================== *)
(** ** The duplicate filter of the PDF parser *)
(* ===================================================================== *)

Module PdfDuplicates.
Import ParseUssPdfs.

Lemma string_ltb_leb (a b : string) : String.ltb a b = negb (String.leb b a).
Proof.
  unfold String.ltb, String.leb. rewrite (String.compare_antisym b a).
  now destruct (String.compare a b).
Qed.

Lemma time_ltb_asym (x y : raw_result) :
  time_ltb x y = true -> time_ltb y x = false.
Proof.
  unfold time_ltb, String.ltb.
  rewrite (String.compare_antisym (time y) (time x)).
  now destruct (String.compare (time x) (time y)).
Qed.

Lemma time_ltb_incomparable (x y z : raw_result) :
  time_ltb x y = false -> time_ltb y z = false -> time_ltb x z = false.
Proof.
  unfold time_ltb. rewrite !string_ltb_leb, !negb_false_iff.
  intros Hyx Hzy.
  assert (String.le (time z) (time x)) as H.
  { transitivity (time y); unfold String.le; [now rewrite Hzy | now rewrite Hyx]. }
  unfold String.le in H. now destruct (String.leb (time z) (time x)).
Qed.

(** What [dedupe_results] keeps of a group. *)
Definition kept (g : (string * string * string) * list raw_result)
  : option raw_result :=
  let '(_, rlist) := g in head (PySort.sort time_ltb rlist).

Lemma kept_spec (results : list raw_result)
    (k : string * string * string) (rlist : list raw_result) (r : raw_result) :
  (k, rlist) ∈ ODict.group_by dedupe_key results ->
  kept (k, rlist) = Some r ->
  r ∈ results /\ dedupe_key r = k
  /\ forall x, x ∈ rlist -> String.leb (time r) (time x) = true.
Proof.
  intros Hg. simpl.
  destruct (PySort.sort time_ltb rlist) as [|h t] eqn:Hs; [discriminate|].
  intros [= ->].
  destruct (GroupFacts.group_by_well_grouped dedupe_key results)
    as (_ & _ & Hin & _).
  assert (r ∈ rlist) as Hr.
  { apply (SortFacts.elem_of_sort time_ltb). rewrite Hs.
    apply list_elem_of_here. }
  destruct (Hin _ _ _ Hg Hr) as [Hk Hres].
  split; [exact Hres|]. split; [exact Hk|].
  intros x Hx.
  pose proof (SortFacts.sort_head_least time_ltb time_ltb_asym
                time_ltb_incomparable rlist r t Hs x Hx) as Hle.
  unfold time_ltb in Hle. rewrite string_ltb_leb in Hle.
  now apply negb_false_iff in Hle.
Qed.

Lemma omap_keys_NoDup (results : list raw_result)
    (d : list ((string * string * string) * list raw_result)) :
  (forall g, g ∈ d -> g ∈ ODict.group_by dedupe_key results) ->
  NoDup d.*1 -> NoDup (dedupe_key <$> omap kept d).
Proof.
  induction d as [|[k rlist] d IH]; intros Hsub; simpl; [constructor|].
  intros [Hk Hd]%NoDup_cons.
  assert (NoDup (dedupe_key <$> omap kept d)) as Hrest.
  { apply IH; [|exact Hd]. intros g Hg. apply Hsub. now right. }
  cbn [omap list_omap kept].
  destruct (head (PySort.sort time_ltb rlist)) as [r|] eqn:Hr; [|exact Hrest].
  simpl. apply NoDup_cons. split; [|exact Hrest].
  destruct (kept_spec results k rlist r (Hsub _ (list_elem_of_here _ _)) Hr)
    as (_ & -> & _).
  intros (r' & Hkey & Hr')%list_elem_of_fmap.
  apply list_elem_of_omap in Hr' as ([k' rlist'] & Hg' & Hkept').
  destruct (kept_spec results k' rlist' r'
              (Hsub _ (list_elem_of_further _ _ _ Hg')) Hkept')
    as (_ & Hk' & _).
  apply Hk. apply list_elem_of_fmap. exists (k', rlist').
  split; [simpl; congruence | exact Hg'].
Qed.

(** [dedupe_results] returns one result for each key among the results,
    taken from the results with that key, and no result with that key has
    a time that is a smaller string. *)
Lemma dedupe_results_one_per_key (results : list raw_result) :
  NoDup (dedupe_key <$> dedupe_results results)
  /\ (forall r, r ∈ dedupe_results results -> r ∈ results)
  /\ (forall x, x ∈ results ->
        exists r, r ∈ dedupe_results results
                  /\ dedupe_key r = dedupe_key x
                  /\ String.leb (time r) (time x) = true).
Proof.
  assert (dedupe_results results
          = omap kept (ODict.group_by dedupe_key results)) as E.
  { unfold dedupe_results, kept. reflexivity. }
  rewrite E.
  destruct (GroupFacts.group_by_well_grouped dedupe_key results)
    as (Hnd & Hne & Hin & Hall).
  split; [|split].
  - now apply (omap_keys_NoDup results).
  - intros r ([k rlist] & Hg & Hkept)%list_elem_of_omap.
    now destruct (kept_spec results k rlist r Hg Hkept).
  - intros x Hx. destruct (Hall x Hx) as (rlist & Hg & Hxr).
    destruct (kept (dedupe_key x, rlist)) as [r|] eqn:Hkept.
    + exists r.
      destruct (kept_spec results _ rlist r Hg Hkept) as (_ & Hk & Hle).
      split; [|split; [exact Hk | now apply Hle]].
      apply list_elem_of_omap. eauto.
    + simpl in Hkept.
      destruct (PySort.sort time_ltb rlist) eqn:Hs; [|discriminate].
      apply SortFacts.sort_nil in Hs. subst rlist.
      now apply elem_of_nil in Hxr.
Qed.

(** C1, on two results of one skater, distance and category.  The page
    text ["10:05.123"] sorts before ["9:58.000"] as a string, so
    [dedupe_results] keeps the result of 605.123 seconds and drops the one
    of 598 seconds, in whichever order the two are given. *)
Theorem dedupe_results_keeps_smaller_string :
  let slow := {| rank := 2; skater := "Marcus Howard"; time := "10:05.123";
                 distance := "3000m"; category := "Men" |} in
  let fast := {| rank := 1; skater := "Marcus Howard"; time := "9:58.000";
                 distance := "3000m"; category := "Men" |} in
  dedupe_key slow = dedupe_key fast
  /\ dedupe_results [slow; fast] = [slow]
  /\ dedupe_results [fast; slow] = [slow]
  /\ BuildTimeTrends.parse_time (Some (time slow))
     = Some (PyFloat.fin 605.123%Q)
  /\ BuildTimeTrends.parse_time (Some (time fast))
     = Some (PyFloat.fin 598%Q).
Proof. repeat split; vm_compute; reflexivity. Qed.

End PdfDuplicates.

(* ===================================================================== *)
(** ** Further properties of the time parsers *)
(* ===================================================================== *)

Module TimeParsingEdges.
Import PyStr PyFloat StrFacts TimeParsing.

Lemma rstrip_by_last (p : ascii -> bool) (s : string) :
  last_not p (rstrip_by p s) = true.
Proof.
  induction s as [|c s IH]; [reflexivity|].
  cbn [rstrip_by]. destruct (rstrip_by p s) as [|d r] eqn:E.
  - destruct (p c) eqn:Hc; simpl; [reflexivity | now rewrite Hc].
  - exact IH.
Qed.

Lemma rstrip_by_head (p : ascii -> bool) (s : string) :
  head_not p s = true -> head_not p (rstrip_by p s) = true.
Proof.
  destruct s as [|c s]; [reflexivity|].
  cbn [rstrip_by head_not]. intros Hc.
  destruct (rstrip_by p s); [|exact Hc].
  apply negb_true_iff in Hc. rewrite Hc. simpl. now rewrite Hc.
Qed.

Lemma lstrip_by_head (p : ascii -> bool) (s : string) :
  head_not p (lstrip_by p s) = true.
Proof.
  induction s as [|c s IH]; [reflexivity|].
  cbn [lstrip_by]. destruct (p c) eqn:Hc; [exact IH|].
  simpl. now rewrite Hc.
Qed.

(** [strip] has nothing left to remove from what it returns. *)
Lemma strip_idempotent (s : string) : strip (strip s) = strip s.
Proof.
  apply strip_fixed; unfold strip.
  - apply rstrip_by_head, lstrip_by_head.
  - apply rstrip_by_last.
Qed.

Lemma count_char_lstrip_eq (c : ascii) (p : ascii -> bool) (s : string) :
  p c = false -> count_char c (lstrip_by p s) = count_char c s.
Proof.
  intros Hc. induction s as [|a s IH]; [reflexivity|].
  cbn [lstrip_by]. destruct (p a) eqn:Ha; [|reflexivity].
  cbn [count_char]. destruct (Ascii.eqb_spec a c) as [->|]; [congruence|].
  exact IH.
Qed.

Lemma count_char_rstrip_eq (c : ascii) (p : ascii -> bool) (s : string) :
  p c = false -> count_char c (rstrip_by p s) = count_char c s.
Proof.
  intros Hc. induction s as [|a s IH]; [reflexivity|].
  cbn [rstrip_by]. destruct (rstrip_by p s) as [|d r] eqn:E.
  - cbn [count_char] in *. rewrite <- IH.
    destruct (p a) eqn:Ha; [|reflexivity].
    destruct (Ascii.eqb_spec a c) as [->|]; [congruence | reflexivity].
  - cbn [count_char] in *. now rewrite IH.
Qed.

Lemma count_colon_strip (s : string) :
  count_char colon (strip s) = count_char colon s.
Proof.
  unfold strip.
  rewrite count_char_rstrip_eq, count_char_lstrip_eq; reflexivity.
Qed.

(** X1.  Blanks around a time never matter: both parsers give the same
    result for a string and for the string stripped of them. *)
Theorem parse_time_ignores_outer_blanks (s : string) :
  BuildTimeTrends.parse_time (Some s)
  = BuildTimeTrends.parse_time (Some (strip s))
  /\ CrossValidateUss.parse_time (Some s)
     = CrossValidateUss.parse_time (Some (strip s)).
Proof.
  unfold BuildTimeTrends.parse_time, CrossValidateUss.parse_time.
  destruct s as [|c s]; [split; reflexivity|].
  cbn [PyStr.truthy negb]. rewrite strip_idempotent.
  destruct (strip (String c s)) as [|d t] eqn:E; [split; reflexivity|].
  split; reflexivity.
Qed.

(** X2.  A string with three colons or more is no time for the parser of
    the cross-validation. *)
Theorem cross_parse_time_four_fields (s : string) :
  (3 <= count_char colon s)%nat ->
  CrossValidateUss.parse_time (Some s) = None.
Proof.
  intros Hs. unfold CrossValidateUss.parse_time.
  destruct (negb (PyStr.truthy s)); [reflexivity|].
  assert (contains ":" (strip s) = true) as ->.
  { change ":" with (String colon ""). rewrite contains_char.
    rewrite count_colon_strip. destruct (count_char colon s); [lia|].
    reflexivity. }
  pose proof (split_on_length colon (strip s)) as Hlen.
  rewrite count_colon_strip in Hlen. unfold colon in *.
  destruct (split_on BuildTimeTrends.colon (strip s))
    as [|p0 [|p1 [|p2 [|p3 ps]]]]; simpl in Hlen; try lia; reflexivity.
Qed.

Lemma cross_parse_time_four_fields_witness :
  CrossValidateUss.parse_time (Some "1:02:03:04.5") = None.
Proof.
  apply cross_parse_time_four_fields. vm_compute. lia.
Defined.

End TimeParsingEdges.

(* ===================================================================== *)
(** ** Further properties of the distance and time filters *)
(* ===================================================================== *)

Module FilterEdges.
Import PyStr PyFloat BuildTimeTrends Plausibility.

Lemma find_mapping_spec (d : Z) :
  match List.find (in_mapping d) mappings with
  | Some m => In m mappings /\ fst (fst m) <= d <= snd (fst m)
  | None => forall m, In m mappings -> ~ (fst (fst m) <= d <= snd (fst m))
  end.
Proof.
  destruct (List.find (in_mapping d) mappings) as [[[lo hi] v]|] eqn:Hf.
  - apply find_some in Hf as [Hin Hd]. split; [exact Hin|].
    simpl in *. apply andb_true_iff in Hd as [H1%Z.leb_le H2%Z.leb_le]. lia.
  - intros [[lo hi] v] Hin. pose proof (find_none _ _ Hf _ Hin) as Hd.
    simpl in *. apply andb_false_iff in Hd as [H%Z.leb_gt|H%Z.leb_gt]; lia.
Qed.

(** X3.  [normalize_distance] returns [v] exactly when the distance lies
    in a range of the table that is mapped to [v]; the ranges do not
    overlap, so the order of the table plays no part; a distance below 200
    or above 3200 is always discarded; and no distance is returned as it
    is unless a range maps it to itself. *)
Theorem normalize_distance_by_range :
  (forall d v : Z,
      normalize_distance (Some d) = Some v <->
      exists lo hi, In ((lo, hi), v) mappings /\ lo <= d <= hi)
  /\ (forall lo hi v lo' hi' v' d,
        In ((lo, hi), v) mappings -> In ((lo', hi'), v') mappings ->
        lo <= d <= hi -> lo' <= d <= hi' ->
        (lo, hi, v) = (lo', hi', v'))
  /\ (forall d : Z, d < 200 \/ 3200 < d -> normalize_distance (Some d) = None)
  /\ normalize_distance None = None.
Proof.
  assert (forall lo hi v lo' hi' v' d,
             In ((lo, hi), v) mappings -> In ((lo', hi'), v') mappings ->
             lo <= d <= hi -> lo' <= d <= hi' ->
             (lo, hi, v) = (lo', hi', v')) as Hdisjoint.
  { intros lo hi v lo' hi' v' d H1 H2 Hd Hd'. simpl in H1, H2.
    repeat (destruct H1 as [[= <- <- <-]|H1]);
      repeat (destruct H2 as [[= <- <- <-]|H2]);
      try reflexivity; try lia; try destruct H1; try destruct H2. }
  split; [|split; [exact Hdisjoint|split; [|reflexivity]]].
  - intros d v. unfold normalize_distance.
    pose proof (find_mapping_spec d) as Hf.
    destruct (Z.eqb_spec d 0) as [->|Hd0].
    + split; [discriminate|].
      intros (lo & hi & Hin & Hd). simpl in Hin.
      repeat (destruct Hin as [[= <- <- <-]|Hin]; [lia|]). destruct Hin.
    + destruct (List.find (in_mapping d) mappings) as [[[lo hi] w]|].
      * destruct Hf as [Hin Hd]. simpl in Hd. split.
        -- intros [= <-]. eauto.
        -- intros (lo' & hi' & Hin' & Hd').
           pose proof (Hdisjoint _ _ _ _ _ _ d Hin Hin' Hd Hd') as E.
           congruence.
      * assert (existsb (Z.eqb d) standard_distances = false) as ->.
        { destruct (existsb (Z.eqb d) standard_distances) eqn:He;
            [|reflexivity].
          apply existsb_exists in He as (x & Hx & ->%Z.eqb_eq).
          exfalso. simpl in Hx.
          repeat (destruct Hx as [<-|Hx];
                  [match goal with
                   | |- _ => 
                       first
                         [ apply (Hf ((200, 240), 222)); simpl; [tauto | lia]
                         | apply (Hf ((300, 360), 333)); simpl; [tauto | lia]
                         | apply (Hf ((450, 550), 500)); simpl; [tauto | lia]
                         | apply (Hf ((740, 820), 777)); simpl; [tauto | lia]
                         | apply (Hf ((900, 1100), 1000)); simpl; [tauto | lia]
                         | apply (Hf ((1400, 1600), 1500)); simpl; [tauto | lia]
                         | apply (Hf ((2800, 3200), 3000)); simpl; [tauto | lia] ]
                   end|]).
          destruct Hx. }
        split; [destruct (_ || _); discriminate|].
        intros (lo' & hi' & Hin' & Hd'). exfalso.
        apply (Hf _ Hin'). exact Hd'.
  - intros d Hd. destruct (normalize_distance (Some d)) as [v|] eqn:E;
      [|reflexivity].
    exfalso.
    assert (exists lo hi, In ((lo, hi), v) mappings /\ lo <= d <= hi)
      as (lo & hi & Hin & Hr).
    { unfold normalize_distance in E.
      pose proof (find_mapping_spec d) as Hf.
      destruct (d =? 0); [discriminate|].
      destruct (List.find (in_mapping d) mappings) as [[[lo hi] w]|].
      - injection E as <-. destruct Hf. eauto.
      - destruct (existsb (Z.eqb d) standard_distances) eqn:He.
        + apply existsb_exists in He as (x & Hx & ->%Z.eqb_eq).
          simpl in Hx. repeat (destruct Hx as [<-|Hx]; [lia|]). destruct Hx.
        + destruct (_ || _); discriminate. }
    simpl in Hin.
    repeat (destruct Hin as [[= <- <- <-]|Hin]; [lia|]). destruct Hin.
Qed.

Lemma normalize_distance_by_range_witness :
  normalize_distance (Some 666) = Some 777
  /\ normalize_distance (Some 199) = None.
Proof.
  destruct normalize_distance_by_range as (Hiff & _ & Hout & _).
  split.
  - apply Hiff. exists 640, 700. split; [simpl; tauto | lia].
  - apply Hout. lia.
Defined.

Lemma bounds_get_range (d lo hi : Z) :
  bounds_get d = Some (lo, hi) -> 18 <= lo /\ hi <= 720.
Proof.
  unfold bounds_get.
  destruct (List.find _ bounds) as [[k [a b]]|] eqn:Hf; [|discriminate].
  intros [= -> ->]. apply find_some in Hf as [Hin _]. simpl in Hin.
  repeat (destruct Hin as [[= <- <- <-]|Hin]; [lia|]). destruct Hin.
Qed.

(** X4.  Whatever the distance, a time that [is_valid_time_for_distance]
    accepts is a finite number of seconds between 18 and 720; zero, the
    infinities and NaN are accepted for no distance, and no time is
    accepted for the distance 0. *)
Theorem valid_time_is_finite_and_bounded :
  (forall (t : pyfloat) (d : Z),
      is_valid_time_for_distance t d = true ->
      d <> 0 /\ exists q, t = Fin q /\ (18 <= q)%Q /\ (q <= 720)%Q)
  /\ (forall d : Z,
        is_valid_time_for_distance (Fin 0) d = false
        /\ is_valid_time_for_distance NaN d = false
        /\ is_valid_time_for_distance (Inf true) d = false
        /\ is_valid_time_for_distance (Inf false) d = false).
Proof.
  split.
  - intros t d. unfold is_valid_time_for_distance.
    destruct (negb (PyFloat.truthy t)); [discriminate|]. simpl.
    destruct (Z.eqb_spec d 0) as [|Hd]; [discriminate|].
    destruct (bounds_get d) as [[lo hi]|] eqn:Hb.
    + intros (q & -> & H1 & H2)%between_within.
      destruct (bounds_get_range _ _ _ Hb) as [Hlo Hhi].
      rewrite Zle_Qle in Hlo, Hhi.
      split; [exact Hd|]. exists q. split; [reflexivity|].
      change (inject_Z 18) with 18%Q in Hlo.
      change (inject_Z 720) with 720%Q in Hhi. lra.
    + intros (q & -> & H1 & H2)%between_within.
      split; [exact Hd|]. exists q. split; [reflexivity|].
      change (inject_Z 25) with 25%Q in H1.
      change (inject_Z 600) with 600%Q in H2. lra.
  - intros d. unfold is_valid_time_for_distance, between.
    repeat split; simpl; try reflexivity;
      destruct (d =? 0); try reflexivity;
      destruct (bounds_get d) as [[lo hi]|]; simpl;
      rewrite ?andb_false_r; reflexivity.
Qed.

Lemma valid_time_is_finite_and_bounded_witness :
  500 <> 0 /\ exists q, fin 44.1 = Fin q /\ (18 <= q)%Q /\ (q <= 720)%Q.
Proof.
  apply (proj1 valid_time_is_finite_and_bounded (fin 44.1) 500).
  vm_compute. reflexivity.
Defined.

End FilterEdges.

(* ===================================================================== *)
(** ** Further properties of the timelines *)
(* ===================================================================== *)

Module TimelineEdges.
Import PyStr PyFloat BuildTimeTrends SortFacts GroupFacts Timeline.

Lemma insert_perm {A : Type} (ltb : A -> A -> bool) (x : A) (l : list A) :
  PySort.insert ltb x l ≡ₚ x :: l.
Proof.
  induction l as [|y l IH]; simpl; [reflexivity|].
  destruct (ltb y x); [|reflexivity].
  rewrite IH. apply Permutation_swap.
Qed.

Lemma sort_perm {A : Type} (ltb : A -> A -> bool) (l : list A) :
  PySort.sort ltb l ≡ₚ l.
Proof.
  induction l as [|x l IH]; simpl; [reflexivity|].
  rewrite insert_perm. now rewrite IH.
Qed.

Lemma separated_perm (l l' : list result) :
  l ≡ₚ l' -> separated l -> separated l'.
Proof.
  unfold separated. induction 1 as [|x l l' Hp IH|x y l|l l' l'' _ IH1 _ IH2].
  - trivial.
  - intros [Hs Hf]%StronglySorted_inv. constructor; [auto|].
    now rewrite <- Hp.
  - intros [[Hs Hfx]%StronglySorted_inv Hfy]%StronglySorted_inv.
    apply Forall_cons in Hfy as [Hyx Hfy].
    repeat constructor; auto using far_sym.
  - auto.
Qed.

Lemma separated_of_pairs (l : list result) :
  (forall i j a b, i <> j -> l !! i = Some a -> l !! j = Some b -> far a b) ->
  separated l.
Proof.
  unfold separated. induction l as [|x l IH]; intros H; constructor.
  - apply IH. intros i j a b Hij Ha Hb.
    apply (H (S i) (S j)); simpl; auto.
  - apply Forall_forall. intros y [j Hj]%list_elem_of_lookup_1.
    apply (H 0%nat (S j)); simpl; auto.
Qed.

Lemma far_far_from (x r : result) (r_date : Z) :
  date r = Some r_date -> far x r -> far_from r_date x.
Proof.
  unfold far, far_from. intros ->. destruct (date x); [lia|trivial].
Qed.

Lemma fold_dedup_far (l acc : list result) :
  separated (acc ++ l) -> Forall (fun r => date r <> None) l ->
  fold_left dedup_step l acc = (acc ++ l)%list.
Proof.
  revert acc. induction l as [|r l IH]; intros acc Hs Hd; simpl.
  - now rewrite app_nil_r.
  - apply Forall_cons in Hd as [Hr Hd].
    destruct (date r) as [r_date|] eqn:Hdate; [|congruence].
    rewrite (dedup_step_dated_new acc r r_date Hdate).
    + rewrite IH; [now rewrite <- app_assoc| |exact Hd].
      now rewrite <- app_assoc.
    + apply Forall_forall. intros x Hx.
      apply (far_far_from x r r_date Hdate).
      assert (separated (r :: l ++ acc)) as Hs'.
      { apply (separated_perm (acc ++ r :: l)); [|exact Hs].
        rewrite Permutation_app_comm. reflexivity. }
      apply StronglySorted_inv in Hs' as [_ Hf].
      rewrite Forall_forall in Hf. apply far_sym, Hf.
      apply elem_of_app. now right.
Qed.

(** X5.  When every result of a distance carries a date and no two of
    them lie within two days of each other, de-duplication drops nothing:
    the timeline is the sorted list. *)
Theorem dedup_keeps_results_far_apart (results : list result) :
  (forall r, r ∈ results -> date r <> None) ->
  (forall i j a b a_date b_date,
      i <> j -> results !! i = Some a -> results !! j = Some b ->
      date a = Some a_date -> date b = Some b_date ->
      2 < Z.abs (a_date - b_date)) ->
  dedup_distance results = PySort.sort sort_key_ltb results.
Proof.
  intros Hdated Hfar. unfold dedup_distance.
  rewrite fold_dedup_far; [reflexivity| |].
  - simpl. apply (separated_perm results); [now rewrite sort_perm|].
    apply separated_of_pairs. intros i j a b Hij Ha Hb. unfold far.
    destruct (date a) as [a_date|] eqn:Hda; [|trivial].
    destruct (date b) as [b_date|] eqn:Hdb; [|trivial].
    eauto.
  - apply Forall_forall. intros r Hr. apply Hdated.
    exact (proj1 (elem_of_sort _ _ _) Hr).
Qed.

Lemma dedup_keeps_results_far_apart_witness :
  dedup_distance [fifth_day; first_day]
  = PySort.sort sort_key_ltb [fifth_day; first_day].
Proof.
  apply dedup_keeps_results_far_apart.
  - intros r Hr. repeat (apply elem_of_cons in Hr as [->|Hr]; [discriminate|]).
    inversion Hr.
  - intros [|[|[|i]]] [|[|[|j]]] a b a_date b_date Hij Ha Hb Hda Hdb;
      simpl in Ha, Hb; try discriminate; try congruence;
      injection Ha as <-; injection Hb as <-;
      injection Hda as <-; injection Hdb as <-; simpl; lia.
Defined.

Lemma remove_first_length (e : result) (l : list result) :
  (List.length (remove_first e l) <= List.length l)%nat.
Proof.
  induction l as [|x l IH]; simpl; [lia|].
  destruct (result_eqb x e); simpl; lia.
Qed.

Lemma first_within_nil (r_date : Z) (k i : nat) (deduped : list result)
    (e : result) :
  first_within r_date k deduped = Some (i, e) -> deduped <> [].
Proof. destruct deduped; [discriminate|discriminate]. Qed.

Lemma dedup_step_length (deduped : list result) (r : result) :
  dedup_step deduped r <> []
  /\ (List.length (dedup_step deduped r) <= S (List.length deduped))%nat.
Proof.
  unfold dedup_step. destruct (date r) as [r_date|].
  - destruct (first_within r_date 0 deduped) as [[i e]|] eqn:Hf.
    + apply first_within_nil in Hf.
      destruct (fltb _ _).
      * split.
        -- intros E. apply (f_equal List.length) in E.
           rewrite length_insert in E. destruct deduped; simpl in *; congruence.
        -- rewrite length_insert. lia.
      * split; [exact Hf|lia].
    + split; [now destruct deduped|]. rewrite length_app. simpl. lia.
  - destruct (List.find (same_competition r) deduped) as [e|] eqn:Hf.
    + destruct (fltb _ _).
      * split; [now destruct (remove_first e deduped)|].
        rewrite length_app. simpl.
        pose proof (remove_first_length e deduped) as Hl.
        apply find_some in Hf as [Hin _].
        destruct deduped as [|x l]; [destruct Hin|].
        simpl in *. destruct (result_eqb x e); simpl in *; lia.
      * split; [|lia]. intros ->. discriminate.
    + split; [now destruct deduped|]. rewrite length_app. simpl. lia.
Qed.

Lemma fold_dedup_length (l deduped : list result) :
  (List.length (fold_left dedup_step l deduped)
   <= List.length deduped + List.length l)%nat
  /\ (deduped <> [] \/ l <> [] -> fold_left dedup_step l deduped <> []).
Proof.
  revert deduped. induction l as [|r l IH]; intros deduped; simpl.
  - split; [lia|]. intros [H|H]; congruence.
  - destruct (dedup_step_length deduped r) as [Hne Hlen].
    destruct (IH (dedup_step deduped r)) as [IHlen IHne].
    split; [lia|]. intros _. apply IHne. now left.
Qed.

Lemma dedup_distance_nonempty (results : list result) :
  results <> [] -> dedup_distance results <> [].
Proof.
  intros Hne. unfold dedup_distance. apply fold_dedup_length. right.
  intros E. apply Hne. exact (sort_nil _ _ E).
Qed.

(** X6.  De-duplicating a distance never lengthens the list, and the
    timeline is empty only when there was no result at all: some result
    of every distance that has one is always kept. *)
Theorem dedup_distance_shrinks (results : list result) :
  (List.length (dedup_distance results) <= List.length results)%nat
  /\ (dedup_distance results = [] <-> results = []).
Proof.
  split.
  - unfold dedup_distance.
    pose proof (proj1 (fold_dedup_length (PySort.sort sort_key_ltb results) []))
      as H.
    simpl in H. now rewrite (Permutation_length (sort_perm _ results)) in H.
  - split.
    + intros E. destruct results as [|r l]; [reflexivity|].
      exfalso. now apply (dedup_distance_nonempty (r :: l)).
    + now intros ->.
Qed.

Lemma dedup_distance_shrinks_witness :
  (List.length (dedup_distance [first_day; third_day]) <= 2)%nat.
Proof.
  apply (proj1 (dedup_distance_shrinks [first_day; third_day])).
Defined.

(** X7.  The timelines of a skater: every distance appears once, no
    timeline is empty, a timeline holds only results of its own distance
    that were among the collected results, and every distance with a
    collected result has a timeline. *)
Theorem timelines_by_distance (all_results : list result) :
  NoDup (timelines all_results).*1
  /\ (forall dist rs,
        (dist, rs) ∈ timelines all_results ->
        rs <> []
        /\ forall r, r ∈ rs -> distance r = dist /\ r ∈ all_results)
  /\ (forall r, r ∈ all_results ->
        exists rs, (distance r, rs) ∈ timelines all_results).
Proof.
  destruct (group_by_well_grouped distance all_results)
    as (Hnd & Hne & Hin & Hall).
  unfold timelines.
  set (f := fun '((dist, rs) : Z * list result) => (dist, dedup_distance rs)).
  assert (forall d, (List.map f d).*1 = d.*1) as Hkeys.
  { induction d as [|[k v] d IH]; [reflexivity|].
    change (k :: (List.map f d).*1 = k :: d.*1). now f_equal. }
  split; [|split].
  - fold f. now rewrite Hkeys.
  - intros dist rs Hm. fold f in Hm.
    apply list_elem_of_In, in_map_iff in Hm as ([k vs] & [= <- <-] & Hg).
    apply list_elem_of_In in Hg. split.
    + apply dedup_distance_nonempty.
      rewrite Forall_forall in Hne. exact (Hne _ Hg).
    + intros r Hr. apply dedup_distance_elem in Hr.
      exact (Hin _ _ _ Hg Hr).
  - intros r Hr. destruct (Hall r Hr) as (vs & Hg & _).
    exists (dedup_distance vs). fold f.
    apply list_elem_of_In, in_map_iff. exists (distance r, vs).
    split; [reflexivity|]. now apply list_elem_of_In.
Qed.

Lemma timelines_by_distance_witness :
  [first_day; fifth_day] <> []
  /\ forall r, r ∈ [first_day; fifth_day] ->
       distance r = 500 /\ r ∈ [fifth_day; first_day].
Proof.
  apply (proj1 (proj2 (timelines_by_distance [fifth_day; first_day])) 500).
  vm_compute. constructor.
Defined.

End TimelineEdges.

(* ===================================================================== *)
(** ** The order of a timeline *)
(* ===================================================================== *)

Module TimelineOrder.
Import PyStr PyFloat BuildTimeTrends SortFacts Timeline.

(** A result whose date, if it has one, precedes the year 9999. *)
Definition early (r : result) : Prop :=
  match date r with
  | Some d => d < first_day_of_9999
  | None => True
  end.

Section Sorted.
Context {A : Type} (R : A -> A -> Prop).

Lemma sorted_lookup (l : list A) (i j : nat) (a b : A) :
  StronglySorted R l -> (i < j)%nat ->
  l !! i = Some a -> l !! j = Some b -> R a b.
Proof.
  intros Hs. revert i j. induction Hs as [|x l Hs IH Hx]; intros i j Hij Ha Hb.
  - discriminate.
  - destruct j as [|j]; [lia|]. destruct i as [|i]; simpl in *.
    + injection Ha as <-. rewrite Forall_forall in Hx.
      apply Hx. eapply list_elem_of_lookup_2. exact Hb.
    + apply (IH i j); [lia|assumption|assumption].
Qed.

Lemma sorted_of_lookup (l : list A) :
  (forall i j a b, (i < j)%nat -> l !! i = Some a -> l !! j = Some b -> R a b) ->
  StronglySorted R l.
Proof.
  induction l as [|x l IH]; intros H; constructor.
  - apply IH. intros i j a b Hij Ha Hb. apply (H (S i) (S j)); simpl; auto; lia.
  - apply Forall_forall. intros y [j Hj]%list_elem_of_lookup_1.
    apply (H 0%nat (S j)); simpl; auto; lia.
Qed.

Lemma sorted_snoc (l : list A) (r : A) :
  StronglySorted R l -> Forall (fun x => R x r) l ->
  StronglySorted R (l ++ [r]).
Proof.
  induction 1 as [|x l Hs IH Hx]; intros Hf; simpl.
  - repeat constructor.
  - apply Forall_cons in Hf as [Hxr Hf]. constructor; [auto|].
    apply Forall_app. split; [exact Hx|]. now constructor.
Qed.

Lemma sorted_insert_at (l : list A) (i : nat) (r : A) :
  StronglySorted R l ->
  (forall j x, (j < i)%nat -> l !! j = Some x -> R x r) ->
  (forall j x, (i < j)%nat -> l !! j = Some x -> R r x) ->
  StronglySorted R (<[i := r]> l).
Proof.
  intros Hs Hbefore Hafter. apply sorted_of_lookup.
  intros a b x y Hab Hx Hy.
  destruct (decide (a = i)) as [->|Ha]; destruct (decide (b = i)) as [->|Hb];
    try lia.
  - apply list_lookup_insert_Some in Hx as [(_ & <- & _)|[? _]]; [|lia].
    rewrite list_lookup_insert_ne in Hy by lia. now apply (Hafter b).
  - apply list_lookup_insert_Some in Hy as [(_ & <- & _)|[? _]]; [|lia].
    rewrite list_lookup_insert_ne in Hx by lia. now apply (Hbefore a).
  - rewrite list_lookup_insert_ne in Hx, Hy by lia.
    exact (sorted_lookup l a b x y Hs Hab Hx Hy).
Qed.

End Sorted.

Lemma sorted_remove_first (e : result) (l : list result) :
  StronglySorted rank_le l -> StronglySorted rank_le (remove_first e l).
Proof.
  induction 1 as [|x l Hs IH Hx]; simpl; [constructor|].
  destruct (result_eqb x e); [exact Hs|].
  constructor; [exact IH|]. now apply Forall_remove_first.
Qed.

Lemma dedup_step_sorted (deduped : list result) (r : result) :
  StronglySorted rank_le deduped -> separated deduped ->
  Forall (fun e => rank_le e r) deduped -> early r ->
  StronglySorted rank_le (dedup_step deduped r).
Proof.
  intros Hs Hsep Hle Hearly. unfold dedup_step.
  destruct (date r) as [r_date|] eqn:Hr.
  - destruct (first_within r_date 0 deduped) as [[i existing]|] eqn:Hf.
    + destruct (fltb (time r) (time existing)); [|exact Hs].
      apply first_within_some in Hf
        as (j & e_date & -> & Hj & He & Hd & _).
      rewrite Forall_forall in Hle.
      apply sorted_insert_at; [exact Hs| |].
      * intros j' x _ Hx. apply Hle.
        eapply list_elem_of_lookup_2. exact Hx.
      * intros j' x Hgt Hx. exfalso. simpl in Hgt.
        pose proof (separated_lookup _ _ _ _ _ Hsep Hgt Hj Hx) as Hex.
        pose proof (sorted_lookup rank_le _ _ _ _ _ Hs Hgt Hj Hx) as Hle_ex.
        pose proof (Hle _ (list_elem_of_lookup_2 _ _ _ Hx)) as Hxr.
        unfold far, rank_le, date_rank, early in *. rewrite Hr, He in *.
        destruct (date x) as [x_date|]; lia.
    + now apply sorted_snoc.
  - destruct (List.find (same_competition r) deduped) as [existing|].
    + destruct (fltb (time r) (time existing)); [|exact Hs].
      apply sorted_snoc; [now apply sorted_remove_first|].
      now apply Forall_remove_first.
    + now apply sorted_snoc.
Qed.

Lemma fold_dedup_sorted (l deduped : list result) :
  StronglySorted rank_le l ->
  Forall (fun e => Forall (rank_le e) l) deduped ->
  separated deduped -> StronglySorted rank_le deduped ->
  Forall early l ->
  StronglySorted rank_le (fold_left dedup_step l deduped).
Proof.
  intros Hl. revert deduped.
  induction Hl as [|r l Hl IH Hr]; intros deduped Hle Hsep Hs Hearly;
    [exact Hs|].
  apply Forall_cons in Hearly as [Her Hearly].
  assert (Forall (fun e => rank_le e r) deduped) as Hler.
  { eapply Forall_impl; [exact Hle|]. intros x Hx. now inversion Hx. }
  simpl. apply IH.
  - apply Forall_forall. intros x [Hx| ->]%dedup_step_elem; [|exact Hr].
    rewrite Forall_forall in Hle. specialize (Hle x Hx).
    now inversion Hle.
  - now apply dedup_step_separated.
  - now apply dedup_step_sorted.
  - exact Hearly.
Qed.

(** X8.  When every date precedes the year 9999, a timeline is in date
    order: the dated entries come first, each more than two days after
    the one before it, and the undated entries come after all of them. *)
Theorem timeline_in_date_order (results : list result) (i j : nat)
    (a b : result) :
  (forall r d, r ∈ results -> date r = Some d -> d < first_day_of_9999) ->
  (i < j)%nat ->
  dedup_distance results !! i = Some a ->
  dedup_distance results !! j = Some b ->
  match date a, date b with
  | Some a_date, Some b_date => a_date + 2 < b_date
  | None, Some _ => False
  | _, None => True
  end.
Proof.
  intros Hearly Hij Ha Hb.
  assert (StronglySorted rank_le (dedup_distance results)) as Hs.
  { unfold dedup_distance. apply fold_dedup_sorted.
    - apply sort_sorted.
    - constructor.
    - constructor.
    - constructor.
    - apply Forall_forall. intros r Hr. unfold early.
      destruct (date r) as [d|] eqn:Hd; [|trivial].
      apply (Hearly r d); [|exact Hd].
      exact (proj1 (elem_of_sort _ _ _) Hr). }
  pose proof (sorted_lookup rank_le _ _ _ _ _ Hs Hij Ha Hb) as Hab.
  pose proof (separated_lookup _ _ _ _ _ (dedup_distance_separated results)
                Hij Ha Hb) as Hfar.
  assert (b ∈ results) as Hbin.
  { apply dedup_distance_elem. eapply list_elem_of_lookup_2. exact Hb. }
  unfold rank_le, date_rank, far in *.
  destruct (date a) as [a_date|], (date b) as [b_date|] eqn:Hdb;
    try trivial; try lia.
  specialize (Hearly b b_date Hbin Hdb). lia.
Qed.

Lemma timeline_in_date_order_witness :
  match date first_day, date fifth_day with
  | Some a_date, Some b_date => a_date + 2 < b_date
  | None, Some _ => False
  | _, None => True
  end.
Proof.
  apply (timeline_in_date_order [fifth_day; first_day] 0 1).
  - intros r d Hr. unfold first_day_of_9999.
    repeat (apply elem_of_cons in Hr as [->|Hr];
            [simpl; intros [= <-]; lia|]).
    inversion Hr.
  - lia.
  - vm_compute. reflexivity.
  - vm_compute. reflexivity.
Defined.

End TimelineOrder.

(* ===================================================================== *)
(** ** Names and the results collected for a skater *)
(* ===================================================================== *)

Module SkaterResults.
Import PyStr PyFloat StrFacts BuildTimeTrends NameNormalForm.

(** X9.  The key [normalize_name] gives is in a normal form: lower case,
    no blank at either end, no non-breaking space, no two blanks in a row,
    and its words joined by one blank give the key back. *)
Theorem normalize_name_normal_form (n : string) :
  let s := normalize_name n in
  lower s = s
  /\ strip s = s
  /\ contains nbsp s = false
  /\ contains "  " s = false
  /\ join " " (split s) = s.
Proof.
  destruct (normalize_name_shape n) as (ws & E & Hw & Hl). simpl.
  split; [now apply lower_fixed_id|].
  rewrite E.
  split; [now apply strip_join|].
  split; [now apply no_nbsp|].
  split; [now apply no_two_spaces|].
  now rewrite split_join.
Qed.

(** X10.  [reversed_name] moves the last word of a key to the front and
    keeps the other words in their order; a key of fewer than two words has
    no such second key.  With two words the second key of the second key
    is the key itself. *)
Theorem reversed_name_rotates (ws : list string) :
  Forall word ws ->
  reversed_name (join " " ws)
  = match ws with
    | _ :: _ :: _ => Some (join " " (List.last ws "" :: List.removelast ws))
    | _ => None
    end
  /\ (forall a b, ws = [a; b] ->
        reversed_name (a ++ " " ++ b) = Some (b ++ " " ++ a)
        /\ reversed_name (b ++ " " ++ a) = Some (a ++ " " ++ b)).
Proof.
  intros Hw.
  assert (forall l, Forall word l ->
            reversed_name (join " " l)
            = match l with
              | _ :: _ :: _ =>
                  Some (join " " (List.last l "" :: List.removelast l))
              | _ => None
              end) as Hrot.
  { intros l Hl. unfold reversed_name. rewrite (split_join l Hl).
    destruct l as [|x [|y l]]; [reflexivity|reflexivity|].
    change (2 <=? List.length (x :: y :: l))%nat with true. cbv iota.
    reflexivity. }
  split; [now apply Hrot|].
  intros a b ->.
  apply Forall_cons in Hw as [Ha Hw]. apply Forall_cons in Hw as [Hb _].
  split.
  - apply (Hrot [a; b]). repeat (constructor; [assumption|]). constructor.
  - apply (Hrot [b; a]). repeat (constructor; [assumption|]). constructor.
Qed.

Lemma reversed_name_rotates_witness :
  reversed_name (join " " ["anna"; "maria"; "li"])
  = Some (join " " ["li"; "anna"; "maria"]).
Proof.
  refine (proj1 (reversed_name_rotates ["anna"; "maria"; "li"] _)).
  repeat constructor.
Defined.

Section Collect.
Variable parse_date : option string -> option Z.

(** An entry the personal-best fallback made from [pb] for a skater
    whose official results name the competitions [uss_comps]. *)
Definition fallback_of (uss_comps : list string) (pb : personal_best)
    (r : result) : Prop :=
  source r = stl /\ place r = None
  /\ competition r = default "" (pb_competition pb)
  /\ time_str r = pb_time pb
  /\ parse_time (pb_time pb) = Some (time r)
  /\ normalize_distance (pb_distance pb) = Some (distance r)
  /\ date r = parse_date (pb_date pb)
  /\ is_valid_time_for_distance (time r) (distance r) = true
  /\ forall c, c ∈ uss_comps ->
       contains (competition r) c = false /\ contains c (competition r) = false.

Lemma existsb_false_elem {A : Type} (p : A -> bool) (l : list A) :
  existsb p l = false -> forall x, x ∈ l -> p x = false.
Proof.
  intros H x Hx. apply list_elem_of_In in Hx.
  destruct (p x) eqn:E; [|reflexivity].
  assert (existsb p l = true) by (apply existsb_exists; eauto). congruence.
Qed.

(** Why the loop passes over a personal best: its competition name
    contains, or is contained in, that of an official result of the
    skater; its time or its distance is not read; or the time is not
    plausible for the distance (a time of 0 and a distance of 0 are not). *)
Definition skipped (uss_comps : list string) (pb : personal_best) : Prop :=
  (exists c, c ∈ uss_comps
             /\ (contains (default "" (pb_competition pb)) c = true
                 \/ contains c (default "" (pb_competition pb)) = true))
  \/ parse_time (pb_time pb) = None
  \/ normalize_distance (pb_distance pb) = None
  \/ exists t d,
       parse_time (pb_time pb) = Some t
       /\ normalize_distance (pb_distance pb) = Some d
       /\ is_valid_time_for_distance t d = false.

(** [added] holds, in the order of the profile, one entry for each
    personal best of [pbs] that is not passed over. *)
Inductive fallbacks (uss_comps : list string)
  : list personal_best -> list result -> Prop :=
| fallbacks_nil : fallbacks uss_comps [] []
| fallbacks_skip (pb : personal_best) (pbs : list personal_best)
    (added : list result) :
    skipped uss_comps pb -> fallbacks uss_comps pbs added ->
    fallbacks uss_comps (pb :: pbs) added
| fallbacks_add (pb : personal_best) (pbs : list personal_best)
    (r : result) (added : list result) :
    fallback_of uss_comps pb r -> fallbacks uss_comps pbs added ->
    fallbacks uss_comps (pb :: pbs) (r :: added).

Lemma add_personal_best_cases (uss_comps : list string)
    (all_results : list result) (pb : personal_best) :
  (add_personal_best parse_date uss_comps all_results pb = all_results
   /\ skipped uss_comps pb)
  \/ exists r, add_personal_best parse_date uss_comps all_results pb
               = (all_results ++ [r])%list
               /\ fallback_of uss_comps pb r.
Proof.
  unfold add_personal_best, skipped.
  destruct (existsb _ uss_comps) eqn:Hex.
  { left. split; [reflexivity|]. left.
    apply existsb_exists in Hex as (c & Hc & Hrel).
    exists c. split; [now apply list_elem_of_In|].
    now apply orb_true_iff in Hrel. }
  destruct (parse_time (pb_time pb)) as [t|] eqn:Ht; [|now left; auto].
  destruct (normalize_distance (pb_distance pb)) as [d|] eqn:Hd;
    [|now left; auto].
  destruct (negb (PyFloat.truthy t) || (d =? 0)) eqn:Hzero.
  { left. split; [reflexivity|]. do 3 right. exists t, d.
    repeat split. unfold is_valid_time_for_distance. now rewrite Hzero. }
  destruct (is_valid_time_for_distance t d) eqn:Hv.
  - right. eexists. split; [reflexivity|].
    unfold fallback_of. simpl. repeat (split; [reflexivity || assumption|]).
    intros c Hc.
    pose proof (existsb_false_elem _ _ Hex c Hc) as H. simpl in H.
    now apply orb_false_elim in H.
  - left. split; [reflexivity|]. do 3 right. exists t, d. now repeat split.
Qed.

Lemma fold_personal_bests (uss_comps : list string)
    (pbs : list personal_best) (all_results : list result) :
  exists added,
    fold_left (add_personal_best parse_date uss_comps) pbs all_results
    = (all_results ++ added)%list
    /\ fallbacks uss_comps pbs added.
Proof.
  revert all_results. induction pbs as [|pb pbs IH]; intros all_results.
  - exists []. split; [now rewrite app_nil_r|constructor].
  - simpl.
    destruct (add_personal_best_cases uss_comps all_results pb)
      as [[-> Hskip]|(r & -> & Hr)].
    + destruct (IH all_results) as (added & E & Hadded).
      exists added. split; [exact E|]. now apply fallbacks_skip.
    + destruct (IH (all_results ++ [r])%list) as (added & E & Hadded).
      exists (r :: added). split; [now rewrite E, <- app_assoc|].
      now apply fallbacks_add.
Qed.

Lemma fallback_of_unique (uss_comps : list string) (pb : personal_best)
    (r r' : result) :
  fallback_of uss_comps pb r -> fallback_of uss_comps pb r' -> r = r'.
Proof.
  intros (H1 & H2 & H3 & H4 & H5 & H6 & H7 & _)
         (H1' & H2' & H3' & H4' & H5' & H6' & H7' & _).
  destruct r, r'. simpl in *. subst. congruence.
Qed.

Lemma fallback_of_not_skipped (uss_comps : list string) (pb : personal_best)
    (r : result) :
  fallback_of uss_comps pb r -> skipped uss_comps pb -> False.
Proof.
  intros (_ & _ & Hcomp & _ & Ht & Hd & _ & Hv & Hrel)
         [(c & Hc & Hor)|[Hnone|[Hnone|(t & d & Ht' & Hd' & Hv')]]].
  - destruct (Hrel c Hc) as [N1 N2]. rewrite Hcomp in N1, N2.
    destruct Hor; congruence.
  - congruence.
  - congruence.
  - congruence.
Qed.

Lemma fallbacks_unique (uss_comps : list string) (pbs : list personal_best)
    (added added' : list result) :
  fallbacks uss_comps pbs added -> fallbacks uss_comps pbs added' ->
  added = added'.
Proof.
  intros H. revert added'.
  induction H as [|pb pbs added Hskip _ IH|pb pbs r added Hr _ IH];
    intros added' H'; inversion H'; subst.
  - reflexivity.
  - now apply IH.
  - exfalso. eapply fallback_of_not_skipped; eassumption.
  - exfalso. eapply fallback_of_not_skipped; eassumption.
  - f_equal; [eapply fallback_of_unique; eassumption|now apply IH].
Qed.

(** The results stored under the skater's key and under its second
    key, as [collect_results] reads them. *)
Definition official (uss_results : gmap string (list result)) (sk : skater)
  : list result :=
  let norm_name := normalize_name (default "" (skater_name sk)) in
  (default [] (uss_results !! norm_name)
   ++ match reversed_name norm_name with
      | Some reversed_name =>
          if negb (String.eqb reversed_name norm_name)
          then default [] (uss_results !! reversed_name)
          else []
      | None => []
      end)%list.

Lemma map_as_fmap {A B : Type} (f : A -> B) (l : list A) :
  List.map f l = f <$> l.
Proof.
  induction l as [|x l IH]; [reflexivity|].
  change (f x :: List.map f l = f x :: (f <$> l)). now f_equal.
Qed.

(** X11.  The results collected for a skater are the official results
    stored under the skater's key, then those under the key with its last
    word in front, then the personal bests that were added: in the order
    of the profile, one entry for each personal best that the loop does
    not pass over, and this settles the list.  An added personal best is
    marked [stl], has no place, passed the plausibility filter, and its
    competition name neither contains nor is contained in the competition
    name of any official result of the skater; a personal best is passed
    over exactly when one of these fails. *)
Theorem collect_results_layout (uss_results : gmap string (list result))
    (sk : skater) :
  exists added,
    collect_results parse_date uss_results sk
    = (official uss_results sk ++ added)%list
    /\ fallbacks (competition <$> official uss_results sk)
                 (personal_bests_detail sk) added
    /\ forall added',
         fallbacks (competition <$> official uss_results sk)
                   (personal_bests_detail sk) added' ->
         added' = added.
Proof.
  unfold collect_results.
  destruct (fold_personal_bests
              (List.map competition (official uss_results sk))
              (personal_bests_detail sk) (official uss_results sk))
    as (added & E & Hadded).
  rewrite map_as_fmap in Hadded.
  exists added. split; [exact E|]. split; [exact Hadded|].
  intros added' H'. exact (fallbacks_unique _ _ _ _ H' Hadded).
Qed.

Lemma contains_empty (s : string) : contains "" s = true.
Proof. destruct s; reflexivity. Qed.

(** X12.  A personal best without a competition name, or with an empty
    one, is never added for a skater who has an official result: the empty
    name is contained in every competition name. *)
Theorem nameless_personal_best_skipped (uss_comps : list string)
    (all_results : list result) (pb : personal_best) :
  uss_comps <> [] ->
  default "" (pb_competition pb) = "" ->
  add_personal_best parse_date uss_comps all_results pb = all_results.
Proof.
  intros Hne Hpb. unfold add_personal_best. rewrite Hpb.
  destruct uss_comps as [|c cs]; [congruence|].
  simpl existsb. now rewrite contains_empty.
Qed.

End Collect.

Lemma nameless_personal_best_skipped_witness :
  add_personal_best (fun _ => None) ["Fall Classic"] []
    {| pb_competition := None; pb_time := Some "44.100";
       pb_distance := Some 500; pb_date := None |} = [].
Proof.
  apply nameless_personal_best_skipped; [discriminate|reflexivity].
Defined.

Lemma collect_results_layout_witness :
  let sk :=
    {| skater_id := "daniel-chen-usa"; skater_name := Some "Daniel Chen";
       personal_bests_detail :=
         [ {| pb_competition := Some "Fall Classic"; pb_time := Some "5.000";
              pb_distance := Some 500; pb_date := None |};
           {| pb_competition := Some "Fall Classic"; pb_time := Some "44.100";
              pb_distance := Some 500; pb_date := None |} ] |} in
  exists added,
    collect_results (fun _ => None) ∅ sk = (official ∅ sk ++ added)%list
    /\ fallbacks (fun _ => None) (competition <$> official ∅ sk)
                 (personal_bests_detail sk) added
    /\ forall added',
         fallbacks (fun _ => None) (competition <$> official ∅ sk)
                   (personal_bests_detail sk) added' ->
         added' = added.
Proof.
  intros sk. exact (collect_results_layout (fun _ => None) ∅ sk).
Defined.

End SkaterResults.

(* ===================================================================== *)
(** ** What the cross-validation reports *)
(* ===================================================================== *)

Module CrossValidationEdges.
Import PyStr CrossValidateUss CrossValidation.

Lemma under_key_elem (k : lookup_key) (results : list uss_result)
    (r : uss_result) :
  In r (under_key k results) <-> In r results /\ uss_key r = k.
Proof.
  unfold under_key. rewrite List.filter_In.
  now rewrite bool_decide_eq_true.
Qed.

Lemma match_distance_sound (uss_results : list uss_result)
    (sk : stl_skater) (event : stl_event) (dist : string) (m : match_entry) :
  In m (match_distance (build_lookup uss_results) sk event dist) ->
  m_distance m = dist
  /\ m_skater m = name sk
  /\ m_stl_best_rank m = best_rank event
  /\ exists r, In r uss_results
               /\ uss_key r = event_key sk event dist
               /\ m_uss_comp m = competition r
               /\ m_uss_place m = place r
               /\ m_uss_time m = time r.
Proof.
  unfold match_distance. rewrite build_lookup_spec.
  fold (event_key sk event dist).
  destruct (under_key (event_key sk event dist) uss_results)
    as [|first rest] eqn:E; [intros []|].
  intros [<-|[]]. simpl. repeat (split; [reflexivity|]).
  exists first.
  assert (In first (under_key (event_key sk event dist) uss_results)) as Hin
    by (rewrite E; now left).
  apply under_key_elem in Hin as [Hin Hk]. auto.
Qed.

(** X13.  Every reported match stems from an official result: one of a
    skater with the same normalised name, at a competition with the same
    normalised name, whose distance in lower case is one of ["500m"],
    ["1000m"], ["1500m"], ["3000m"].  Official results of any other
    distance are never matched. *)
Theorem matches_stem_from_official_results (uss_results : list uss_result)
    (stl_facts : list (string * stl_skater)) (m : match_entry) :
  In m (all_matches uss_results stl_facts) ->
  In (m_distance m) distances
  /\ exists id sk event r,
       In (id, sk) stl_facts /\ In event (events sk) /\ In r uss_results
       /\ m_skater m = name sk
       /\ m_stl_best_rank m = best_rank event
       /\ m_uss_comp m = competition r
       /\ m_uss_place m = place r
       /\ m_uss_time m = time r
       /\ normalize_name (default "" (skater r))
          = normalize_name (default "" (name sk))
       /\ normalize_comp_name (default "" (competition r))
          = normalize_comp_name (default "" (event_name event))
       /\ lower (default "" (distance r)) = m_distance m.
Proof.
  unfold all_matches. intros Hm.
  apply in_flat_map in Hm as ([id sk] & Hsk & Hm).
  apply in_flat_map in Hm as (event & Hev & Hm).
  unfold event_matches in Hm.
  apply in_flat_map in Hm as (dist & Hdist & Hm).
  apply match_distance_sound in Hm
    as (Hd & Hs & Hr & r & Hin & Hk & Hc & Hp & Ht).
  rewrite Hd. split; [exact Hdist|].
  exists id, sk, event, r.
  unfold uss_key, event_key in Hk. injection Hk as Hk1 Hk2 Hk3.
  repeat (split; [assumption|]). exact Hk3.
Qed.

Lemma matches_stem_from_official_results_witness :
  let official :=
    {| skater := Some "SHUAI Sean";
       competition := Some "2024 US Short Track Championship";
       distance := Some "500M"; place := Some 4; time := Some "44.100" |} in
  let scraped :=
    ("sean-shuai-usa",
     {| name := Some "Sean Shuai";
        events := [ {| event_name := Some "US Short Track Championship 2024";
                       best_rank := Some 5 |} ] |}) in
  let m :=
    {| m_skater := Some "Sean Shuai";
       m_stl_event := "US Short Track Championship 2024";
       m_uss_comp := Some "2024 US Short Track Championship";
       m_distance := "500m";
       m_stl_best_rank := Some 5;
       m_uss_place := Some 4;
       m_uss_time := Some "44.100" |} in
  In (m_distance m) distances
  /\ exists id sk event r,
       In (id, sk) [scraped] /\ In event (events sk) /\ In r [official]
       /\ m_skater m = name sk
       /\ m_stl_best_rank m = best_rank event
       /\ m_uss_comp m = competition r
       /\ m_uss_place m = place r
       /\ m_uss_time m = time r
       /\ normalize_name (default "" (skater r))
          = normalize_name (default "" (name sk))
       /\ normalize_comp_name (default "" (competition r))
          = normalize_comp_name (default "" (event_name event))
       /\ lower (default "" (distance r)) = m_distance m.
Proof.
  intros official scraped m.
  apply (matches_stem_from_official_results [official] [scraped] m).
  vm_compute. left. reflexivity.
Defined.

Lemma match_distance_length (uss_lookup : gmap lookup_key (list uss_result))
    (sk : stl_skater) (event : stl_event) (dist : string) :
  (List.length (match_distance uss_lookup sk event dist) <= 1)%nat.
Proof.
  destruct (match_distance_cases uss_lookup sk event dist)
    as [->|(m & -> & _)]; simpl; lia.
Qed.

(** X14.  For one event of a scraped skater the script reports at most
    four matches, one for each distance and in the order of the distances,
    and at most one missing entry; it reports a missing entry only when
    there is no match, and then some official result has the same
    normalised competition name. *)
Theorem event_matched_or_missing (uss_results : list uss_result)
    (sk : stl_skater) (event : stl_event) :
  let found := event_matches (build_lookup uss_results) sk event in
  let missing :=
    event_not_found uss_results (build_lookup uss_results) sk event in
  (List.length found <= 4)%nat
  /\ (exists pick, sublist pick distances /\ m_distance <$> found = pick)
  /\ (List.length missing <= 1)%nat
  /\ (found = [] \/ missing = [])
  /\ (missing <> [] ->
      exists r, In r uss_results
                /\ normalize_comp_name (default "" (competition r))
                   = normalize_comp_name (default "" (event_name event))).
Proof.
  intros found missing.
  split; [|split; [|split; [|split]]].
  - subst found. unfold event_matches, distances. simpl.
    rewrite !length_app. simpl.
    pose proof (match_distance_length (build_lookup uss_results) sk event)
      as H.
    pose proof (H "500m"). pose proof (H "1000m").
    pose proof (H "1500m"). pose proof (H "3000m"). lia.
  - eexists. split; [|reflexivity].
    subst found. unfold event_matches, distances. simpl.
    rewrite !fmap_app. simpl.
    repeat match goal with
           | |- context [match_distance ?l ?s ?e ?d] =>
               let H := fresh in
               destruct (match_distance_cases l s e d) as [H|(? & H & ?)];
               rewrite H; clear H; simpl
           end;
      repeat match goal with H : m_distance _ = _ |- _ => rewrite H; clear H end;
      repeat first [ apply sublist_skip | apply sublist_cons | apply sublist_nil ].
  - subst missing. unfold event_not_found.
    destruct (event_matches _ sk event); [|simpl; lia].
    destruct (existsb _ uss_results); simpl; lia.
  - subst found missing. unfold event_not_found.
    destruct (event_matches _ sk event); [now left|now right].
  - subst missing. unfold event_not_found.
    destruct (event_matches _ sk event); [|congruence].
    destruct (existsb _ uss_results) eqn:He; [|congruence].
    intros _. apply existsb_exists in He as (r & Hr & He).
    exists r. split; [exact Hr|]. now apply String.eqb_eq.
Qed.

Lemma event_matched_or_missing_witness :
  let official :=
    {| skater := Some "HOWARD Marcus";
       competition := Some "2024 US Short Track Championship";
       distance := Some "500m"; place := Some 1; time := Some "43.000" |} in
  let event :=
    {| event_name := Some "US Short Track Championship 2024";
       best_rank := Some 5 |} in
  exists r, In r [official]
            /\ normalize_comp_name (default "" (competition r))
               = normalize_comp_name (default "" (event_name event)).
Proof.
  intros official event.
  pose proof (event_matched_or_missing [official]
                {| name := Some "Sean Shuai"; events := [event] |} event) as H.
  cbv zeta in H. destruct H as (_ & _ & _ & _ & H).
  apply H. vm_compute. discriminate.
Defined.

End CrossValidationEdges.

(* ===================================================================== *)
(** ** data/parse_uss_pdfs.py: what happens to the results of the pages *)
(* ===================================================================== *)

Module PdfResults.
Import PyStr ParseUssPdfs.

Definition STANDARD_DISTANCES : list string :=
  ["500m"; "1000m"; "1500m"; "3000m"].

(** [parse_pdf], given the results the page parsers returned for the
    pages that were read (all of them, or those before an exception). *)
Definition parse_pdf (pages : list (list raw_result)) : list raw_result :=
  let all_results := concat pages in
  let all_results := dedupe_results all_results in
  List.filter (fun r => bool_decide (distance r ∈ STANDARD_DISTANCES))
              all_results.



(** *** The ranks of [parse_event_time_results_page]

    The results are dictionaries that the list [results] and the lists
    of [groups] share: a result is known by its position in [results], and
    a group is a list of positions. *)

Definition set_rank (n : Z) (r : raw_result) : raw_result :=
  {| rank := n; skater := skater r; time := time r;
     distance := distance r; category := category r |}.

(** [(r['distance'], r['category'])] of the result at position [i] *)
Definition group_key (results : list raw_result) (i : nat)
  : string * string :=
  match results !! i with
  | Some r => (distance r, category r)
  | None => ("", "")
  end.

(** [<] on the sort key [x['time']] of the results at two positions *)
Definition time_at_ltb (results : list raw_result) (i j : nat) : bool :=
  match results !! i, results !! j with
  | Some x, Some y => String.ltb (time x) (time y)
  | _, _ => false
  end.

(** [for i, r in enumerate(group): r['rank'] = i + 1], from [i] on *)
Fixpoint number (results : list raw_result) (i : nat) (group : list nat)
  : list raw_result :=
  match group with
  | [] => results
  | r :: rest =>
      number (alter (set_rank (Z.of_nat i + 1)) r results) (S i) rest
  end.

(** Body of the loop [for key, group in groups.items()] *)
Definition rank_group (results : list raw_result) (group : list nat)
  : list raw_result :=
  number results 0 (PySort.sort (time_at_ltb results) group).

(** The part of [parse_event_time_results_page] after the lines were
    read: [results] as it is returned. *)
Definition assign_ranks (results : list raw_result) : list raw_result :=
  let groups :=
    ODict.group_by (group_key results) (seq 0 (List.length results)) in
  fold_left (fun results '(_, group) => rank_group results group)
            groups results.

End PdfResults.

Module PdfPipeline.
Import PyStr ParseUssPdfs PdfResults SortFacts GroupFacts PdfDuplicates.

Section Grouping.
Context {K V : Type} `{EqDecision K} (key : V -> K).

Lemma append_fresh (k : K) (v : V) (d : list (K * list V)) :
  k ∉ d.*1 -> ODict.append k v d = (d ++ [(k, [v])])%list.
Proof.
  induction d as [|[k' vs] d IH]; intros Hk; simpl; [reflexivity|].
  rewrite fmap_cons, not_elem_of_cons in Hk. destruct Hk as [Hne Hk].
  simpl in Hne. destruct (decide (k' = k)); [congruence|].
  now rewrite IH.
Qed.

Lemma fold_group_distinct (l : list V) (d : list (K * list V)) :
  NoDup (d.*1 ++ (key <$> l)) ->
  fold_left (fun d v => ODict.append (key v) v d) l d
  = (d ++ ((fun v => (key v, [v])) <$> l))%list.
Proof.
  revert d. induction l as [|v l IH]; intros d Hnd; simpl.
  - now rewrite app_nil_r.
  - rewrite fmap_cons in Hnd.
    assert (key v ∉ d.*1) as Hfresh.
    { apply NoDup_app in Hnd as (_ & Hdis & _).
      intros Hin. apply (Hdis _ Hin). now left. }
    rewrite (append_fresh _ _ _ Hfresh), IH.
    + now rewrite <- app_assoc.
    + rewrite fmap_app. simpl. rewrite <- app_assoc. exact Hnd.
Qed.

Lemma group_by_distinct (l : list V) :
  NoDup (key <$> l) ->
  ODict.group_by key l = (fun v => (key v, [v])) <$> l.
Proof.
  intros Hnd. unfold ODict.group_by. now rewrite fold_group_distinct.
Qed.

Variable q : K -> bool.

Lemma append_filter (k : K) (v : V) (d : list (K * list V)) :
  List.filter (fun g => q g.1) (ODict.append k v d)
  = if q k then ODict.append k v (List.filter (fun g => q g.1) d)
    else List.filter (fun g => q g.1) d.
Proof.
  induction d as [|[k' vs] d IH]; simpl.
  - now destruct (q k).
  - destruct (decide (k' = k)) as [->|Hne]; simpl.
    + destruct (q k); simpl; [|reflexivity].
      now rewrite decide_True.
    + rewrite IH. destruct (q k'), (q k); simpl; try reflexivity.
      now rewrite decide_False.
Qed.

Lemma fold_group_filter (l : list V) (d : list (K * list V)) :
  fold_left (fun d v => ODict.append (key v) v d)
            (List.filter (fun v => q (key v)) l)
            (List.filter (fun g => q g.1) d)
  = List.filter (fun g => q g.1)
      (fold_left (fun d v => ODict.append (key v) v d) l d).
Proof.
  revert d. induction l as [|v l IH]; intros d; simpl; [reflexivity|].
  rewrite <- IH, append_filter.
  now destruct (q (key v)).
Qed.

Lemma group_by_filter (l : list V) :
  ODict.group_by key (List.filter (fun v => q (key v)) l)
  = List.filter (fun g => q g.1) (ODict.group_by key l).
Proof. exact (fold_group_filter l []). Qed.

End Grouping.

Lemma omap_cons {A B : Type} (f : A -> option B) (x : A) (l : list A) :
  omap f (x :: l)
  = match f x with Some y => y :: omap f l | None => omap f l end.
Proof. reflexivity. Qed.

Lemma filter_cons_eq {A : Type} (p : A -> bool) (x : A) (l : list A) :
  List.filter p (x :: l) = if p x then x :: List.filter p l else List.filter p l.
Proof. reflexivity. Qed.

Lemma omap_filter {A B : Type} (f : A -> option B) (q : A -> bool)
    (p : B -> bool) (d : list A) :
  (forall g r, g ∈ d -> f g = Some r -> p r = q g) ->
  omap f (List.filter q d) = List.filter p (omap f d).
Proof.
  induction d as [|g d IH]; intros H; [reflexivity|].
  assert (omap f (List.filter q d) = List.filter p (omap f d)) as IH'.
  { apply IH. intros g' r Hg. apply H. now right. }
  rewrite filter_cons_eq, omap_cons.
  destruct (f g) as [r|] eqn:E.
  - rewrite filter_cons_eq, (H g r (list_elem_of_here _ _) E).
    destruct (q g); [rewrite omap_cons, E|]; now rewrite IH'.
  - destruct (q g); [rewrite omap_cons, E|]; exact IH'.
Qed.

Lemma filter_ext_elem {A : Type} (p p' : A -> bool) (l : list A) :
  (forall x, x ∈ l -> p x = p' x) -> List.filter p l = List.filter p' l.
Proof.
  induction l as [|x l IH]; intros H; [reflexivity|].
  simpl. rewrite (H x (list_elem_of_here _ _)), IH; [reflexivity|].
  intros y Hy. apply H. now right.
Qed.

Lemma dedupe_results_filter (q : string * string * string -> bool)
    (results : list raw_result) :
  dedupe_results (List.filter (fun r => q (dedupe_key r)) results)
  = List.filter (fun r => q (dedupe_key r)) (dedupe_results results).
Proof.
  unfold dedupe_results. rewrite (group_by_filter dedupe_key q).
  apply (omap_filter kept (fun g => q g.1)).
  intros [k rlist] r Hg Hr.
  destruct (kept_spec results k rlist r Hg Hr) as (_ & <- & _).
  reflexivity.
Qed.

(** X15.  [dedupe_results] run on its own output changes nothing. *)
Theorem dedupe_results_idempotent (results : list raw_result) :
  dedupe_results (dedupe_results results) = dedupe_results results.
Proof.
  destruct (dedupe_results_one_per_key results) as (Hnd & _ & _).
  set (out := dedupe_results results) in *.
  unfold dedupe_results at 1.
  rewrite (group_by_distinct dedupe_key out Hnd).
  clear Hnd. induction out as [|r out IH]; [reflexivity|].
  rewrite fmap_cons, omap_cons. cbn beta iota delta [PySort.sort PySort.insert head].
  now f_equal.
Qed.

Definition standard (r : raw_result) : bool :=
  bool_decide (distance r ∈ STANDARD_DISTANCES).

(** X16.  The results [parse_pdf] returns: all of a standard distance,
    all among the results of the pages, no two for the same skater (up to
    case), distance and category; and filtering the distances before the
    duplicates are removed would give the same list. *)
Theorem parse_pdf_standard_results (pages : list (list raw_result)) :
  (forall r, r ∈ parse_pdf pages ->
     distance r ∈ STANDARD_DISTANCES /\ exists page, page ∈ pages /\ r ∈ page)
  /\ NoDup (dedupe_key <$> parse_pdf pages)
  /\ parse_pdf pages = dedupe_results (List.filter standard (concat pages)).
Proof.
  assert (parse_pdf pages = dedupe_results (List.filter standard (concat pages)))
    as E.
  { unfold parse_pdf.
    exact (eq_sym (dedupe_results_filter
                     (fun k => bool_decide (k.1.2 ∈ STANDARD_DISTANCES))
                     (concat pages))). }
  split; [|split; [|exact E]].
  - intros r Hr. unfold parse_pdf in Hr.
    apply list_elem_of_In, List.filter_In in Hr as [Hr Hstd].
    apply bool_decide_eq_true in Hstd. split; [exact Hstd|].
    apply list_elem_of_In in Hr.
    apply (proj1 (proj2 (dedupe_results_one_per_key _))) in Hr.
    apply list_elem_of_In, in_concat in Hr as (page & Hp & Hr).
    exists page. split; now apply list_elem_of_In.
  - rewrite E. apply dedupe_results_one_per_key.
Qed.

Lemma parse_pdf_standard_results_witness :
  let kept := {| rank := 1; skater := "Marcus Howard"; time := "0:43.000";
                 distance := "500m"; category := "Men" |} in
  let odd := {| rank := 1; skater := "Marcus Howard"; time := "1:10.000";
                distance := "777m"; category := "Men" |} in
  distance kept ∈ STANDARD_DISTANCES
  /\ exists page, page ∈ [[kept; odd]; [kept]] /\ kept ∈ page.
Proof.
  intros kept odd.
  apply (proj1 (parse_pdf_standard_results [[kept; odd]; [kept]]) kept).
  vm_compute. constructor.
Defined.

End PdfPipeline.

(* ===================================================================== *)
(** ** The ranks given to the results of an event page *)
(* ===================================================================== *)

Module EventRanks.
Import PyStr ParseUssPdfs PdfResults SortFacts GroupFacts PdfDuplicates.

(** Everything in a result but its rank. *)
Definition fields (r : raw_result) : string * string * string * string :=
  (skater r, time r, distance r, category r).

Lemma fields_alter (n : Z) (i : nat) (st : list raw_result) :
  fields <$> alter (set_rank n) i st = fields <$> st.
Proof.
  apply list_eq. intros j. rewrite !list_lookup_fmap.
  destruct (decide (i = j)) as [->|Hne].
  - rewrite list_lookup_alter_eq. now destruct (st !! j).
  - now rewrite list_lookup_alter_ne.
Qed.

Lemma number_spec (group : list nat) (st : list raw_result) (i : nat) :
  NoDup group ->
  fields <$> number st i group = fields <$> st
  /\ (forall a ref r,
        group !! a = Some ref -> st !! ref = Some r ->
        number st i group !! ref
        = Some (set_rank (Z.of_nat (i + a) + 1) r))
  /\ (forall j, j ∉ group -> number st i group !! j = st !! j).
Proof.
  revert st i. induction group as [|ref rest IH]; intros st i Hnd.
  - split; [reflexivity|]. split; [intros a ref r H; discriminate|].
    reflexivity.
  - apply NoDup_cons in Hnd as [Hfresh Hnd]. simpl.
    destruct (IH (alter (set_rank (Z.of_nat i + 1)) ref st) (S i) Hnd)
      as (IH1 & IH2 & IH3).
    split; [|split].
    + now rewrite IH1, fields_alter.
    + intros [|a] ref' r Ha Hr; simpl in Ha.
      * injection Ha as <-. rewrite (IH3 ref Hfresh).
        rewrite list_lookup_alter_eq, Hr. simpl.
        now rewrite Nat.add_0_r.
      * assert (ref' <> ref) as Hne.
        { intros ->. apply Hfresh. eapply list_elem_of_lookup_2. exact Ha. }
        rewrite (IH2 a ref' r Ha).
        -- do 2 f_equal. lia.
        -- rewrite list_lookup_alter_ne by congruence. exact Hr.
    + intros j Hj. rewrite not_elem_of_cons in Hj. destruct Hj as [Hne Hj].
      rewrite (IH3 j Hj). now rewrite list_lookup_alter_ne by congruence.
Qed.

(** The sort key of the result at a position. *)
Definition time_of (results : list raw_result) (i : nat) : string :=
  match results !! i with
  | Some r => time r
  | None => ""
  end.

Definition by_time (results : list raw_result) (i j : nat) : bool :=
  String.ltb (time_of results i) (time_of results j).

Lemma fields_lookup (st results : list raw_result) (i : nat)
    (r : raw_result) :
  fields <$> st = fields <$> results -> results !! i = Some r ->
  exists r', st !! i = Some r' /\ fields r' = fields r.
Proof.
  intros E Hr. apply (f_equal (fun l => l !! i)) in E.
  rewrite !list_lookup_fmap, Hr in E.
  destruct (st !! i) as [r'|]; [|discriminate].
  exists r'. split; [reflexivity|]. simpl in E. congruence.
Qed.

Lemma time_at_ltb_by_time (st results : list raw_result) (i j : nat) :
  fields <$> st = fields <$> results ->
  (i < List.length results)%nat -> (j < List.length results)%nat ->
  time_at_ltb st i j = by_time results i j.
Proof.
  intros E Hi Hj.
  apply lookup_lt_is_Some_2 in Hi as [x Hx].
  apply lookup_lt_is_Some_2 in Hj as [y Hy].
  destruct (fields_lookup st results i x E Hx) as (x' & Hx' & Ex).
  destruct (fields_lookup st results j y E Hy) as (y' & Hy' & Ey).
  unfold time_at_ltb, by_time, time_of. rewrite Hx, Hy, Hx', Hy'.
  unfold fields in Ex, Ey. congruence.
Qed.

Lemma insert_ext_in {A : Type} (f g : A -> A -> bool) (x : A) (l : list A) :
  (forall y, y ∈ l -> f y x = g y x) ->
  PySort.insert f x l = PySort.insert g x l.
Proof.
  induction l as [|y l IH]; intros H; [reflexivity|]. simpl.
  rewrite (H y (list_elem_of_here _ _)), IH; [reflexivity|].
  intros z Hz. apply H. now right.
Qed.

Lemma sort_ext_in {A : Type} (f g : A -> A -> bool) (l : list A) :
  (forall x y, x ∈ l -> y ∈ l -> f x y = g x y) ->
  PySort.sort f l = PySort.sort g l.
Proof.
  induction l as [|x l IH]; intros H; [reflexivity|]. simpl.
  rewrite IH by (intros y z Hy Hz; apply H; now right).
  apply insert_ext_in. intros y Hy. apply H; [right|left].
  exact (proj1 (elem_of_sort _ _ _) Hy).
Qed.

(** The order of the ranks: by the text of the time, and by position for
    equal texts. *)
Definition before (results : list raw_result) (p q : nat) : Prop :=
  by_time results p q = true
  \/ (time_of results p = time_of results q /\ (p < q)%nat).

Lemma string_ltb_asym (a b : string) :
  String.ltb a b = true -> String.ltb b a = false.
Proof.
  unfold String.ltb. rewrite (String.compare_antisym b a).
  now destruct (String.compare a b).
Qed.

Lemma string_ltb_incomparable (a b c : string) :
  String.ltb a b = false -> String.ltb b c = false -> String.ltb a c = false.
Proof.
  rewrite !string_ltb_leb, !negb_false_iff. intros Hba Hcb.
  assert (String.le c a) as H.
  { transitivity b; unfold String.le; [now rewrite Hcb | now rewrite Hba]. }
  unfold String.le in H. now destruct (String.leb c a).
Qed.

Lemma string_ltb_trans (a b c : string) :
  String.ltb a b = true -> String.ltb b c = true -> String.ltb a c = true.
Proof.
  intros Hab Hbc. destruct (String.ltb a c) eqn:Hac; [reflexivity|].
  pose proof (string_ltb_asym _ _ Hbc) as Hcb.
  pose proof (string_ltb_incomparable _ _ _ Hac Hcb). congruence.
Qed.

Lemma string_ltb_equal (a b : string) :
  String.ltb a b = false -> String.ltb b a = false -> a = b.
Proof.
  rewrite !string_ltb_leb, !negb_false_iff. intros Hba Hab.
  now apply String.leb_antisym.
Qed.

Lemma before_asym (results : list raw_result) (p q : nat) :
  before results p q -> before results q p -> False.
Proof.
  unfold before, by_time. intros [H1|[E1 L1]] [H2|[E2 L2]].
  - apply string_ltb_asym in H1. congruence.
  - rewrite E2 in H1. pose proof (string_ltb_asym _ _ H1). congruence.
  - rewrite E1 in H2. pose proof (string_ltb_asym _ _ H2). congruence.
  - lia.
Qed.

Lemma before_total (results : list raw_result) (p q : nat) :
  p <> q -> before results p q \/ before results q p.
Proof.
  intros Hne. unfold before, by_time.
  destruct (String.ltb (time_of results p) (time_of results q)) eqn:Hpq;
    [now left; left|].
  destruct (String.ltb (time_of results q) (time_of results p)) eqn:Hqp;
    [now right; left|].
  pose proof (string_ltb_equal _ _ Hpq Hqp) as E.
  destruct (Nat.lt_total p q) as [H|[H|H]]; [|congruence|].
  - left. right. now split.
  - right. right. now split.
Qed.

Lemma insert_before (results : list raw_result) (x : nat) (l : list nat) :
  StronglySorted (before results) l -> Forall (fun y => (x < y)%nat) l ->
  StronglySorted (before results) (PySort.insert (by_time results) x l).
Proof.
  induction 1 as [|y l Hs IH Hy]; intros Hx; simpl.
  - repeat constructor.
  - apply Forall_cons in Hx as [Hxy Hx].
    destruct (by_time results y x) eqn:Hyx.
    + constructor; [now apply IH|].
      apply Forall_forall. intros z Hz.
      apply elem_of_insert in Hz as [->|Hz]; [now left|].
      rewrite Forall_forall in Hy. now apply Hy.
    + constructor; [now constructor|].
      assert (before results x y) as Hbxy.
      { unfold before. unfold by_time in *.
        destruct (String.ltb (time_of results x) (time_of results y)) eqn:E;
          [now left|].
        right. split; [|exact Hxy]. now apply string_ltb_equal. }
      constructor; [exact Hbxy|].
      apply Forall_forall. intros z Hz.
      rewrite Forall_forall in Hy, Hx.
      specialize (Hy z Hz). specialize (Hx z Hz).
      unfold before, by_time in *.
      destruct (String.ltb (time_of results x) (time_of results z)) eqn:Hxz;
        [now left|].
      right. split; [|exact Hx]. apply string_ltb_equal; [exact Hxz|].
      destruct Hy as [Hyz|[Eyz _]].
      * destruct (String.ltb (time_of results z) (time_of results x)) eqn:Hzx;
          [|reflexivity].
        pose proof (string_ltb_trans _ _ _ Hyz Hzx). congruence.
      * now rewrite <- Eyz.
Qed.

Lemma sort_before (results : list raw_result) (l : list nat) :
  StronglySorted lt l ->
  StronglySorted (before results) (PySort.sort (by_time results) l).
Proof.
  induction 1 as [|x l Hs IH Hx]; simpl; [constructor|].
  apply insert_before; [exact IH|].
  apply Forall_forall. intros y Hy. rewrite Forall_forall in Hx.
  apply Hx. exact (proj1 (elem_of_sort _ _ _) Hy).
Qed.

Section Members.
Context {K V : Type} `{EqDecision K} (key : V -> K).

Lemma get_append (k : K) (v : V) (d : list (K * list V)) (k' : K) :
  ODict.get k' (ODict.append k v d)
  = if decide (k = k') then (ODict.get k' d ++ [v])%list else ODict.get k' d.
Proof.
  induction d as [|[k0 vs] d IH]; simpl.
  - destruct (decide (k = k')); reflexivity.
  - destruct (decide (k0 = k)) as [->|Hne]; simpl.
    + destruct (decide (k = k')); reflexivity.
    + rewrite IH. destruct (decide (k0 = k')) as [->|Hne'];
        destruct (decide (k = k')); try reflexivity; congruence.
Qed.

Lemma get_fold (l : list V) (d : list (K * list V)) (k : K) :
  ODict.get k (fold_left (fun d v => ODict.append (key v) v d) l d)
  = (ODict.get k d ++ List.filter (fun v => bool_decide (key v = k)) l)%list.
Proof.
  revert d. induction l as [|v l IH]; intros d; simpl.
  - now rewrite app_nil_r.
  - rewrite IH, get_append.
    destruct (decide (key v = k)) as [E|E].
    + rewrite (bool_decide_eq_true_2 _ E). now rewrite <- app_assoc.
    + now rewrite (bool_decide_eq_false_2 _ E).
Qed.

Lemma get_elem (d : list (K * list V)) (k : K) (vs : list V) :
  NoDup d.*1 -> (k, vs) ∈ d -> ODict.get k d = vs.
Proof.
  induction d as [|[k0 vs0] d IH]; intros Hnd Hin; [inversion Hin|].
  rewrite fmap_cons in Hnd. apply NoDup_cons in Hnd as [Hfresh Hnd].
  simpl. apply elem_of_cons in Hin as [[= <- <-]|Hin].
  - now rewrite decide_True.
  - destruct (decide (k0 = k)) as [->|Hne]; [|now apply IH].
    exfalso. apply Hfresh. simpl.
    apply list_elem_of_fmap. exists (k, vs). now split.
Qed.

Lemma group_by_members (l : list V) (k : K) (vs : list V) :
  (k, vs) ∈ ODict.group_by key l ->
  vs = List.filter (fun v => bool_decide (key v = k)) l.
Proof.
  intros Hin. destruct (group_by_well_grouped key l) as (Hnd & _).
  rewrite <- (get_elem _ _ _ Hnd Hin). unfold ODict.group_by.
  now rewrite get_fold.
Qed.

End Members.

(** The positions of the results with the key [k], in their order. *)
Definition members (results : list raw_result) (k : string * string)
  : list nat :=
  List.filter (fun i => bool_decide (group_key results i = k))
              (seq 0 (List.length results)).

Lemma members_elem (results : list raw_result) (k : string * string)
    (i : nat) :
  i ∈ members results k
  <-> (i < List.length results)%nat /\ group_key results i = k.
Proof.
  unfold members. rewrite list_elem_of_In, List.filter_In, in_seq.
  rewrite bool_decide_eq_true. intuition lia.
Qed.

Lemma seq_sorted (a n : nat) : StronglySorted lt (seq a n).
Proof.
  revert a. induction n as [|n IH]; intros a; simpl; constructor.
  - apply IH.
  - apply Forall_forall. intros x Hx%list_elem_of_In%in_seq. lia.
Qed.

Lemma filter_sorted {A : Type} (R : A -> A -> Prop) (p : A -> bool)
    (l : list A) :
  StronglySorted R l -> StronglySorted R (List.filter p l).
Proof.
  induction 1 as [|x l Hs IH Hx]; simpl; [constructor|].
  destruct (p x); [|exact IH]. constructor; [exact IH|].
  apply Forall_forall. intros y Hy%list_elem_of_In%List.filter_In.
  rewrite Forall_forall in Hx. apply Hx, list_elem_of_In, Hy.
Qed.

Lemma members_sorted (results : list raw_result) (k : string * string) :
  StronglySorted lt (members results k).
Proof. apply filter_sorted, seq_sorted. Qed.

Lemma members_NoDup (results : list raw_result) (k : string * string) :
  NoDup (members results k).
Proof. apply NoDup_ListNoDup, List.NoDup_filter, List.seq_NoDup. Qed.

Lemma members_length_from (results pre l : list raw_result)
    (k : string * string) :
  results = (pre ++ l)%list ->
  List.length
    (List.filter (fun i => bool_decide (group_key results i = k))
                 (seq (List.length pre) (List.length l)))
  = List.length
      (List.filter (fun x => bool_decide ((distance x, category x) = k)) l).
Proof.
  revert pre. induction l as [|x l IH]; intros pre E; [reflexivity|].
  simpl.
  assert (group_key results (List.length pre) = (distance x, category x))
    as Hk.
  { unfold group_key. rewrite E, list_lookup_middle; reflexivity. }
  rewrite Hk.
  assert (S (List.length pre) = List.length (pre ++ [x])) as Hlen
    by (rewrite length_app; simpl; lia).
  rewrite Hlen.
  destruct (bool_decide ((distance x, category x) = k)); simpl;
    rewrite (IH (pre ++ [x])%list); try reflexivity;
    now rewrite <- app_assoc.
Qed.

Lemma members_length (results : list raw_result) (k : string * string) :
  List.length (members results k)
  = List.length
      (List.filter (fun x => bool_decide ((distance x, category x) = k))
                   results).
Proof. exact (members_length_from results [] results k eq_refl). Qed.

(** The positions of a group in the order of their ranks. *)
Definition ranking (results : list raw_result) (vs : list nat) : list nat :=
  PySort.sort (by_time results) vs.

Lemma rank_group_ranking (st results : list raw_result)
    (k : string * string) :
  fields <$> st = fields <$> results ->
  rank_group st (members results k)
  = number st 0 (ranking results (members results k)).
Proof.
  intros E. unfold rank_group, ranking. f_equal.
  apply sort_ext_in. intros x y Hx Hy.
  apply members_elem in Hx as [Hx _]. apply members_elem in Hy as [Hy _].
  now apply time_at_ltb_by_time.
Qed.

Lemma ranking_NoDup (results : list raw_result) (k : string * string) :
  NoDup (ranking results (members results k)).
Proof.
  unfold ranking. rewrite TimelineEdges.sort_perm. apply members_NoDup.
Qed.

Lemma fold_ranks (results : list raw_result)
    (gs : list (string * string * list nat)) (st : list raw_result) :
  fields <$> st = fields <$> results ->
  NoDup gs.*1 ->
  (forall k vs, (k, vs) ∈ gs -> vs = members results k) ->
  let st' := fold_left (fun st '(_, group) => rank_group st group) gs st in
  fields <$> st' = fields <$> results
  /\ (forall k vs a ref r,
        (k, vs) ∈ gs -> ranking results vs !! a = Some ref ->
        st !! ref = Some r ->
        st' !! ref = Some (set_rank (Z.of_nat a + 1) r))
  /\ (forall j, (forall k vs, (k, vs) ∈ gs -> j ∉ vs) -> st' !! j = st !! j).
Proof.
  revert st. induction gs as [|[k vs] gs IH]; intros st E Hnd Hgs; simpl.
  - split; [exact E|]. split; [|reflexivity].
    intros k vs a ref r Hin. inversion Hin.
  - rewrite fmap_cons in Hnd. apply NoDup_cons in Hnd as [Hfresh Hnd].
    simpl in Hfresh.
    assert (vs = members results k) as -> by (apply Hgs; now left).
    rewrite (rank_group_ranking st results k E).
    destruct (number_spec (ranking results (members results k)) st 0
                (ranking_NoDup results k)) as (N1 & N2 & N3).
    set (st1 := number st 0 (ranking results (members results k))) in *.
    assert (fields <$> st1 = fields <$> results) as E1 by now rewrite N1.
    destruct (IH st1 E1 Hnd) as (IH1 & IH2 & IH3).
    { intros k' vs' Hin. apply Hgs. now right. }
    assert (forall j, j ∈ members results k ->
              forall k' vs', (k', vs') ∈ gs -> j ∉ vs') as Hother.
    { intros j Hj k' vs' Hin Hj'.
      rewrite (Hgs k' vs') in Hj' by now right.
      apply members_elem in Hj as [_ Hj]. apply members_elem in Hj' as [_ Hj'].
      apply Hfresh. apply list_elem_of_fmap. exists (k', vs').
      split; [simpl; congruence|exact Hin]. }
    assert (forall j, j ∈ ranking results (members results k)
                      <-> j ∈ members results k) as Hrank.
    { intros j. unfold ranking. apply elem_of_sort. }
    split; [exact IH1|]. split.
    + intros k' vs' a ref r Hin Ha Hr.
      apply elem_of_cons in Hin as [[= -> ->]|Hin].
      * rewrite IH3.
        -- exact (N2 a ref r Ha Hr).
        -- apply Hother, Hrank. eapply list_elem_of_lookup_2. exact Ha.
      * apply (IH2 k' vs' a ref r Hin Ha).
        rewrite N3; [exact Hr|].
        intros Href%Hrank.
        apply (Hother ref Href k' vs' Hin).
        apply (elem_of_sort (by_time results)).
        eapply list_elem_of_lookup_2. exact Ha.
    + intros j Hj. rewrite IH3.
      * apply N3. intros Hin%Hrank. apply (Hj k (members results k));
          [now left|exact Hin].
      * intros k' vs' Hin. apply (Hj k' vs'). now right.
Qed.

Lemma assign_ranks_at (results : list raw_result) (p : nat)
    (r : raw_result) :
  results !! p = Some r ->
  exists a,
    ranking results (members results (distance r, category r)) !! a = Some p
    /\ assign_ranks results !! p = Some (set_rank (Z.of_nat a + 1) r).
Proof.
  intros Hp. unfold assign_ranks.
  set (gs := ODict.group_by (group_key results)
                            (seq 0 (List.length results))).
  destruct (group_by_well_grouped (group_key results)
              (seq 0 (List.length results))) as (Hnd & _ & _ & Hall).
  fold gs in Hnd, Hall.
  assert (forall k vs, (k, vs) ∈ gs -> vs = members results k) as Hgs.
  { intros k vs Hin. exact (group_by_members _ _ _ _ Hin). }
  destruct (fold_ranks results gs results eq_refl Hnd Hgs) as (_ & F2 & _).
  assert (p < List.length results)%nat as Hlt
    by (eapply lookup_lt_Some; exact Hp).
  assert (group_key results p = (distance r, category r)) as Hk
    by (unfold group_key; now rewrite Hp).
  destruct (Hall p) as (vs & Hin & Hpin).
  { apply list_elem_of_In, in_seq. lia. }
  rewrite Hk in Hin. pose proof (Hgs _ _ Hin) as ->.
  assert (p ∈ ranking results (members results (distance r, category r)))
    as Hr by (now apply elem_of_sort).
  apply list_elem_of_lookup_1 in Hr as [a Ha].
  exists a. split; [exact Ha|].
  exact (F2 _ _ a p r Hin Ha Hp).
Qed.

(** X17.  The ranks [parse_event_time_results_page] assigns.  Nothing
    but the rank of a result changes.  Among the results of one distance
    and category the ranks are the numbers from 1 on, each given once: a
    result ranks before another exactly when the text of its time is the
    smaller string, or the texts are equal and it comes first on the
    page. *)
Theorem assign_ranks_order (results : list raw_result) :
  fields <$> assign_ranks results = fields <$> results
  /\ (forall p a,
        assign_ranks results !! p = Some a ->
        1 <= rank a
        <= Z.of_nat
             (List.length
                (List.filter
                   (fun x => bool_decide ((distance x, category x)
                                          = (distance a, category a)))
                   results)))
  /\ (forall p q a b,
        p <> q ->
        assign_ranks results !! p = Some a ->
        assign_ranks results !! q = Some b ->
        distance a = distance b -> category a = category b ->
        (rank a < rank b
         <-> String.ltb (time a) (time b) = true
             \/ (time a = time b /\ (p < q)%nat))).
Proof.
  assert (fields <$> assign_ranks results = fields <$> results) as E.
  { unfold assign_ranks.
    destruct (group_by_well_grouped (group_key results)
                (seq 0 (List.length results))) as (Hnd & _).
    apply (fold_ranks results _ results eq_refl Hnd).
    intros k vs Hin. exact (group_by_members _ _ _ _ Hin). }
  assert (forall p a, assign_ranks results !! p = Some a ->
            exists r, results !! p = Some r) as Hback.
  { intros p a Ha. apply lookup_lt_is_Some_2.
    apply lookup_lt_Some in Ha.
    apply (f_equal List.length) in E. rewrite !length_fmap in E. lia. }
  split; [exact E|]. split.
  - intros p a Ha. destruct (Hback p a Ha) as (r & Hr).
    destruct (assign_ranks_at results p r Hr) as (i & Hi & Hp).
    rewrite Hp in Ha. injection Ha as <-. simpl.
    apply lookup_lt_Some in Hi.
    unfold ranking in Hi.
    rewrite (Permutation_length (TimelineEdges.sort_perm _ _)) in Hi.
    rewrite members_length in Hi. lia.
  - intros p q a b Hne Ha Hb Hd Hc.
    destruct (Hback p a Ha) as (r & Hr). destruct (Hback q b Hb) as (s & Hs).
    destruct (assign_ranks_at results p r Hr) as (i & Hi & Hp).
    destruct (assign_ranks_at results q s Hs) as (j & Hj & Hq).
    rewrite Hp in Ha. injection Ha as <-.
    rewrite Hq in Hb. injection Hb as <-.
    simpl in Hd, Hc |- *. rewrite <- Hd, <- Hc in Hj.
    set (l := ranking results (members results (distance r, category r))) in *.
    assert (StronglySorted (before results) l) as Hsorted
      by (apply sort_before, members_sorted).
    assert (before results p q
            <-> String.ltb (time r) (time s) = true
                \/ (time r = time s /\ (p < q)%nat)) as Hbefore.
    { unfold before, by_time, time_of. now rewrite Hr, Hs. }
    rewrite <- Hbefore.
    assert (i <> j) as Hij by (intros ->; congruence).
    split.
    + intros Hlt.
      apply (TimelineOrder.sorted_lookup (before results) l i j p q Hsorted);
        [lia|exact Hi|exact Hj].
    + intros Hpq. destruct (Nat.lt_total i j) as [H|[H|H]]; [lia|lia|].
      exfalso. apply (before_asym results p q Hpq).
      exact (TimelineOrder.sorted_lookup (before results) l j i q p
               Hsorted H Hj Hi).
Qed.

Lemma assign_ranks_order_witness :
  let slow := {| rank := 0; skater := "Marcus Howard"; time := "10:05.123";
                 distance := "3000m"; category := "Mixed" |} in
  let fast := {| rank := 0; skater := "Stella Hurley"; time := "9:58.000";
                 distance := "3000m"; category := "Mixed" |} in
  rank (set_rank 1 slow) < rank (set_rank 2 fast)
  <-> String.ltb (time (set_rank 1 slow)) (time (set_rank 2 fast)) = true
      \/ (time (set_rank 1 slow) = time (set_rank 2 fast) /\ (0 < 1)%nat).
Proof.
  intros slow fast.
  apply (proj2 (proj2 (assign_ranks_order [slow; fast])) 0%nat 1%nat).
  - lia.
  - vm_compute. reflexivity.
  - vm_compute. reflexivity.
  - reflexivity.
  - reflexivity.
Defined.

End EventRanks.

(* ===================================================================== *)
(** ** The category names of the PDF parser *)
(* ===================================================================== *)

Module Categories.
Import PyStr PdfResults.













End Categories.

(* ===================================================================== *)
(** ** What [load_uss_results] stores *)
(* ===================================================================== *)

Module LoadedResults.
Import PyStr PyFloat BuildTimeTrends Plausibility.

Lemma normalize_distance_standard_value (d : option Z) (v : Z) :
  normalize_distance d = Some v -> In v standard_distances.
Proof.
  unfold normalize_distance. destruct d as [d|]; [|discriminate].
  destruct (d =? 0); [discriminate|].
  destruct (List.find (in_mapping d) mappings) as [[[lo hi] w]|] eqn:Hf.
  - intros [= <-]. apply find_some in Hf as [Hin _]. simpl in Hin.
    repeat (destruct Hin as [[= <- <- <-]|Hin]; [simpl; tauto|]).
    destruct Hin.
  - destruct (existsb (Z.eqb d) standard_distances) eqn:He.
    + intros [= <-]. apply existsb_exists in He as (x & Hx & ->%Z.eqb_eq).
      exact Hx.
    + destruct (_ || _); discriminate.
Qed.

Section Stored.
Variable parse_date : option string -> option Z.

(** What holds of a result stored under the key [k]. *)
Definition stored (k : string) (r : result) : Prop :=
  (exists name, PyStr.truthy name = true /\ k = normalize_name name)
  /\ distance r <> 0
  /\ is_valid_time_for_distance (time r) (distance r) = true
  /\ match source r with
     | uss_pdf => True
     | uss_hist => In (distance r) standard_distances
     | stl => In (distance r) standard_distances
              /\ date r = parse_date (Some (competition r))
     end.

Definition all_stored (d : gmap string (list result)) : Prop :=
  forall k rs, d !! k = Some rs -> rs <> [] /\ Forall (stored k) rs.

Lemma dict_append_stored (k : string) (r : result)
    (d : gmap string (list result)) :
  all_stored d -> stored k r -> all_stored (dict_append k r d).
Proof.
  intros Hd Hr k' rs. unfold dict_append.
  destruct (decide (k = k')) as [<-|Hne].
  - rewrite lookup_insert_eq. intros [= <-]. split.
    + now destruct (default [] (d !! k)).
    + apply Forall_app. split; [|constructor; [exact Hr|constructor]].
      destruct (d !! k) as [old|] eqn:Hold; simpl;
        [now apply (Hd k) | constructor].
  - rewrite lookup_insert_ne by exact Hne. apply Hd.
Qed.

Lemma truthy_name (name : string) (b c : bool) :
  negb (PyStr.truthy name) || b || c = false -> PyStr.truthy name = true.
Proof. destruct (PyStr.truthy name); [reflexivity|discriminate]. Qed.

Lemma nonzero (name : bool) (b : bool) (d : Z) :
  name || b || (d =? 0) = false -> d <> 0.
Proof.
  intros H ->. rewrite orb_true_r in H. discriminate.
Qed.

Lemma load_pdf_row_stored (d : gmap string (list result)) (row : uss_row) :
  all_stored d -> all_stored (load_pdf_row parse_date d row).
Proof.
  intros Hd. unfold load_pdf_row.
  destruct (parse_time (row_time row)) as [t|]; [|exact Hd].
  destruct (first_number _) as [dist|]; [|exact Hd].
  destruct (_ || _) eqn:Hguard; [exact Hd|].
  destruct (is_valid_time_for_distance t dist) eqn:Hv; [|exact Hd].
  apply dict_append_stored; [exact Hd|].
  split; [|split; [|split]]; simpl.
  - eexists. split; [|reflexivity]. exact (truthy_name _ _ _ Hguard).
  - exact (nonzero _ _ _ Hguard).
  - exact Hv.
  - exact I.
Qed.

Lemma load_hist_row_stored (d : gmap string (list result)) (row : uss_row) :
  all_stored d -> all_stored (load_hist_row parse_date d row).
Proof.
  intros Hd. unfold load_hist_row.
  destruct (negb (PyStr.truthy _)); [exact Hd|].
  destruct (parse_time (row_time row)) as [t|]; [|exact Hd].
  destruct (normalize_distance _) as [dist|] eqn:Hn; [|exact Hd].
  destruct (_ || _) eqn:Hguard; [exact Hd|].
  destruct (is_valid_time_for_distance t dist) eqn:Hv; [|exact Hd].
  apply dict_append_stored; [exact Hd|].
  split; [|split; [|split]]; simpl.
  - eexists. split; [|reflexivity]. exact (truthy_name _ _ _ Hguard).
  - exact (nonzero _ _ _ Hguard).
  - exact Hv.
  - exact (normalize_distance_standard_value _ _ Hn).
Qed.

Lemma load_stl_comp_stored (d : gmap string (list result)) (comp : stl_comp) :
  all_stored d -> all_stored (load_stl_comp parse_date d comp).
Proof.
  unfold load_stl_comp. apply fold_left_preserves.
  intros d' event Hd'. unfold load_stl_event.
  destruct (normalize_distance (ev_distance event)) as [dist|] eqn:Hn;
    [|exact Hd'].
  destruct (dist =? 0) eqn:Hz; [exact Hd'|].
  apply fold_left_preserves; [|exact Hd'].
  intros d'' res Hd''. unfold load_stl_result.
  destruct (parse_time (sr_time res)) as [t|]; [|exact Hd''].
  destruct (_ || _) eqn:Hguard; [exact Hd''|].
  destruct (is_valid_time_for_distance t dist) eqn:Hv; [|exact Hd''].
  apply dict_append_stored; [exact Hd''|].
  split; [|split; [|split]]; simpl.
  - eexists. split; [|reflexivity].
    destruct (PyStr.truthy (default "" (sr_name res)));
      [reflexivity|discriminate].
  - now apply Z.eqb_neq.
  - exact Hv.
  - split; [exact (normalize_distance_standard_value _ _ Hn)|reflexivity].
Qed.

Lemma load_uss_results_stored (pdf_rows hist_rows : list uss_row)
    (stl_files : list (list stl_comp)) :
  all_stored (load_uss_results parse_date pdf_rows hist_rows stl_files).
Proof.
  unfold load_uss_results.
  apply fold_left_preserves.
  { intros d file. apply fold_left_preserves.
    intros d' comp. apply load_stl_comp_stored. }
  apply fold_left_preserves; [intros d row; apply load_hist_row_stored|].
  apply fold_left_preserves; [intros d row; apply load_pdf_row_stored|].
  intros k rs Hk. rewrite lookup_empty in Hk. discriminate.
Qed.

End Stored.

(** X19.  What [load_uss_results] stores: a key is the normalised form
    of a name that was not empty and no key has an empty list; a stored
    result has a distance other than 0 and a time that passed the
    plausibility filter.  A result from the historical file or from a
    scraped file has one of the seven standard distances, and the date of a
    result from a scraped file is the one read out of the name of its
    competition. *)
Theorem load_uss_results_entries
    (parse_date : option string -> option Z)
    (pdf_rows hist_rows : list uss_row) (stl_files : list (list stl_comp))
    (k : string) (rs : list result) :
  load_uss_results parse_date pdf_rows hist_rows stl_files !! k = Some rs ->
  rs <> []
  /\ (exists name, PyStr.truthy name = true /\ k = normalize_name name)
  /\ forall r, r ∈ rs ->
       distance r <> 0
       /\ is_valid_time_for_distance (time r) (distance r) = true
       /\ (source r <> uss_pdf -> In (distance r) standard_distances)
       /\ (source r = stl -> date r = parse_date (Some (competition r))).
Proof.
  intros Hk.
  destruct (load_uss_results_stored parse_date pdf_rows hist_rows stl_files
              k rs Hk) as [Hne Hall].
  split; [exact Hne|]. split.
  - destruct rs as [|r rs]; [congruence|].
    apply Forall_cons in Hall as [(Hname & _) _]. exact Hname.
  - intros r Hr. rewrite Forall_forall in Hall.
    destruct (Hall r Hr) as (_ & Hd & Hv & Hs).
    split; [exact Hd|]. split; [exact Hv|].
    destruct (source r); split; try tauto; try congruence;
      intros; tauto.
Qed.

Lemma load_uss_results_entries_witness :
  let row :=
    {| row_skater := Some "CHEN Daniel USA-PSSP"; row_time := Some "0:44.100";
       row_distance := Some "499m"; row_competition := Some "Fall Classic";
       row_date := Some "2023-10-15"; row_rank := Some 2;
       row_place := None |} in
  let r :=
    {| distance := 499; time := fin 44.1; time_str := Some "0:44.100";
       competition := "Fall Classic"; date := None; place := Some 2;
       source := uss_pdf |} in
  [r] <> []
  /\ (exists name, PyStr.truthy name = true
                   /\ "chen daniel" = normalize_name name)
  /\ forall r', r' ∈ [r] ->
       distance r' <> 0
       /\ is_valid_time_for_distance (time r') (distance r') = true
       /\ (source r' <> uss_pdf -> In (distance r') standard_distances)
       /\ (source r' = stl -> date r' = None).
Proof.
  intros row r.
  apply (load_uss_results_entries (fun _ => None) [row] [] [] "chen daniel").
  vm_compute. reflexivity.
Defined.

End LoadedResults.

(* ===================================================================== *)
(** ** scripts/build_time_trends.py: parse_date *)
(* ===================================================================== *)

Module ParseDate.
Import PyStr.

(** *** Matching with groups

    The matcher of [Re], returning besides what follows the match the
    text each atom of the pattern matched. *)

Section Pieces.
Variable k : bool -> string -> option (list string * string).

Fixpoint try_rep (at_start : bool) (s : string) (lo n : nat)
  : option (list string * string) :=
  if (n <? lo)%nat then None
  else match k (at_start && (n =? 0)%nat) (drop n s) with
       | Some (pieces, rest) => Some (take n s :: pieces, rest)
       | None =>
           match n with
           | O => None
           | S n' => try_rep at_start s lo n'
           end
       end.

Fixpoint try_alts (at_start : bool) (s : string) (icase : bool)
    (alts : list string) : option (list string * string) :=
  match alts with
  | [] => None
  | lit :: alts' =>
      match Re.strip_lit icase lit s with
      | Some s' =>
          match k (at_start && negb (truthy lit)) s' with
          | Some (pieces, rest) =>
              Some (take (String.length lit) s :: pieces, rest)
          | None => try_alts at_start s icase alts'
          end
      | None => try_alts at_start s icase alts'
      end
  end.
End Pieces.

Definition with_piece (p : string) (m : option (list string * string))
  : option (list string * string) :=
  match m with
  | Some (pieces, rest) => Some (p :: pieces, rest)
  | None => None
  end.

Fixpoint match_pieces (r : Re.regex) (at_start : bool) (s : string)
  : option (list string * string) :=
  match r with
  | [] => Some ([], s)
  | Re.Rep cls lo hi :: r' =>
      try_rep (match_pieces r') at_start s lo (Re.run cls hi s)
  | Re.Alt alts icase :: r' =>
      try_alts (match_pieces r') at_start s icase alts
  | Re.Bol :: r' =>
      if at_start then with_piece "" (match_pieces r' at_start s) else None
  | Re.Eol :: r' =>
      if Re.at_end s then with_piece "" (match_pieces r' at_start s)
      else None
  end.

(** [re.search(r, s)]: the pieces of the leftmost match. *)
Fixpoint search_go (r : Re.regex) (at_start : bool) (s : string)
  : option (list string) :=
  match match_pieces r at_start s with
  | Some (pieces, _) => Some pieces
  | None =>
      match s with
      | EmptyString => None
      | String _ s' => search_go r false s'
      end
  end.
Definition search (r : Re.regex) (s : string) : option (list string) :=
  search_go r true s.

(** *** Dates

    A [datetime] at midnight is known by its ordinal, the number of the
    day counted from 0001-01-01, which is day 1. *)

Definition is_leap (year : Z) : bool :=
  (year mod 4 =? 0) && (negb (year mod 100 =? 0) || (year mod 400 =? 0)).

Definition days_in_month (year month : Z) : Z :=
  if month =? 2 then (if is_leap year then 29 else 28)
  else if (month =? 4) || (month =? 6) || (month =? 9) || (month =? 11)
       then 30
       else 31.

Definition days_before_year (year : Z) : Z :=
  let y := year - 1 in
  y * 365 + y / 4 - y / 100 + y / 400.

Definition days_before_month (year month : Z) : Z :=
  fold_left (fun acc m => acc + days_in_month year m)
            (List.map Z.of_nat (seq 1 (Z.to_nat (month - 1)))) 0.

Definition ymd2ord (year month day : Z) : Z :=
  days_before_year year + days_before_month year month + day.

(** [datetime(year, month, day)], which raises [ValueError] for what is
    no date. *)
Definition datetime (year month day : Z) : option Z :=
  if (1 <=? year) && (year <=? 9999) && (1 <=? month) && (month <=? 12)
     && (1 <=? day) && (day <=? days_in_month year month)
  then Some (ymd2ord year month day)
  else None.

(** [int(s)] for a string of decimal digits with blanks around it. *)
Definition int (s : string) : Z := digits_val (strip s).

(** The alternatives of the directives [%m] and [%d] of [strptime], in
    the order in which they are tried: [1[0-2]|0[1-9]|[1-9]] and
    [3[0-1]|[1-2]\d|0[1-9]|[1-9]| [1-9]]. *)
Definition months : list string :=
  [ "10"; "11"; "12";
    "01"; "02"; "03"; "04"; "05"; "06"; "07"; "08"; "09";
    "1"; "2"; "3"; "4"; "5"; "6"; "7"; "8"; "9" ].

Definition days : list string :=
  [ "30"; "31";
    "10"; "11"; "12"; "13"; "14"; "15"; "16"; "17"; "18"; "19";
    "20"; "21"; "22"; "23"; "24"; "25"; "26"; "27"; "28"; "29";
    "01"; "02"; "03"; "04"; "05"; "06"; "07"; "08"; "09";
    "1"; "2"; "3"; "4"; "5"; "6"; "7"; "8"; "9";
    " 1"; " 2"; " 3"; " 4"; " 5"; " 6"; " 7"; " 8"; " 9" ].

(** The pattern [strptime] makes of ['%Y-%m-%d']:
    [(\d\d\d\d)-(1[0-2]|0[1-9]|[1-9])-(3[0-1]|[1-2]\d|0[1-9]|[1-9]| [1-9])]
    under [re.IGNORECASE]. *)
Definition iso_format : Re.regex :=
  [ Re.times isdigit 4; Re.Alt ["-"] true; Re.Alt months true;
    Re.Alt ["-"] true; Re.Alt days true ].

(** [datetime.strptime(data_string, '%Y-%m-%d')]: the pattern must match
    at the front of the string and leave nothing over, and the numbers
    must be a date; [None] for [ValueError]. *)
Definition strptime (data_string : string) : option Z :=
  match match_pieces iso_format true data_string with
  | Some ([year; _; month; _; day], rest) =>
      if truthy rest then None
      else datetime (int year) (int month) (int day)
  | _ => None
  end.

(** [(\d{1,2})\.(\d{1,2})\.\s*-\s*\d{1,2}\.\d{1,2}\.(\d{4})] *)
Definition date_range : Re.regex :=
  [ Re.Rep isdigit 1 (Some 2%nat); Re.lit "."; Re.Rep isdigit 1 (Some 2%nat);
    Re.lit "."; Re.star isspace; Re.lit "-"; Re.star isspace;
    Re.Rep isdigit 1 (Some 2%nat); Re.lit "."; Re.Rep isdigit 1 (Some 2%nat);
    Re.lit "."; Re.times isdigit 4 ].

(** [(\d{1,2})\.(\d{1,2})\.(\d{4})] *)
Definition single_date : Re.regex :=
  [ Re.Rep isdigit 1 (Some 2%nat); Re.lit "."; Re.Rep isdigit 1 (Some 2%nat);
    Re.lit "."; Re.times isdigit 4 ].

(** [datetime(int(year), int(month), int(day))] for the groups of a
    match, the year being the piece at [year_at]; [None] when there is no
    match or the constructor raises. *)
Definition date_of_groups (year_at : nat) (m : option (list string))
  : option Z :=
  match m with
  | Some pieces =>
      datetime (int (nth year_at pieces "")) (int (nth 2 pieces ""))
               (int (nth 0 pieces ""))
  | None => None
  end.

Definition parse_date (date_str : option string) : option Z :=
  match date_str with
  | None => None
  | Some date_str =>
      if negb (truthy date_str) then None
      else
        match strptime (take 10 date_str) with
        | Some date => Some date
        | None =>
            match date_of_groups 11 (search date_range date_str) with
            | Some date => Some date
            | None => date_of_groups 4 (search single_date date_str)
            end
        end
  end.

End ParseDate.

(* ===================================================================== *)
(** ** The dates [parse_date] reads *)
(* ===================================================================== *)

Module Dates.
Import PyStr ParseDate.

(** *** The matcher with groups and the matcher of [Re] *)

Section Agree.
Variable k : bool -> string -> option string.
Variable k' : bool -> string -> option (list string * string).
Hypothesis k_agree : forall b s, snd <$> k' b s = k b s.

Lemma try_rep_rest (at_start : bool) (s : string) (lo n : nat) :
  snd <$> try_rep k' at_start s lo n = Re.try_rep k at_start s lo n.
Proof.
  induction n as [|n IH]; simpl.
  - destruct (0 <? lo)%nat; [reflexivity|].
    rewrite <- k_agree. now destruct (k' _ _) as [[ps rest]|].
  - destruct (S n <? lo)%nat; [reflexivity|].
    rewrite <- k_agree. destruct (k' _ _) as [[ps rest]|]; [reflexivity|].
    exact IH.
Qed.

Lemma try_alts_rest (at_start : bool) (s : string) (icase : bool)
    (alts : list string) :
  snd <$> try_alts k' at_start s icase alts
  = Re.try_alts k at_start s icase alts.
Proof.
  induction alts as [|lit alts IH]; simpl; [reflexivity|].
  destruct (Re.strip_lit icase lit s) as [s'|]; [|exact IH].
  rewrite <- k_agree. destruct (k' _ _) as [[ps rest]|]; [reflexivity|].
  exact IH.
Qed.
End Agree.

(** The matcher with groups finds a match exactly when the matcher of
    [Re] does, and the same one. *)
Lemma match_pieces_rest (r : Re.regex) (at_start : bool) (s : string) :
  snd <$> match_pieces r at_start s = Re.match_here r at_start s.
Proof.
  revert at_start s. induction r as [|a r IH]; intros at_start s;
    [reflexivity|].
  destruct a as [cls lo hi|alts icase| |]; simpl.
  - now apply try_rep_rest.
  - now apply try_alts_rest.
  - destruct at_start; [|reflexivity].
    rewrite <- IH. now destruct (match_pieces r true s) as [[ps rest]|].
  - destruct (Re.at_end s); [|reflexivity].
    rewrite <- IH. now destruct (match_pieces r at_start s) as [[ps rest]|].
Qed.

(** *** The calendar *)

Definition is_date (year month day : Z) : Prop :=
  1 <= year <= 9999 /\ 1 <= month <= 12
  /\ 1 <= day <= days_in_month year month.

Lemma datetime_date (year month day : Z) :
  is_date year month day ->
  datetime year month day = Some (ymd2ord year month day).
Proof.
  intros ([H1 H2] & [H3 H4] & [H5 H6]). unfold datetime.
  apply Z.leb_le in H1, H2, H3, H4, H5, H6.
  now rewrite H1, H2, H3, H4, H5, H6.
Qed.

Lemma datetime_some (year month day n : Z) :
  datetime year month day = Some n ->
  is_date year month day /\ n = ymd2ord year month day.
Proof.
  unfold datetime, is_date.
  destruct (_ && _) eqn:H; [|discriminate]. intros [= <-].
  repeat (apply andb_true_iff in H as [H ?]).
  repeat match goal with
         | H : (_ <=? _) = true |- _ => apply Z.leb_le in H
         end.
  lia.
Qed.

Lemma days_before_year_range (year : Z) :
  1 <= year <= 9999 ->
  0 <= days_before_year year
  /\ days_before_year year + (if is_leap year then 366 else 365) <= 3652059.
Proof.
  intros H. unfold days_before_year, is_leap.
  destruct (Z.eqb_spec (year mod 4) 0), (Z.eqb_spec (year mod 100) 0),
    (Z.eqb_spec (year mod 400) 0); simpl;
    Z.div_mod_to_equations; lia.
Qed.

Lemma days_before_month_range (year month : Z) :
  1 <= month <= 12 ->
  0 <= days_before_month year month
  /\ days_before_month year month + days_in_month year month
     <= (if is_leap year then 366 else 365)
  /\ 28 <= days_in_month year month <= 31.
Proof.
  intros H.
  assert (month = 1 \/ month = 2 \/ month = 3 \/ month = 4 \/ month = 5
          \/ month = 6 \/ month = 7 \/ month = 8 \/ month = 9
          \/ month = 10 \/ month = 11 \/ month = 12) as Hm by lia.
  unfold days_before_month, days_in_month.
  repeat (destruct Hm as [->|Hm]; [simpl; destruct (is_leap year); lia|]).
  subst. simpl. destruct (is_leap year); lia.
Qed.

Lemma ymd2ord_range (year month day : Z) :
  is_date year month day -> 1 <= ymd2ord year month day <= 3652059.
Proof.
  intros (Hy & Hm & Hd). unfold ymd2ord.
  pose proof (days_before_year_range year Hy).
  pose proof (days_before_month_range year month Hm).
  destruct (is_leap year); lia.
Qed.

Lemma date_of_groups_date (year_at : nat) (m : option (list string))
    (n : Z) :
  date_of_groups year_at m = Some n ->
  exists year month day,
    is_date year month day /\ n = ymd2ord year month day.
Proof.
  unfold date_of_groups. destruct m as [pieces|]; [|discriminate].
  intros H%datetime_some. eauto.
Qed.

(** X20.  Whatever the string, a date [parse_date] returns is a day of
    the calendar in the years 1 to 9999, and so one of the days 1 (for
    0001-01-01) to 3652059 (for 9999-12-31); a missing or empty string has
    no date. *)
Theorem parse_date_gives_a_date :
  (forall (date_str : option string) (n : Z),
      parse_date date_str = Some n ->
      1 <= n <= 3652059
      /\ exists year month day,
           1 <= year <= 9999 /\ 1 <= month <= 12
           /\ 1 <= day <= days_in_month year month
           /\ n = ymd2ord year month day)
  /\ parse_date None = None
  /\ parse_date (Some "") = None.
Proof.
  split; [|split; reflexivity].
  intros date_str n Hn.
  assert (exists year month day,
             is_date year month day /\ n = ymd2ord year month day)
    as (year & month & day & Hdate & ->).
  { unfold parse_date in Hn. destruct date_str as [s|]; [|discriminate].
    destruct (negb (truthy s)); [discriminate|].
    destruct (strptime (take 10 s)) as [d|] eqn:Hiso.
    - injection Hn as ->. unfold strptime in Hiso.
      destruct (match_pieces iso_format true (take 10 s))
        as [[[|y [|a [|m [|b [|d [|]]]]]] rest]|]; try discriminate.
      destruct (truthy rest); [discriminate|].
      apply datetime_some in Hiso. eauto.
    - destruct (date_of_groups 11 _) as [d|] eqn:Hrange.
      + injection Hn as ->. exact (date_of_groups_date _ _ _ Hrange).
      + exact (date_of_groups_date _ _ _ Hn). }
  split; [now apply ymd2ord_range|].
  exists year, month, day. unfold is_date in Hdate. tauto.
Qed.

Lemma parse_date_gives_a_date_witness :
  1 <= 738808 <= 3652059
  /\ exists year month day,
       1 <= year <= 9999 /\ 1 <= month <= 12
       /\ 1 <= day <= days_in_month year month
       /\ 738808 = ymd2ord year month day.
Proof.
  apply (proj1 parse_date_gives_a_date (Some "2023-10-15T00:00:00")).
  vm_compute. reflexivity.
Defined.

(** *** Dates written out *)

(** The character of a decimal digit. *)
Definition digit (n : Z) : ascii := ascii_of_nat (48 + Z.to_nat n).

(** A number in two and in four digits. *)
Definition two (n : Z) : string :=
  String (digit (n / 10)) (String (digit (n mod 10)) "").
Definition four (n : Z) : string :=
  String (digit (n / 1000))
    (String (digit (n / 100 mod 10))
       (String (digit (n / 10 mod 10)) (String (digit (n mod 10)) ""))).

(** [date.isoformat()] *)
Definition isoformat (year month day : Z) : string :=
  four year ++ "-" ++ two month ++ "-" ++ two day.

Lemma digit_spec (n : Z) :
  0 <= n <= 9 ->
  isdigit (digit n) = true /\ isspace (digit n) = false
  /\ digit_val (digit n) = n.
Proof.
  intros H. rewrite <- (Z2Nat.id n) by lia.
  assert (Z.to_nat n < 10)%nat as Hk by lia.
  destruct (Z.to_nat n) as [|[|[|[|[|[|[|[|[|[|k]]]]]]]]]];
    [vm_compute; repeat split..|lia].
Qed.

Lemma int_two (n : Z) : 0 <= n <= 99 -> int (two n) = n.
Proof.
  intros H.
  destruct (digit_spec (n / 10)) as (_ & Hs1 & Hv1);
    [Z.div_mod_to_equations; lia|].
  destruct (digit_spec (n mod 10)) as (_ & Hs2 & Hv2);
    [Z.div_mod_to_equations; lia|].
  unfold int, two. rewrite StrFacts.strip_fixed.
  - unfold digits_val. cbn [digits_val_acc]. rewrite Hv1, Hv2.
    Z.div_mod_to_equations. lia.
  - cbn [StrFacts.head_not]. now rewrite Hs1.
  - cbn [StrFacts.last_not]. now rewrite Hs2.
Qed.

Lemma four_digits (n : Z) :
  0 <= n <= 9999 ->
  0 <= n / 1000 <= 9 /\ 0 <= n / 100 mod 10 <= 9
  /\ 0 <= n / 10 mod 10 <= 9 /\ 0 <= n mod 10 <= 9
  /\ 10 * (10 * (10 * (n / 1000) + n / 100 mod 10) + n / 10 mod 10)
     + n mod 10 = n.
Proof. intros H. Z.div_mod_to_equations. lia. Qed.

Lemma int_four (n : Z) : 0 <= n <= 9999 -> int (four n) = n.
Proof.
  intros H. destruct (four_digits n H) as (H1 & H2 & H3 & H4 & E).
  destruct (digit_spec _ H1) as (_ & Hs1 & Hv1).
  destruct (digit_spec _ H2) as (_ & _ & Hv2).
  destruct (digit_spec _ H3) as (_ & _ & Hv3).
  destruct (digit_spec _ H4) as (_ & Hs4 & Hv4).
  unfold int, four. rewrite StrFacts.strip_fixed.
  - unfold digits_val. cbn [digits_val_acc].
    rewrite Hv1, Hv2, Hv3, Hv4. lia.
  - cbn [StrFacts.head_not]. now rewrite Hs1.
  - cbn [StrFacts.last_not]. now rewrite Hs4.
Qed.

(** *** One step of a match that needs no backtracking *)

Lemma rep_step (cls : ascii -> bool) (lo : nat) (hi : option nat)
    (r : Re.regex) (b : bool) (s : string) (n : nat) (ps : list string)
    (rest : string) :
  Re.run cls hi s = n -> (lo <= n)%nat ->
  match_pieces r (b && (n =? 0)%nat) (drop n s) = Some (ps, rest) ->
  match_pieces (Re.Rep cls lo hi :: r) b s = Some (take n s :: ps, rest).
Proof.
  intros Hrun Hlo Hk. cbn [match_pieces]. rewrite Hrun.
  destruct n as [|n]; cbn [try_rep].
  - replace (0 <? lo)%nat with false by (symmetry; apply Nat.ltb_ge; lia).
    now rewrite Hk.
  - replace (S n <? lo)%nat with false by (symmetry; apply Nat.ltb_ge; lia).
    now rewrite Hk.
Qed.

Lemma rep_short (cls : ascii -> bool) (lo : nat) (hi : option nat)
    (r : Re.regex) (b : bool) (s : string) :
  (Re.run cls hi s < lo)%nat ->
  match_pieces (Re.Rep cls lo hi :: r) b s = None.
Proof.
  intros H. cbn [match_pieces].
  destruct (Re.run cls hi s) as [|n]; cbn [try_rep];
    now rewrite (proj2 (Nat.ltb_lt _ _) H).
Qed.

Lemma lit_step (l : string) (icase : bool) (r : Re.regex) (b : bool)
    (s s' : string) (ps : list string) (rest : string) :
  Re.strip_lit icase l s = Some s' ->
  match_pieces r (b && negb (truthy l)) s' = Some (ps, rest) ->
  match_pieces (Re.Alt [l] icase :: r) b s
  = Some (take (String.length l) s :: ps, rest).
Proof.
  intros Hl Hk. cbn [match_pieces try_alts]. now rewrite Hl, Hk.
Qed.

Lemma run_four (c1 c2 c3 c4 : ascii) (t : string) :
  isdigit c1 = true -> isdigit c2 = true -> isdigit c3 = true ->
  isdigit c4 = true ->
  Re.run isdigit (Some 4%nat) (String c1 (String c2 (String c3 (String c4 t))))
  = 4%nat.
Proof.
  intros H1 H2 H3 H4. cbn [Re.run]. rewrite H1, H2, H3, H4.
  now destruct t.
Qed.

Lemma run_two (c1 c2 : ascii) (t : string) :
  isdigit c1 = true -> isdigit c2 = true ->
  Re.run isdigit (Some 2%nat) (String c1 (String c2 t)) = 2%nat.
Proof.
  intros H1 H2. cbn [Re.run]. rewrite H1, H2. now destruct t.
Qed.

(** *** The ISO format *)

(** What follows the year of a date in ISO format is matched by the rest
    of the pattern, in the pieces that give the month and the day. *)
Definition reads_back (month day : Z) : Prop :=
  exists a m b d,
    match_pieces (List.tl iso_format) false
      ("-" ++ two month ++ "-" ++ two day) = Some ([a; m; b; d], "")
    /\ int m = month /\ int d = day.

Ltac read_back :=
  lazymatch goal with
  | |- reads_back ?month ?day =>
      let v := eval vm_compute in
                 (match_pieces (List.tl iso_format) false
                    ("-" ++ two month ++ "-" ++ two day)) in
      lazymatch v with
      | Some ([?a; ?m; ?b; ?d], _) =>
          exists a, m, b, d;
          split; [vm_compute; reflexivity|split; vm_compute; reflexivity]
      end
  end.

Ltac every_day := repeat (constructor; [read_back|]); constructor.

Lemma reads_back_all :
  List.Forall
    (fun m => List.Forall (fun d => reads_back (Z.of_nat m) (Z.of_nat d))
                          (seq 1 31))
    (seq 1 12).
Proof. repeat (constructor; [every_day|]). constructor. Qed.

Lemma iso_tail (month day : Z) :
  1 <= month <= 12 -> 1 <= day <= 31 -> reads_back month day.
Proof.
  intros Hm Hd.
  assert (reads_back (Z.of_nat (Z.to_nat month)) (Z.of_nat (Z.to_nat day)))
    as H.
  { assert (In (Z.to_nat month) (seq 1 12)) as Im by (apply in_seq; lia).
    assert (In (Z.to_nat day) (seq 1 31)) as Id by (apply in_seq; lia).
    pose proof (proj1 (List.Forall_forall _ _) reads_back_all _ Im) as Hmonth.
    cbv beta in Hmonth.
    exact (proj1 (List.Forall_forall _ _) Hmonth _ Id). }
  now rewrite !Z2Nat.id in H by lia.
Qed.

Lemma iso_year_step (c1 c2 c3 c4 : ascii) (t : string) (ps : list string)
    (rest : string) :
  isdigit c1 = true -> isdigit c2 = true -> isdigit c3 = true ->
  isdigit c4 = true ->
  match_pieces (List.tl iso_format) false t = Some (ps, rest) ->
  match_pieces iso_format true (String c1 (String c2 (String c3 (String c4 t))))
  = Some (String c1 (String c2 (String c3 (String c4 ""))) :: ps, rest).
Proof.
  intros H1 H2 H3 H4 Ht.
  apply (rep_step isdigit 4 (Some 4%nat) (List.tl iso_format) true
           (String c1 (String c2 (String c3 (String c4 t)))) 4 ps rest).
  - now apply run_four.
  - lia.
  - exact Ht.
Qed.

Lemma isoformat_chars (year month day : Z) :
  isoformat year month day
  = String (digit (year / 1000))
      (String (digit (year / 100 mod 10))
         (String (digit (year / 10 mod 10))
            (String (digit (year mod 10))
               ("-" ++ two month ++ "-" ++ two day)))).
Proof. reflexivity. Qed.

Lemma strptime_isoformat (year month day : Z) :
  0 <= year <= 9999 -> 1 <= month <= 12 -> 1 <= day <= 31 ->
  strptime (isoformat year month day) = datetime year month day.
Proof.
  intros Hy Hm Hd.
  destruct (four_digits year Hy) as (H1 & H2 & H3 & H4 & _).
  destruct (digit_spec _ H1) as (D1 & _).
  destruct (digit_spec _ H2) as (D2 & _).
  destruct (digit_spec _ H3) as (D3 & _).
  destruct (digit_spec _ H4) as (D4 & _).
  destruct (iso_tail month day Hm Hd) as (a & m & b & d & Htail & Em & Ed).
  pose proof (iso_year_step _ _ _ _ _ _ _ D1 D2 D3 D4 Htail) as Hmatch.
  unfold strptime. rewrite isoformat_chars, Hmatch.
  fold (four year). cbn [truthy]. now rewrite Em, Ed, int_four.
Qed.

(** X21.  A date written as [datetime.isoformat] writes it is read back
    as that date, whatever follows its first ten characters: the time of
    day, or anything else. *)
Theorem parse_date_reads_isoformat (year month day : Z) (rest : string) :
  1 <= year <= 9999 -> 1 <= month <= 12 ->
  1 <= day <= days_in_month year month ->
  parse_date (Some (isoformat year month day ++ rest))
  = Some (ymd2ord year month day).
Proof.
  intros Hy Hm Hd. unfold parse_date.
  change (truthy (isoformat year month day ++ rest)) with true.
  change (take 10 (isoformat year month day ++ rest))
    with (isoformat year month day).
  cbn [negb].
  pose proof (days_before_month_range year month Hm) as (_ & _ & Hdim).
  rewrite strptime_isoformat by lia.
  rewrite datetime_date; [reflexivity|]. unfold is_date. lia.
Qed.

Lemma parse_date_reads_isoformat_witness :
  parse_date (Some (isoformat 2024 2 29 ++ "T00:00:00"))
  = Some (ymd2ord 2024 2 29).
Proof.
  apply parse_date_reads_isoformat; vm_compute; split; discriminate.
Defined.

(** *** A range of days *)

Lemma run_two_dot (c1 c2 : ascii) (hi : nat) (t : string) :
  isdigit c1 = true -> isdigit c2 = true ->
  Re.run isdigit (Some (S (S (S hi)))) (String c1 (String c2 (String "." t)))
  = 2%nat.
Proof. intros H1 H2. cbn [Re.run]. now rewrite H1, H2. Qed.

Lemma run_blank (c : ascii) (t : string) :
  isspace c = false ->
  Re.run isspace None (String " " (String c t)) = 1%nat.
Proof. intros H. cbn [Re.run]. rewrite H. reflexivity. Qed.

Lemma search_found (r : Re.regex) (s : string) (ps : list string)
    (rest : string) :
  match_pieces r true s = Some (ps, rest) -> search r s = Some ps.
Proof.
  intros H. unfold search. destruct s; cbn [search_go]; now rewrite H.
Qed.

Ltac rep_with L :=
  eapply rep_step; [L | lia | cbn [drop andb Nat.eqb negb truthy]].
Ltac lit_here :=
  eapply lit_step; [reflexivity | cbn [andb negb truthy]].

Lemma range_pieces (a b c d e f g h y1 y2 y3 y4 : ascii) (t : string) :
  isdigit a = true -> isdigit b = true -> isdigit c = true ->
  isdigit d = true -> isdigit e = true -> isdigit f = true ->
  isdigit g = true -> isdigit h = true -> isdigit y1 = true ->
  isdigit y2 = true -> isdigit y3 = true -> isdigit y4 = true ->
  exists ps,
    match_pieces date_range true
      (String a (String b (String "." (String c (String d (String "."
         (String " " (String "-" (String " " (String e (String f (String "."
            (String g (String h (String "." (String y1 (String y2 (String y3
               (String y4 t)))))))))))))))))))
    = Some (ps, t)
    /\ nth 0 ps "" = String a (String b "")
    /\ nth 2 ps "" = String c (String d "")
    /\ nth 11 ps "" = String y1 (String y2 (String y3 (String y4 ""))).
Proof.
  intros Ha Hb Hc Hd He Hf Hg Hh H1 H2 H3 H4.
  destruct (FloatFacts.digit_classes e He) as (Se & _).
  eexists. split.
  - unfold date_range, Re.lit, Re.star, Re.times.
    rep_with ltac:(now apply run_two).
    lit_here.
    rep_with ltac:(now apply run_two).
    lit_here.
    rep_with ltac:(apply run_blank; reflexivity).
    lit_here.
    rep_with ltac:(now apply run_blank).
    rep_with ltac:(now apply run_two).
    lit_here.
    rep_with ltac:(now apply run_two).
    lit_here.
    rep_with ltac:(now apply run_four).
    reflexivity.
  - repeat split.
Qed.

Lemma strptime_not_iso (a b : ascii) (t : string) :
  isdigit a = true -> isdigit b = true ->
  strptime (String a (String b (String "." t))) = None.
Proof.
  intros Ha Hb. unfold strptime, iso_format, Re.times.
  rewrite rep_short; [reflexivity|].
  rewrite (run_two_dot a b 1 t Ha Hb). lia.
Qed.

Lemma two_digits (n : Z) :
  0 <= n <= 99 ->
  isdigit (digit (n / 10)) = true /\ isdigit (digit (n mod 10)) = true.
Proof.
  intros H.
  destruct (digit_spec (n / 10)) as (D1 & _); [Z.div_mod_to_equations; lia|].
  destruct (digit_spec (n mod 10)) as (D2 & _);
    [Z.div_mod_to_equations; lia|].
  now split.
Qed.

(** X22.  A competition name that starts with a range of days,
    [DD.MM. - DD.MM.YYYY], is dated with the first day and month of the
    range and the year written after the second, whatever follows: for a
    range across the new year the date is a year late. *)
Theorem parse_date_range_takes_end_year (d1 m1 d2 m2 year : Z)
    (rest : string) :
  0 <= d2 <= 99 -> 0 <= m2 <= 99 ->
  1 <= year <= 9999 -> 1 <= m1 <= 12 -> 1 <= d1 <= days_in_month year m1 ->
  parse_date
    (Some (two d1 ++ "." ++ two m1 ++ ". - " ++ two d2 ++ "." ++ two m2
           ++ "." ++ four year ++ rest))
  = Some (ymd2ord year m1 d1).
Proof.
  intros Hd2 Hm2 Hy Hm1 Hd1.
  pose proof (days_before_month_range year m1 Hm1) as (_ & _ & Hdim).
  destruct (two_digits d1) as (Da & Db); [lia|].
  destruct (two_digits m1) as (Dc & Dd); [lia|].
  destruct (two_digits d2 Hd2) as (De & Df).
  destruct (two_digits m2 Hm2) as (Dg & Dh).
  destruct (four_digits year) as (F1 & F2 & F3 & F4 & _); [lia|].
  destruct (digit_spec _ F1) as (Y1 & _).
  destruct (digit_spec _ F2) as (Y2 & _).
  destruct (digit_spec _ F3) as (Y3 & _).
  destruct (digit_spec _ F4) as (Y4 & _).
  destruct (range_pieces _ _ _ _ _ _ _ _ _ _ _ _ rest
              Da Db Dc Dd De Df Dg Dh Y1 Y2 Y3 Y4)
    as (ps & Hmatch & P0 & P2 & P11).
  unfold parse_date.
  change (two d1 ++ "." ++ two m1 ++ ". - " ++ two d2 ++ "." ++ two m2
          ++ "." ++ four year ++ rest)
    with (String (digit (d1 / 10)) (String (digit (d1 mod 10)) (String "."
           (String (digit (m1 / 10)) (String (digit (m1 mod 10)) (String "."
             (String " " (String "-" (String " "
               (String (digit (d2 / 10)) (String (digit (d2 mod 10))
                 (String "." (String (digit (m2 / 10))
                   (String (digit (m2 mod 10)) (String "."
                     (String (digit (year / 1000))
                       (String (digit (year / 100 mod 10))
                         (String (digit (year / 10 mod 10))
                           (String (digit (year mod 10)) rest))))))))))))))))))).
  cbn [truthy negb take].
  rewrite (strptime_not_iso _ _ _ Da Db).
  rewrite (search_found _ _ _ _ Hmatch).
  cbn [date_of_groups]. rewrite P0, P2, P11.
  fold (two d1). fold (two m1). fold (four year).
  rewrite !int_two, int_four by lia.
  rewrite datetime_date; [reflexivity|]. unfold is_date. lia.
Qed.

Lemma parse_date_range_takes_end_year_witness :
  parse_date
    (Some (two 30 ++ "." ++ two 12 ++ ". - " ++ two 2 ++ "." ++ two 1
           ++ "." ++ four 2024 ++ ", Holiday Cup"))
  = Some (ymd2ord 2024 12 30).
Proof.
  apply parse_date_range_takes_end_year; vm_compute; split; discriminate.
Defined.

End Dates.
